(** * mercury-orm: field descriptors, entities, record manager, attachments

    A shallow embedding of [mercuryorm/fields.py], [mercuryorm/base.py],
    [mercuryorm/file.py] and [mercuryfieldservice/record_manager.py].

    Conventions.
    - Python values are the inductive [value]; a Python [str] is a [string]
      whose characters are code points below 256.
    - A raising computation is a [result]; code that mutates an object and
      may raise half-way returns the object it has reached together with
      the outcome.
    - An instance [__dict__] is a [gmap string value]; a dict whose order may
      reach the wire is an association list ([pydict]).
    - The HTTP transport and the Python builtins the modules import
      ([re], [unidecode], [float], [uuid], [str] of composite values) are
      parameters, gathered in [Builtins] and [Transport]. *)

From Stdlib Require Import ZArith String Ascii List Lia Bool.
From Stdlib Require Import Floats.SpecFloat.
From stdpp Require Import base option list strings gmap pretty.

Local Set Warnings "-register-all".
Local Open Scope string_scope.
Local Open Scope Z_scope.

(** ** Python values *)

(** [file.py], class [AttachmentFile]: the attributes set by [__init__] and
    by [save].  [token] is absent until [save] has uploaded. *)
Record AttachmentFile_ (V : Type) : Type := mkAttachmentFile {
  _attachment_id : V;
  _attachment_url : V;
  _attachment_size : V;
  _attachment_filename : V;
  _content : V;
  saved : bool;
  token : option V
}.
Arguments mkAttachmentFile {V}.
Arguments _attachment_id {V}.
Arguments _attachment_url {V}.
Arguments _attachment_size {V}.
Arguments _attachment_filename {V}.
Arguments _content {V}.
Arguments saved {V}.
Arguments token {V}.

(** A [datetime.datetime]; [utcoffset] is the offset from UTC in minutes,
    [None] for a naive value. *)
Record datetime : Type := mkDatetime {
  year : Z; month : Z; day : Z;
  hour : Z; minute : Z; second : Z; microsecond : Z;
  utcoffset : option Z
}.

Inductive value : Type :=
| VNone
| VBool (b : bool)
| VInt (z : Z)
| VFloat (f : spec_float)
| VStr (s : string)
| VBytes (bs : list ascii)
| VList (l : list value)
| VDict (d : list (string * value))
| VClass (name : string)
| VObject (cls : string) (bases : list string) (attrs : list (string * value))
| VDatetime (dt : datetime)
| VAttachment (a : AttachmentFile_ value).

Abbreviation AttachmentFile := (AttachmentFile_ value).

(** The types [isinstance] is asked about in the modelled code. *)
Inductive pytype : Type :=
| TStr | TBool | TInt | TFloat | TList | TDict | TBytes | TNoneType
| TType | TDatetimeT | TAttachmentFile
| TClass (name : string).

Definition type_of (v : value) : pytype :=
  match v with
  | VNone => TNoneType
  | VBool _ => TBool
  | VInt _ => TInt
  | VFloat _ => TFloat
  | VStr _ => TStr
  | VBytes _ => TBytes
  | VList _ => TList
  | VDict _ => TDict
  | VClass _ => TType
  | VObject c _ _ => TClass c
  | VDatetime _ => TDatetimeT
  | VAttachment _ => TAttachmentFile
  end.

(** [isinstance(v, t)]: [bool] is a subclass of [int]; an object is an
    instance of its class and of the bases it lists. *)
Definition isinstance (v : value) (t : pytype) : bool :=
  match v, t with
  | VNone, TNoneType => true
  | VBool _, TBool => true
  | VBool _, TInt => true
  | VInt _, TInt => true
  | VFloat _, TFloat => true
  | VStr _, TStr => true
  | VBytes _, TBytes => true
  | VList _, TList => true
  | VDict _, TDict => true
  | VClass _, TType => true
  | VDatetime _, TDatetimeT => true
  | VAttachment _, TAttachmentFile => true
  | VObject c bases _, TClass n =>
      String.eqb c n || existsb (String.eqb n) bases
  | _, _ => false
  end.

(** [f == n] for a float [f] and an integer [n]. *)
Definition float_eq_Z (f : spec_float) (n : Z) : bool :=
  match f with
  | S754_zero _ => n =? 0
  | S754_finite s m e =>
      let mag := Z.pos m in
      let sgn := if s then -1 else 1 in
      if 0 <=? e then sgn * mag * 2 ^ e =? n
      else sgn * mag =? n * 2 ^ (- e)
  | _ => false
  end.

(** [v == n] for an integer literal [n]. *)
Definition py_eq_int (v : value) (n : Z) : bool :=
  match v with
  | VInt z => z =? n
  | VBool b => (if b then 1 else 0) =? n
  | VFloat f => float_eq_Z f n
  | _ => false
  end.

(** [v == s] for a string literal [s]. *)
Definition py_eq_str (v : value) (s : string) : bool :=
  match v with
  | VStr t => String.eqb t s
  | _ => false
  end.

(** [v in keys] for a list of strings [keys]. *)
Definition py_in_strs (v : value) (keys : list string) : bool :=
  existsb (py_eq_str v) keys.

Definition is_none (v : value) : bool :=
  match v with VNone => true | _ => false end.

(** Truth value of [v] ([bool(v)]); an [AttachmentFile] defines
    [__bool__] as [bool(self.id or self.content)]. *)
Fixpoint truthy (v : value) : bool :=
  match v with
  | VNone => false
  | VBool b => b
  | VInt z => negb (z =? 0)
  | VFloat f => match f with S754_zero _ => false | _ => true end
  | VStr s => negb (String.eqb s "")
  | VBytes bs => match bs with [] => false | _ => true end
  | VList l => match l with [] => false | _ => true end
  | VDict d => match d with [] => false | _ => true end
  | VClass _ => true
  | VObject _ _ _ => true
  | VDatetime _ => true
  | VAttachment a =>
      truthy (if truthy (_attachment_id a) then _attachment_id a
              else _content a)
  end.

(** [a or b]. *)
Definition py_or (a b : value) : value := if truthy a then a else b.

(** ** Exceptions and results *)

Inductive exn : Type :=
| FieldTypeError (field : string) (t : pytype)
| InvalidChoiceError (field : string) (v : value)
| InvalidDateFormatError (field : string)
| InvalidRegexError (field : string) (v : value)
| RegexCompileError (field : string)
| ReError (pattern : string)
| ValueError (msg : string)
| KeyError (key : string)
| IndexError
| TypeError
| AttributeError (attr : string)
| CreateRecordError (message : value)
| UpdateRecordError (message : value)
| DeleteRecordError (message : value)
| UniqueConstraintError (name : value)
| HTTPError (status : Z) (body : value)
| BadRequestError (msg : string)
| NotFoundError (model : string) (record_id : value)
| OtherError (msg : string).

Inductive result (A : Type) : Type :=
| Ok (a : A)
| Raise (e : exn).
Arguments Ok {A}.
Arguments Raise {A}.

Definition rbind {A B} (r : result A) (k : A -> result B) : result B :=
  match r with
  | Ok a => k a
  | Raise e => Raise e
  end.

Notation "'do' x <- c ; k" := (rbind c (fun x => k))
  (at level 10, x name, c at level 100, k at level 200).

Definition is_ok {A} (r : result A) : bool :=
  match r with Ok _ => true | Raise _ => false end.

(** ** Strings *)

Definition ascii_in (lo hi : N) (c : ascii) : bool :=
  ((lo <=? N_of_ascii c) && (N_of_ascii c <=? hi))%N.

Definition is_digit (c : ascii) : bool := ascii_in 48 57 c.

(** Upper-case letters among the code points below 256: [A-Z] and
    U+00C0..U+00DE without the multiplication sign U+00D7. *)
Definition is_upper (c : ascii) : bool :=
  ascii_in 65 90 c
  || (ascii_in 192 222 c && negb (N_of_ascii c =? 215)%N).

Definition lower_char (c : ascii) : ascii :=
  if is_upper c then ascii_of_N (N_of_ascii c + 32) else c.

(** [str.lower()]. *)
Fixpoint lower (s : string) : string :=
  match s with
  | EmptyString => EmptyString
  | String c s' => String (lower_char c) (lower s')
  end.

(** [s.replace(" ", "_")]. *)
Fixpoint replace_space (s : string) : string :=
  match s with
  | EmptyString => EmptyString
  | String c s' =>
      String (if Ascii.eqb c " " then "_"%char else c) (replace_space s')
  end.

(** [s.split("T")[0]]: the part of [s] before its first ["T"]. *)
Fixpoint before_T (s : string) : string :=
  match s with
  | EmptyString => EmptyString
  | String c s' =>
      if Ascii.eqb c "T" then EmptyString else String c (before_T s')
  end.

Definition has_upper (s : string) : bool :=
  existsb is_upper (list_ascii_of_string s).

(** ** Ordered dicts *)

Definition pydict (A : Type) : Type := list (string * A).

Fixpoint dict_get {A} (k : string) (d : pydict A) : option A :=
  match d with
  | [] => None
  | (k', v) :: d' => if String.eqb k' k then Some v else dict_get k d'
  end.

(** [d[k] = v]: overwrite in place, or append a new key. *)
Fixpoint dict_set {A} (k : string) (v : A) (d : pydict A) : pydict A :=
  match d with
  | [] => [(k, v)]
  | (k', v') :: d' =>
      if String.eqb k' k then (k', v) :: d' else (k', v') :: dict_set k v d'
  end.

(** [{**d, **e}]. *)
Definition dict_merge {A} (d e : pydict A) : pydict A :=
  fold_left (fun acc kv => dict_set (fst kv) (snd kv) acc) e d.


(** [v.get(k, dflt)]; only a dict has [get]. *)
Definition py_get (v : value) (k : string) (dflt : value) : result value :=
  match v with
  | VDict d => Ok (default dflt (dict_get k d))
  | _ => Raise (AttributeError "get")
  end.

(** [v[k]] for a string key. *)
Definition py_getitem (v : value) (k : string) : result value :=
  match v with
  | VDict d =>
      match dict_get k d with
      | Some x => Ok x
      | None => Raise (KeyError k)
      end
  | _ => Raise TypeError
  end.

(** [v[0]]. *)
Definition py_index0 (v : value) : result value :=
  match v with
  | VList (x :: _) => Ok x
  | VList [] => Raise IndexError
  | VStr (String c _) => Ok (VStr (String c EmptyString))
  | VStr EmptyString => Raise IndexError
  | VBytes (c :: _) => Ok (VInt (Z.of_N (N_of_ascii c)))
  | VBytes [] => Raise IndexError
  | VDict _ => Raise (KeyError "0")
  | _ => Raise TypeError
  end.

(** ** Builtins and transport *)

(** What the modules take from Python and third-party packages. *)
Record Builtins : Type := mkBuiltins {
  (** [unidecode.unidecode(s)] *)
  unidecode : string -> string;
  (** [re.compile(p)] returns a pattern ([true]) or raises [re.error] *)
  re_compiles : string -> bool;
  (** [bool(re.match(p, s))] for a pattern [p] that compiles *)
  re_match : string -> string -> bool;
  (** [float(v)] *)
  py_float : value -> result value;
  (** [str(uuid.uuid4())] *)
  uuid4 : string;
  (** [str(v)] for a value that is not [None], a bool, an int or a str *)
  str_other : value -> string
}.

Inductive request : Type :=
| GET (path : string) (params : value)
| POST (path : string) (data : value)
| PATCH (path : string) (data : value)
| PUT (path : string) (data : value)
| DELETE (path : string)
| UPLOAD (filename : value) (content : value).

(** [ZendeskAPIClient] and [FileManagerZendesk.upload]: what the remote
    service answers to each request, a decoded JSON body or a raised
    transport error. *)
Record Transport : Type := mkTransport {
  respond : request -> result value
}.

(** [str(v)], as an f-string renders it. *)
Definition py_str (B : Builtins) (v : value) : string :=
  match v with
  | VNone => "None"
  | VBool true => "True"
  | VBool false => "False"
  | VInt z => pretty z
  | VStr s => s
  | _ => str_other B v
  end.

(** ** fields.py *)

Definition DEFAULT_FIELDS : list string :=
  ["id"; "name"; "created_at"; "updated_at"; "created_by_user_id";
   "updated_by_user_id"; "external_id"].

(** The [choices] argument of a Dropdown or Multiselect field:
    [List[str] | List[Tuple[str, str]]]. *)
Inductive choices_t : Type :=
| PlainChoices (l : list string)
| LabelledChoices (l : list (string * string)).

(** The field classes.  The arguments of a constructor are the arguments of
    the class's [__init__]; the attributes [__init__] derives from them
    ([possible_keys], [to_representation], [data_type], [name]) are the
    functions below.  [AttachmentField] records in [contributed] the name
    [contribute_to_class] was called with, [None] when it never was. *)
Inductive Field : Type :=
| NameField (unique autoincrement_enabled : bool)
    (autoincrement_prefix : string)
    (autoincrement_padding autoincrement_next_sequence : Z)
| TextField (name : string)
| TextareaField (name : string)
| CheckboxField (name : string)
| DateField (name : string)
| IntegerField (name : string)
| DecimalField (name : string)
| RegexpField (name pattern : string)
| DropdownField (name : string) (choices : choices_t)
| LookupField (name : string) (related_object : value)
    (is_custom_object : bool)
| MultiselectField (name : string) (choices : choices_t)
| AttachmentField (field_name ticket_field_name : string)
    (contributed : option string)
| DateTimeField (name : string).

(** [self.name]; [AttachmentField.__init__] does not call
    [super().__init__] and sets no [name]. *)
Definition field_name_of (f : Field) : option string :=
  match f with
  | NameField _ _ _ _ _ => Some "name"
  | TextField n | TextareaField n | CheckboxField n | DateField n
  | IntegerField n | DecimalField n | RegexpField n _ | DropdownField n _
  | LookupField n _ _ | MultiselectField n _ | DateTimeField n => Some n
  | AttachmentField _ _ _ => None
  end.

(** [self.data_type]. *)
Definition data_type (f : Field) : pytype :=
  match f with
  | NameField _ _ _ _ _ | TextField _ | TextareaField _ | DateField _
  | RegexpField _ _ | DropdownField _ _ => TStr
  | CheckboxField _ => TBool
  | IntegerField _ => TInt
  | DecimalField _ => TFloat
  | LookupField _ related _ => type_of related
  | MultiselectField _ _ => TList
  | AttachmentField _ _ _ => TAttachmentFile
  | DateTimeField _ => TDatetimeT
  end.

(** [unidecode(choice).lower().replace(" ", "_")]. *)
Definition normalize_choice (B : Builtins) (choice : string) : string :=
  replace_space (lower (unidecode B choice)).

(** [self.possible_keys], as [DropdownField.__init__] and
    [MultiselectField.__init__] compute it. *)
Definition possible_keys (B : Builtins) (choices : choices_t) : list string :=
  match choices with
  | LabelledChoices (p :: ps) => map fst (p :: ps)
  | LabelledChoices [] => []
  | PlainChoices l => map (normalize_choice B) l
  end.


(** [RegexpField.__init__]: [_check_pattern] is
    [bool(re.compile(pattern))]; [re.compile] raises [re.error] on a pattern
    it cannot compile, and a compiled pattern is true. *)
Definition RegexpField__check_pattern (B : Builtins) (pattern : string)
  : result bool :=
  if re_compiles B pattern then Ok true else Raise (ReError pattern).

Definition RegexpField_init (B : Builtins) (name pattern : string)
  : result Field :=
  do ok <- RegexpField__check_pattern B pattern;
  if negb ok then Raise (RegexCompileError name)
  else Ok (RegexpField name pattern).

(** [DateField._is_valid_date_format]:
    [bool(re.match(r"^\d{4}-\d{2}-\d{2}$", date_str))]; [$] also matches
    before a final newline. *)
Definition is_newline (c : ascii) : bool := (N_of_ascii c =? 10)%N.

Definition DateField__is_valid_date_format (date_str : string) : bool :=
  match list_ascii_of_string date_str with
  | y1 :: y2 :: y3 :: y4 :: d1 :: m1 :: m2 :: d2 :: a1 :: a2 :: rest =>
      forallb is_digit [y1; y2; y3; y4; m1; m2; a1; a2]
      && Ascii.eqb d1 "-" && Ascii.eqb d2 "-"
      && match rest with
         | [] => true
         | [c] => is_newline c
         | _ => false
         end
  | _ => false
  end.

(** [validate(self, value)], class by class. *)
Definition Field_validate (B : Builtins) (f : Field) (v : value)
  : result bool :=
  match f with
  | DateField name =>
      if is_none v then Ok true else
      match v with
      | VStr s =>
          if negb (DateField__is_valid_date_format s)
          then Raise (InvalidDateFormatError name)
          else Ok true
      | _ => Raise (FieldTypeError name TStr)
      end
  | RegexpField name pattern =>
      if is_none v then Ok true else
      match v with
      | VStr s =>
          if negb (re_match B pattern s)
          then Raise (InvalidRegexError name v)
          else Ok true
      | _ => Raise (FieldTypeError name TStr)
      end
  | DropdownField name choices =>
      if is_none v then Ok true else
      if negb (isinstance v TStr) then Raise (FieldTypeError name TStr) else
      let keys := possible_keys B choices in
      if (match keys with [] => false | _ => true end)
         && negb (py_in_strs v keys)
      then Raise (InvalidChoiceError name v)
      else Ok true
  | MultiselectField name choices =>
      if is_none v then Ok true else
      match v with
      | VList items =>
          let keys := possible_keys B choices in
          match
            find (fun item =>
                    (match keys with [] => false | _ => true end)
                    && negb (py_in_strs item keys)) items
          with
          | Some item => Raise (InvalidChoiceError name item)
          | None => Ok true
          end
      | _ => Raise (FieldTypeError name TList)
      end
  | _ =>
      if is_none v then Ok true else Ok (isinstance v (data_type f))
  end.

(** ** State and exceptions

    A method that mutates [self] (and may talk to the service) is a
    function from the state before to an outcome and the state reached;
    when it raises, the state is the one reached at the [raise]. *)

Definition run (S A : Type) : Type := S -> result A * S.

Definition sret {S A} (a : A) : run S A := fun s => (Ok a, s).

Definition sraise {S A} (e : exn) : run S A := fun s => (Raise e, s).

Definition slift {S A} (r : result A) : run S A := fun s => (r, s).

Definition sbind {S A B} (c : run S A) (k : A -> run S B) : run S B :=
  fun s =>
    match c s with
    | (Ok a, s') => k a s'
    | (Raise e, s') => (Raise e, s')
    end.

Notation "'run!' x <- c ; k" := (sbind c (fun x => k))
  (at level 10, x name, c at level 100, k at level 200).

(** An object together with the requests sent so far, oldest first. *)
Record world (O : Type) : Type := mkWorld {
  self : O;
  sent : list request
}.
Arguments mkWorld {O}.
Arguments self {O}.
Arguments sent {O}.

(** Send [req] and receive the service's answer. *)
Definition call {O} (T : Transport) (req : request) : run (world O) value :=
  fun w => (respond T req, mkWorld (self w) (sent w ++ [req])).

(** Run a computation on the object alone. *)
Definition on_self {O A} (c : run O A) : run (world O) A :=
  fun w => let '(r, o) := c (self w) in (r, mkWorld o (sent w)).

(** Assign to the object. *)
Definition update_self {O} (f : O -> O) : run (world O) unit :=
  fun w => (Ok tt, mkWorld (f (self w)) (sent w)).

(** ** file.py: AttachmentFile *)

(** [AttachmentFile.__init__] without [save_fast]. *)
Definition AttachmentFile_new (B : Builtins)
    (attachment_id attachment_url attachment_size attachment_filename
     content : value) : AttachmentFile :=
  {| _attachment_id := attachment_id;
     _attachment_url := attachment_url;
     _attachment_size := attachment_size;
     _attachment_filename := py_or attachment_filename (VStr (uuid4 B));
     _content := content;
     saved := if truthy content then false else truthy attachment_id;
     token := None |}.

(** Assignments to the attributes of an [AttachmentFile]. *)
Definition set_attachment_id (v : value) (a : AttachmentFile) : AttachmentFile :=
  mkAttachmentFile v (_attachment_url a) (_attachment_size a)
    (_attachment_filename a) (_content a) (saved a) (token a).

Definition set_attachment_filename (v : value) (a : AttachmentFile)
  : AttachmentFile :=
  mkAttachmentFile (_attachment_id a) (_attachment_url a) (_attachment_size a)
    v (_content a) (saved a) (token a).

Definition set_attachment_url (v : value) (a : AttachmentFile) : AttachmentFile :=
  mkAttachmentFile (_attachment_id a) v (_attachment_size a)
    (_attachment_filename a) (_content a) (saved a) (token a).

Definition set_attachment_size (v : value) (a : AttachmentFile) : AttachmentFile :=
  mkAttachmentFile (_attachment_id a) (_attachment_url a) v
    (_attachment_filename a) (_content a) (saved a) (token a).

Definition set_token (v : value) (a : AttachmentFile) : AttachmentFile :=
  mkAttachmentFile (_attachment_id a) (_attachment_url a) (_attachment_size a)
    (_attachment_filename a) (_content a) (saved a) (Some v).

Definition set_saved (b : bool) (a : AttachmentFile) : AttachmentFile :=
  mkAttachmentFile (_attachment_id a) (_attachment_url a) (_attachment_size a)
    (_attachment_filename a) (_content a) b (token a).

(** [upload_data["attachment"][key]]. *)
Definition upload_attachment_item (upload_data : value) (key : string)
  : result value :=
  do att <- py_getitem upload_data "attachment"; py_getitem att key.

(** [AttachmentFile._upload_attachment]:
    [self.file_manager().upload(filename, content)["upload"]]. *)
Definition AttachmentFile__upload_attachment (T : Transport)
    (filename content : value) : run (world AttachmentFile) value :=
  run! response <- call T (UPLOAD filename content);
  slift (py_getitem response "upload").

(** [AttachmentFile.save]. *)
Definition AttachmentFile_save (T : Transport)
  : run (world AttachmentFile) unit :=
  fun w =>
    let a := self w in
    if negb (saved a) then
      if negb (isinstance (_content a) TBytes) then
        sraise (ValueError "Content attribute must be of type bytes.") w
      else
        (run! upload_data <-
           AttachmentFile__upload_attachment T (_attachment_filename a)
             (_content a);
         run! v <- slift (upload_attachment_item upload_data "id");
         run! _ <- update_self (set_attachment_id v);
         run! v <- slift (upload_attachment_item upload_data "file_name");
         run! _ <- update_self (set_attachment_filename v);
         run! v <- slift (upload_attachment_item upload_data "content_url");
         run! _ <- update_self (set_attachment_url v);
         run! v <- slift (upload_attachment_item upload_data "size");
         run! _ <- update_self (set_attachment_size v);
         run! v <- slift (py_getitem upload_data "token");
         run! _ <- update_self (set_token v);
         update_self (set_saved true)) w
    else sret tt w.

(** [AttachmentFile.save_with_ticket]; [FileManagerZendesk.send_to_ticket]
    PUTs the comment and the upload token to the ticket. *)
Definition AttachmentFile_save_with_ticket (B : Builtins) (T : Transport)
    (ticket_id : value) (comment : value) : run (world AttachmentFile) value :=
  run! _ <- (fun w => if negb (saved (self w)) then AttachmentFile_save T w
                      else sret tt w);
  fun w =>
    match token (self w) with
    | None => sraise (AttributeError "token") w
    | Some tok =>
        call T (PUT ("/tickets/" +:+ py_str B ticket_id +:+ ".json")
                  (VDict [("ticket", VDict [("comment",
                     VDict [("body", comment); ("uploads", VList [tok])])])]))
             w
    end.

(** ** ISO 8601 text of dates and times *)

Definition digit_char (d : Z) : ascii := ascii_of_N (48 + Z.to_N d).

(** [n] in decimal, zero-padded to [k] digits. *)
Fixpoint pad (k : nat) (n : Z) : list ascii :=
  match k with
  | O => []
  | S k' => pad k' (n / 10) ++ [digit_char (n mod 10)]
  end.

Definition digit_val (c : ascii) : option Z :=
  if is_digit c then Some (Z.of_N (N_of_ascii c) - 48) else None.

Fixpoint parse_digits (acc : Z) (l : list ascii) : option Z :=
  match l with
  | [] => Some acc
  | c :: l' =>
      match digit_val c with
      | Some d => parse_digits (acc * 10 + d) l'
      | None => None
      end
  end.

Definition is_leap (y : Z) : bool :=
  (y mod 4 =? 0) && (negb (y mod 100 =? 0) || (y mod 400 =? 0)).

Definition days_in_month (y m : Z) : Z :=
  if m =? 2 then (if is_leap y then 29 else 28)
  else if (m =? 4) || (m =? 6) || (m =? 9) || (m =? 11) then 30
  else 31.

Definition in_range (lo hi x : Z) : bool := (lo <=? x) && (x <=? hi).

(** The values a [datetime] object can hold. *)
Definition valid_datetime (dt : datetime) : bool :=
  in_range 1 9999 (year dt)
  && in_range 1 12 (month dt)
  && in_range 1 (days_in_month (year dt) (month dt)) (day dt)
  && in_range 0 23 (hour dt)
  && in_range 0 59 (minute dt)
  && in_range 0 59 (second dt)
  && in_range 0 999999 (microsecond dt)
  && match utcoffset dt with
     | None => true
     | Some off => in_range (-1439) 1439 off
     end.

(** [dt.date().isoformat()]: [YYYY-MM-DD]. *)
Definition date_isoformat (dt : datetime) : list ascii :=
  pad 4 (year dt) ++ "-"%char :: pad 2 (month dt)
    ++ "-"%char :: pad 2 (day dt).

Definition offset_isoformat (off : option Z) : list ascii :=
  match off with
  | None => []
  | Some o =>
      (if o <? 0 then "-"%char else "+"%char)
        :: pad 2 (Z.abs o / 60) ++ ":"%char :: pad 2 (Z.abs o mod 60)
  end.

(** [dt.timetz().isoformat()]: [HH:MM:SS], then [.ffffff] when the
    microsecond is not zero, then the offset [+HH:MM] of an aware value. *)
Definition time_isoformat (dt : datetime) : list ascii :=
  pad 2 (hour dt) ++ ":"%char :: pad 2 (minute dt)
    ++ ":"%char :: pad 2 (second dt)
    ++ (if microsecond dt =? 0 then []
        else "."%char :: pad 6 (microsecond dt))
    ++ offset_isoformat (utcoffset dt).

Definition parse_date (l : list ascii) : option (Z * Z * Z) :=
  match l with
  | [y1; y2; y3; y4; s1; m1; m2; s2; d1; d2] =>
      if Ascii.eqb s1 "-" && Ascii.eqb s2 "-" then
        match parse_digits 0 [y1; y2; y3; y4], parse_digits 0 [m1; m2],
              parse_digits 0 [d1; d2] with
        | Some y, Some m, Some d =>
            if in_range 1 9999 y && in_range 1 12 m
               && in_range 1 (days_in_month y m) d
            then Some (y, m, d) else None
        | _, _, _ => None
        end
      else None
  | _ => None
  end.

Definition parse_offset (l : list ascii) : option (option Z) :=
  match l with
  | [] => Some None
  | [sg; h1; h2; c; m1; m2] =>
      if (Ascii.eqb sg "+" || Ascii.eqb sg "-") && Ascii.eqb c ":" then
        match parse_digits 0 [h1; h2], parse_digits 0 [m1; m2] with
        | Some h, Some m =>
            if in_range 0 23 h && in_range 0 59 m then
              Some (Some (if Ascii.eqb sg "-" then - (h * 60 + m)
                          else h * 60 + m))
            else None
        | _, _ => None
        end
      else None
  | _ => None
  end.

Definition parse_fraction (l : list ascii) : option (Z * option Z) :=
  match l with
  | dot :: f1 :: f2 :: f3 :: f4 :: f5 :: f6 :: rest =>
      if Ascii.eqb dot "." then
        match parse_digits 0 [f1; f2; f3; f4; f5; f6], parse_offset rest with
        | Some us, Some off => Some (us, off)
        | _, _ => None
        end
      else
        match parse_offset l with
        | Some off => Some (0, off)
        | None => None
        end
  | _ =>
      match parse_offset l with
      | Some off => Some (0, off)
      | None => None
      end
  end.

Definition parse_time (l : list ascii)
  : option (Z * Z * Z * Z * option Z) :=
  match l with
  | h1 :: h2 :: c1 :: m1 :: m2 :: c2 :: s1 :: s2 :: rest =>
      if Ascii.eqb c1 ":" && Ascii.eqb c2 ":" then
        match parse_digits 0 [h1; h2], parse_digits 0 [m1; m2],
              parse_digits 0 [s1; s2], parse_fraction rest with
        | Some h, Some m, Some sec, Some (us, off) =>
            if in_range 0 23 h && in_range 0 59 m && in_range 0 59 sec
            then Some (h, m, sec, us, off) else None
        | _, _, _, _ => None
        end
      else None
  | _ => None
  end.

(** [datetime.fromisoformat(date + "T" + time)] on the two texts above. *)
Definition datetime_of_iso (date time : list ascii) : option datetime :=
  match parse_date date, parse_time time with
  | Some (y, m, d), Some (h, mi, sec, us, off) =>
      Some (mkDatetime y m d h mi sec us off)
  | _, _ => None
  end.

(** ** Field access: [__get__] and [__set__] *)

Abbreviation instance := (gmap string value).

(** [Field.__get__]: [instance.__dict__.get(self.name)]. *)
Definition Field_base_get (name : string) (inst : instance) : value :=
  default VNone (inst !! name).

(** [Field.__set__]. *)
Definition Field_base_set (B : Builtins) (f : Field) (name : string)
    (v : value) (inst : instance) : result instance :=
  do ok <- Field_validate B f v;
  if negb ok then Raise (FieldTypeError name (data_type f))
  else Ok (<[name := v]> inst).

(** The attribute names [AttachmentField.contribute_to_class] derives. *)
Definition model_file_attribute_name (name : string) : string :=
  "__" +:+ name +:+ "_file".
Definition id_field_name (name : string) : string := name +:+ "_id".
Definition url_field_name (name : string) : string := name +:+ "_url".
Definition filename_field_name (name : string) : string :=
  name +:+ "_filename".
Definition size_field_name (name : string) : string := name +:+ "_size".

(** [AttachmentField.__get__] on an instance.  The derived attributes are
    read and written in the instance's [__dict__]: the class is taken not to
    declare descriptors under the derived names. *)
Definition AttachmentField_get (B : Builtins) (contributed : option string)
  : run instance value :=
  fun inst =>
    match contributed with
    | None => (Raise (AttributeError "model_file_attribute_name"), inst)
    | Some name =>
        match inst !! model_file_attribute_name name with
        | Some file => (Ok file, inst)
        | None =>
            let attach_id := default VNone (inst !! id_field_name name) in
            let attach_url := default VNone (inst !! url_field_name name) in
            let attach_filename :=
              default VNone (inst !! filename_field_name name) in
            let attach_size := default VNone (inst !! size_field_name name) in
            if negb (truthy attach_id) then (Ok VNone, inst)
            else
              let file :=
                VAttachment (AttachmentFile_new B attach_id attach_url
                               attach_size attach_filename VNone) in
              (Ok file, <[model_file_attribute_name name := file]> inst)
        end
    end.

(** [AttachmentField.__set__]. *)
Definition AttachmentField_set (contributed : option string) (v : value)
    (inst : instance) : result instance :=
  if negb (is_none v) then
    match v with
    | VAttachment a =>
        match contributed with
        | None => Raise (AttributeError "model_file_attribute_name")
        | Some name =>
            Ok (<[size_field_name name := _attachment_size a]>
                (<[filename_field_name name := _attachment_filename a]>
                 (<[url_field_name name := _attachment_url a]>
                  (<[id_field_name name := _attachment_id a]>
                   (<[model_file_attribute_name name := v]> inst)))))
        end
    | _ =>
        Raise (ValueError
                 "AttachmentField only accepts AttachmentFile instances.")
    end
  else Ok inst.

Definition time_key (name : string) : string := name +:+ "_time".

(** Modelled from the spec: [DateTimeField.__set__] is not among the
    sources.  On write the instant is decomposed into the two wire keys,
    [name] holding the date and [name_time] the time of day (with the
    offset); [None] clears both; any other value is a type mismatch. *)
Definition DateTimeField_set (name : string) (v : value) (inst : instance)
  : result instance :=
  match v with
  | VNone => Ok (<[time_key name := VNone]> (<[name := VNone]> inst))
  | VDatetime dt =>
      Ok (<[time_key name := VStr (string_of_list_ascii (time_isoformat dt))]>
          (<[name := VStr (string_of_list_ascii (date_isoformat dt))]> inst))
  | _ => Raise (FieldTypeError name TDatetimeT)
  end.

(** Modelled from the spec: [DateTimeField.__get__] is not among the
    sources.  On read the two wire fields are reconstructed into a single
    instant; a null date reads as [None]. *)
Definition DateTimeField_get (name : string) (inst : instance)
  : result value :=
  match default VNone (inst !! name) with
  | VNone => Ok VNone
  | VStr date =>
      match default VNone (inst !! time_key name) with
      | VStr time =>
          match datetime_of_iso (list_ascii_of_string date)
                  (list_ascii_of_string time) with
          | Some dt => Ok (VDatetime dt)
          | None => Raise (ValueError "Invalid isoformat string")
          end
      | _ => Raise (ValueError "Invalid isoformat string")
      end
  | _ => Raise TypeError
  end.

(** [field.__get__(instance, owner)]. *)
Definition Field_get (B : Builtins) (f : Field) : run instance value :=
  match f with
  | AttachmentField _ _ contributed => AttachmentField_get B contributed
  | DateTimeField name => fun inst => (DateTimeField_get name inst, inst)
  | _ =>
      fun inst =>
        match field_name_of f with
        | Some name => (Ok (Field_base_get name inst), inst)
        | None => (Raise (AttributeError "name"), inst)
        end
  end.

(** [field.__set__(instance, value)]. *)
Definition Field_set (B : Builtins) (f : Field) (v : value) (inst : instance)
  : result instance :=
  match f with
  | AttachmentField _ _ contributed => AttachmentField_set contributed v inst
  | DateTimeField name => DateTimeField_set name v inst
  | DateField name =>
      let v' := match v with VStr s => VStr (before_T s) | _ => v end in
      Field_base_set B f name v' inst
  | DecimalField name =>
      do v' <- (if negb (is_none v) then py_float B v else Ok VNone);
      Field_base_set B f name v' inst
  | _ =>
      match field_name_of f with
      | Some name => Field_base_set B f name v inst
      | None => Raise (AttributeError "name")
      end
  end.

(** ** Representation of choice fields *)




(** The items a [for] loop draws from [v]. *)
Definition py_iter (v : value) : result (list value) :=
  match v with
  | VList l => Ok l
  | VStr s =>
      Ok (map (fun c => VStr (String c EmptyString)) (list_ascii_of_string s))
  | VBytes bs => Ok (map (fun c => VInt (Z.of_N (N_of_ascii c))) bs)
  | VDict d => Ok (map (fun kv => VStr (fst kv)) d)
  | _ => Raise TypeError
  end.


(** [field.get_to_save(instance, None)], as [CustomObject.to_save] calls
    it on a Dropdown or Multiselect field.  No class of [fields.py] defines
    [get_to_save] (the representation method is [get_to_representation]) or
    [__getattr__], so looking the attribute up on the field raises
    [AttributeError]. *)
Definition get_to_save (B : Builtins) (f : Field) (inst : instance)
  : result value :=
  Raise (AttributeError "get_to_save").

(** ** base.py: CustomObject *)

(** A subclass of [CustomObject]: its [__name__] and the fields of its
    [__dict__], in declaration order. *)
Record pyclass : Type := mkClass {
  cls_name : string;
  cls_dict : pydict Field
}.

(** [getattr(self, attr)]: a field declared under [attr] answers through
    its [__get__]; otherwise the instance's [__dict__] does. *)
Definition getattr (B : Builtins) (cls : pyclass) (attr : string)
  : run instance value :=
  fun inst =>
    match dict_get attr (cls_dict cls) with
    | Some f => Field_get B f inst
    | None =>
        match inst !! attr with
        | Some v => (Ok v, inst)
        | None => (Raise (AttributeError attr), inst)
        end
    end.

(** [getattr(self, attr, dflt)]. *)
Definition getattr_default (B : Builtins) (cls : pyclass) (attr : string)
    (dflt : value) : run instance value :=
  fun inst =>
    match getattr B cls attr inst with
    | (Raise (AttributeError _), inst') => (Ok dflt, inst')
    | other => other
    end.

(** [hasattr(self, attr)]. *)
Definition hasattr (B : Builtins) (cls : pyclass) (attr : string)
  : run instance bool :=
  fun inst =>
    match getattr B cls attr inst with
    | (Ok _, inst') => (Ok true, inst')
    | (Raise (AttributeError _), inst') => (Ok false, inst')
    | (Raise e, inst') => (Raise e, inst')
    end.

(** [setattr(self, attr, v)]. *)
Definition setattr (B : Builtins) (cls : pyclass) (attr : string) (v : value)
  : run instance unit :=
  fun inst =>
    match dict_get attr (cls_dict cls) with
    | Some f =>
        match Field_set B f v inst with
        | Ok inst' => (Ok tt, inst')
        | Raise e => (Raise e, inst)
        end
    | None => (Ok tt, <[attr := v]> inst)
    end.

(** [CustomObject.__init__], called with keyword arguments [kwargs];
    [client] is the object [ZendeskAPIClient()] returns, which the first
    statement assigns to [self.client]. *)
Definition CustomObject_init (B : Builtins) (cls : pyclass) (client : value)
    (kwargs : pydict value) : result instance :=
  let step (acc : result instance) (entry : string * Field) :=
    do inst <- acc;
    Field_set B (snd entry) (default VNone (dict_get (fst entry) kwargs)) inst
  in
  let '(r0, i0) := (run! _ <- setattr B cls "client" client;
                    run! _ <- setattr B cls "id" VNone;
                    setattr B cls "name" VNone) ∅ in
  do _ <- r0;
  fold_left step (cls_dict cls) (Ok i0).

(** [CustomObject.is_namefield_autoincrement]. *)
Definition is_namefield_autoincrement (cls : pyclass) : bool :=
  match dict_get "name" (cls_dict cls) with
  | Some (NameField _ autoincrement_enabled _ _ _) => autoincrement_enabled
  | _ => false
  end.

Definition is_choice_field (f : Field) : bool :=
  match f with
  | DropdownField _ _ | MultiselectField _ _ => true
  | _ => false
  end.

(** The values [to_dict] and [to_save] read for [DEFAULT_FIELDS]. *)
Fixpoint read_defaults (B : Builtins) (cls : pyclass) (keys : list string)
  : run instance (pydict value) :=
  match keys with
  | [] => sret []
  | k :: keys' =>
      run! v <- getattr_default B cls k VNone;
      run! rest <- read_defaults B cls keys';
      sret ((k, v) :: rest)
  end.

(** One turn of the loop of [to_save] over the class [__dict__]. *)
Definition to_save_entry (B : Builtins) (custom_fields : pydict value)
    (entry : string * Field) : run instance (pydict value) :=
  let '(field_name, field) := entry in
  if is_choice_field field then
    let custom_fields := dict_set field_name VNone custom_fields in
    run! v <- Field_get B field;
    if negb (is_none v) then
      run! w <- (fun inst => (get_to_save B field inst, inst));
      sret (dict_set field_name w custom_fields)
    else sret custom_fields
  else
    run! v <- Field_get B field;
    sret (dict_set field_name v custom_fields).

Fixpoint to_save_loop (B : Builtins) (entries : pydict Field)
    (custom_fields : pydict value) : run instance (pydict value) :=
  match entries with
  | [] => sret custom_fields
  | entry :: entries' =>
      run! custom_fields' <- to_save_entry B custom_fields entry;
      to_save_loop B entries' custom_fields'
  end.

Definition drop_none (d : pydict value) : pydict value :=
  List.filter (fun kv => negb (is_none (snd kv))) d.

(** [CustomObject.to_save]. *)
Definition to_save (B : Builtins) (cls : pyclass)
  : run instance (pydict value) :=
  run! default_fields <- read_defaults B cls DEFAULT_FIELDS;
  run! custom_fields <- to_save_loop B (cls_dict cls) [];
  sret (dict_merge custom_fields (drop_none default_fields)).

(** [CustomObject.to_dict]. *)
Fixpoint to_dict_loop (B : Builtins) (entries : pydict Field)
    (custom_fields : pydict value) : run instance (pydict value) :=
  match entries with
  | [] => sret custom_fields
  | (field_name, field) :: entries' =>
      run! v <- Field_get B field;
      to_dict_loop B entries' (dict_set field_name v custom_fields)
  end.

Definition to_dict (B : Builtins) (cls : pyclass)
  : run instance (pydict value) :=
  run! default_fields <- read_defaults B cls DEFAULT_FIELDS;
  run! custom_fields <- to_dict_loop B (cls_dict cls) [];
  sret (dict_merge custom_fields (drop_none default_fields)).

(** The paths [save] and [delete] address. *)
Definition create_path (cls : pyclass) : string :=
  "/custom_objects/" +:+ lower (cls_name cls) +:+ "/records".

Definition update_path (B : Builtins) (cls : pyclass) (id : value) : string :=
  "/custom_objects/" +:+ lower (cls_name cls) +:+ "/records/" +:+ py_str B id.

Definition delete_path (B : Builtins) (cls : pyclass) (id : value) : string :=
  "/custom_objects/" +:+ cls_name cls +:+ "/records/" +:+ py_str B id.

(** The type key a path of the form
    [/custom_objects/{type_key}/records...] carries. *)
Definition create_type_key (cls : pyclass) : string := lower (cls_name cls).
Definition delete_type_key (cls : pyclass) : string := cls_name cls.

(** The body [save] sends. *)
Definition save_data (custom_fields : pydict value) (name external_id : value)
  : value :=
  VDict [("custom_object_record",
          VDict [("custom_object_fields", VDict custom_fields);
                 ("name", name);
                 ("external_id", external_id)])].

(** [not hasattr(self, "id") or not self.id]. *)
Definition save_takes_create (B : Builtins) (cls : pyclass)
  : run instance bool :=
  run! has <- hasattr B cls "id";
  if negb has then sret true
  else
    run! id <- getattr B cls "id";
    sret (negb (truthy id)).

(** The create branch of [save], after the POST has been answered. *)
Definition save_created (B : Builtins) (cls : pyclass) (response : value)
  : run instance value :=
  run! description <-
    slift (do details <- py_get response "details" (VDict []);
           do base <- py_get details "base" (VList [VDict []]);
           do first <- py_index0 base;
           py_get first "description" (VStr ""));
  if py_eq_str description "Name already exists. Try another one." then
    run! name <- getattr B cls "name";
    sraise (UniqueConstraintError name)
  else
    run! status <- slift (py_get response "status_code" (VInt 201));
    if negb (py_eq_int status 201) then
      run! message <-
        slift (py_get response "details" (VStr "Error creating record"));
      sraise (CreateRecordError message)
    else
      run! id <- slift (do record <- py_getitem response "custom_object_record";
                        py_getitem record "id");
      run! _ <- setattr B cls "id" id;
      run! name <- slift (do record <- py_getitem response "custom_object_record";
                          py_getitem record "name");
      run! _ <- setattr B cls "name" name;
      sret response.

(** The update branch of [save], after the PATCH has been answered. *)
Definition save_updated (response : value) : run instance value :=
  run! status <- slift (py_get response "status_code" (VInt 200));
  if negb (py_eq_int status 200) then
    run! message <-
      slift (py_get response "details" (VStr "Error updating record"));
    sraise (UpdateRecordError message)
  else sret response.

(** [CustomObject.save]. *)
Definition CustomObject_save (B : Builtins) (T : Transport) (cls : pyclass)
  : run (world instance) value :=
  run! custom_fields <- on_self (to_save B cls);
  run! name <-
    on_self (if negb (is_namefield_autoincrement cls) then
               run! name <- getattr B cls "name";
               sret (py_or name (VStr "Unnamed Object"))
             else sret VNone);
  run! external_id <- on_self (getattr_default B cls "external_id" VNone);
  let data := save_data custom_fields name external_id in
  run! create <- on_self (save_takes_create B cls);
  if create then
    run! response <- call T (POST (create_path cls) data);
    on_self (save_created B cls response)
  else
    run! id <- on_self (getattr B cls "id");
    run! response <- call T (PATCH (update_path B cls id) data);
    on_self (save_updated response).

(** [CustomObject.delete]. *)
Definition CustomObject_delete (B : Builtins) (T : Transport) (cls : pyclass)
  : run (world instance) value :=
  run! id <- on_self (getattr B cls "id");
  run! response <- call T (DELETE (delete_path B cls id));
  run! status <- slift (py_get response "status_code" (VInt 204));
  if negb (py_eq_int status 204) then
    run! message <-
      slift (py_get response "description" (VStr "Error deleting record"));
    sraise (DeleteRecordError message)
  else sret response.

(** What [save] computes before it sends: the body, and the id the PATCH
    is addressed to when the record is to be updated. *)
Definition save_prepare (B : Builtins) (cls : pyclass)
  : run instance (value * option value) :=
  run! custom_fields <- to_save B cls;
  run! name <-
    (if negb (is_namefield_autoincrement cls) then
       run! name <- getattr B cls "name";
       sret (py_or name (VStr "Unnamed Object"))
     else sret VNone);
  run! external_id <- getattr_default B cls "external_id" VNone;
  let data := save_data custom_fields name external_id in
  run! create <- save_takes_create B cls;
  if create then sret (data, None)
  else
    run! id <- getattr B cls "id";
    sret (data, Some id).

(** ** record_manager.py: RecordManager *)

(** [mercuryfieldservice.managers.QuerySet] is imported, not defined, by
    [record_manager.py]: its two methods that [RecordManager] calls. *)
Record QuerySet : Type := mkQuerySet {
  qs_filter : pydict value -> result (list value);
  qs_parse_record_fields : value -> result value
}.

(** The [id] branch of [RecordManager.get]. *)
Definition RecordManager_get_by_id (B : Builtins) (T : Transport)
    (Q : QuerySet) (model_name : string) (record_id : value)
  : run (world unit) value :=
  fun w =>
    let path :=
      "/custom_objects/" +:+ lower model_name +:+ "/records/"
        +:+ py_str B record_id in
    match call T (GET path VNone) w with
    | (Raise (HTTPError status body), w') =>
        if status =? 400 then
          sraise (BadRequestError
                    ("Bad request for record with ID " +:+ py_str B record_id
                       +:+ ". Response: " +:+ py_str B body)) w'
        else if status =? 404 then
          sraise (NotFoundError model_name record_id) w'
        else sraise (HTTPError status body) w'
    | (Raise e, w') => (Raise e, w')
    | (Ok response, w') =>
        (do record_data <- py_get response "custom_object_record" (VDict []);
         qs_parse_record_fields Q record_data, w')
    end.

(** [RecordManager.filter]. *)
Definition RecordManager_filter (Q : QuerySet) (criteria : pydict value)
  : result (list value) :=
  qs_filter Q criteria.

(** [RecordManager.get]. *)
Definition RecordManager_get (B : Builtins) (T : Transport) (Q : QuerySet)
    (model_name : string) (kwargs : pydict value) : run (world unit) value :=
  match dict_get "id" kwargs with
  | Some record_id => RecordManager_get_by_id B T Q model_name record_id
  | None =>
      run! result <- slift (RecordManager_filter Q kwargs);
      if (length result =? 0)%nat then
        sraise (ValueError (model_name +:+ " matching query does not exist."))
      else if (1 <? length result)%nat then
        sraise (ValueError
                  ("Multiple " +:+ model_name
                     +:+ " objects returned; expected exactly one."))
      else
        match result with
        | record :: _ => sret record
        | [] => sraise IndexError
        end
  end.

(** ** Concrete environments for the examples *)

(** Builtins restricted to what the examples exercise: ASCII text (on
    which [unidecode] is the identity), the pattern ["("] as the one that
    does not compile, literal matching, and floats passed through. *)
Definition sample_builtins : Builtins :=
  {| unidecode := fun s => s;
     re_compiles := fun p => negb (String.eqb p "(");
     re_match := fun p s => String.eqb p s;
     py_float := fun v =>
       match v with
       | VFloat _ => Ok v
       | _ => Raise TypeError
       end;
     uuid4 := "9f1c2d3e-0000-4000-8000-000000000000";
     str_other := fun _ => "<object>" |}.

(** A service that stores the upload and answers with its description. *)
Definition upload_response : value :=
  VDict [("upload",
          VDict [("token", VStr "tok-1");
                 ("attachment",
                  VDict [("id", VInt 77);
                         ("file_name", VStr "a.txt");
                         ("content_url", VStr "https://files/a.txt");
                         ("size", VInt 3)])])].

Definition created_response : value :=
  VDict [("custom_object_record",
          VDict [("id", VStr "01J"); ("name", VStr "Test Object");
                 ("custom_object_fields", VDict [])])].

Definition sample_transport : Transport :=
  {| respond := fun req =>
       match req with
       | UPLOAD _ _ => Ok upload_response
       | POST _ _ => Ok created_response
       | PATCH _ _ => Ok created_response
       | _ => Ok (VDict [])
       end |}.

Definition UPLOADS (log : list request) : list request :=
  List.filter (fun r => match r with UPLOAD _ _ => true | _ => false end) log.

Definition unsaved_file : AttachmentFile :=
  AttachmentFile_new sample_builtins VNone VNone VNone (VStr "a.txt")
    (VBytes ["a"%char; "b"%char; "c"%char]).

Definition record_one : value :=
  VObject "MockModel" ["CustomObject"]
    [("id", VStr "1"); ("codigo", VStr "1234")].

Definition record_two : value :=
  VObject "MockModel" ["CustomObject"]
    [("id", VStr "2"); ("codigo", VStr "1234")].

(** A query set over the two records above, of which the first alone is
    active. *)
Definition sample_queryset : QuerySet :=
  {| qs_filter := fun criteria =>
       match dict_get "codigo" criteria, dict_get "ativo" criteria with
       | Some (VStr "1234"), Some (VBool true) => Ok [record_one]
       | Some (VStr "1234"), None => Ok [record_one; record_two]
       | _, _ => Ok []
       end;
     qs_parse_record_fields := fun record_data => Ok record_data |}.

(** [v] is one of the strings of [keys]. *)
Definition is_member (keys : list string) (v : value) : Prop :=
  exists s, v = VStr s /\ In s keys.

Definition is_attachment_field (f : Field) : bool :=
  match f with
  | AttachmentField _ _ _ => true
  | _ => false
  end.

(** A field [photo = AttachmentField("photo", ticket_field_name=...)]
    attached to its class under the name [photo], and a file the service
    already holds. *)
Definition photo_field : Field :=
  AttachmentField "photo" "ticket_photo" (Some "photo").

Definition saved_file : AttachmentFile :=
  AttachmentFile_new sample_builtins (VInt 77) (VStr "https://files/a.txt")
    (VInt 3) (VStr "a.txt") VNone.

(** 2023-07-15T10:30:45+00:00. *)
Definition sample_instant : datetime :=
  mkDatetime 2023 7 15 10 30 45 0 (Some 0).

(** The attribute under which an Attachment field keeps the file object it
    has built. *)
Definition cache_key (k : string) : Prop :=
  exists name, k = model_file_attribute_name name.

(** [i'] has every attribute of [i], with the same value, and beyond them
    only file objects built by Attachment fields. *)
Definition grows (i i' : instance) : Prop :=
  i ⊆ i' /\ forall k, i !! k = None -> is_Some (i' !! k) -> cache_key k.

(** The class of [tests/test_base.py] and an instance of it. *)
Definition MockCustomObject : pyclass :=
  mkClass "MockCustomObject"
    [("name", TextField "name"); ("codigo", TextField "codigo");
     ("ativo", CheckboxField "ativo")].

Definition custom_object : instance :=
  <["ativo" := VBool true]>
    (<["codigo" := VStr "1234"]>
       (<["name" := VStr "Test Object"]> (<["id" := VNone]> ∅))).

(** A [ZendeskAPIClient] object, and a class that declares a field under
    [client]. *)
Definition zendesk_client : value := VObject "ZendeskAPIClient" [] [].



(** [response["custom_object_record"][key]]. *)
Definition record_item (response : value) (key : string) : result value :=
  do record <- py_getitem response "custom_object_record";
  py_getitem record key.


(** A class whose [name] is a Dropdown, and an instance of it. *)
Definition Membership : pyclass :=
  mkClass "Membership"
    [("name", DropdownField "name" (PlainChoices ["Gold"; "Silver"]));
     ("owner", TextField "owner")].

Definition membership : instance :=
  <["owner" := VStr "ana"]> (<["name" := VStr "gold"]> (<["id" := VNone]> ∅)).

(** What the payload of [to_save] holds for a declared field [f] that
    reads [stored]: null for a Dropdown or Multiselect field whose stored
    value is null, and [stored] itself for any field of another class. *)
Definition wire_of (f : Field) (stored out : value) : Prop :=
  if is_choice_field f then is_none stored = true -> out = VNone
  else out = stored.

(** A class with a labelled Dropdown, a Multiselect and a text field, and
    an instance of it. *)
Definition Ticket : pyclass :=
  mkClass "Ticket"
    [("status",
      DropdownField "status"
        (LabelledChoices [("open", "Open"); ("closed", "Closed")]));
     ("tags", MultiselectField "tags" (PlainChoices ["Red Flag"; "VIP"]));
     ("codigo", TextField "codigo");
     ("priority", DropdownField "priority" (PlainChoices ["Low"; "High"]))].

Definition ticket : instance :=
  <["priority" := VNone]>
    (<["codigo" := VStr "1234"]>
       (<["tags" := VList [VStr "vip"; VStr "red_flag"]]>
          (<["status" := VStr "open"]>
             (<["name" := VNone]> (<["id" := VStr "7"]> ∅))))).

(** A [Ticket] whose Dropdown and Multiselect fields are all null, and
    its payload. *)
Definition draft_ticket : instance :=
  <["priority" := VNone]>
    (<["codigo" := VStr "1234"]>
       (<["tags" := VNone]>
          (<["status" := VNone]>
             (<["name" := VNone]> (<["id" := VStr "7"]> ∅))))).

Definition draft_ticket_payload : pydict value :=
  [("status", VNone); ("tags", VNone); ("codigo", VStr "1234");
   ("priority", VNone); ("id", VStr "7")].

(** The entity of [tests/test_base.py] once it has an id. *)
Definition stored_custom_object : instance :=
  <["id" := VStr "01J"]> custom_object.

(** The class declares no Attachment field. *)
Definition attachment_free (cls : pyclass) : Prop :=
  Forall (fun entry => is_attachment_field (snd entry) = false) (cls_dict cls).

(** A computation that never changes the state. *)
Definition unchanged {S A} (c : run S A) : Prop :=
  forall s r s', c s = (r, s') -> s' = s.

(** ** More of file.py *)

(** The setter of the [content] property. *)
Definition AttachmentFile_set_content (v : value) (a : AttachmentFile)
  : result AttachmentFile :=
  if negb (isinstance v TBytes) then
    Raise (ValueError "Content attribute must be of type bytes.")
  else
    Ok (mkAttachmentFile (_attachment_id a) (_attachment_url a)
          (_attachment_size a) (_attachment_filename a) v false (token a)).

(** [AttachmentFile.__init__] with its [save_fast] argument: the object
    built, or the exception [save] raised, and the requests sent. *)
Definition AttachmentFile_init (B : Builtins) (T : Transport)
    (attachment_id attachment_url attachment_size attachment_filename
     content : value) (save_fast : bool)
  : result AttachmentFile * list request :=
  let a := AttachmentFile_new B attachment_id attachment_url attachment_size
             attachment_filename content in
  if truthy content then
    if save_fast then
      match AttachmentFile_save T (mkWorld a []) with
      | (Ok _, w) => (Ok (self w), sent w)
      | (Raise e, w) => (Raise e, sent w)
      end
    else (Ok a, [])
  else (Ok a, []).

(** The body [FileManagerZendesk.send_to_ticket] PUTs. *)
Definition ticket_comment (comment tok : value) : value :=
  VDict [("ticket", VDict [("comment",
     VDict [("body", comment); ("uploads", VList [tok])])])].

(** ** More of fields.py *)

Definition has_space (s : string) : bool :=
  existsb (fun c => Ascii.eqb c " ") (list_ascii_of_string s).

Definition has_T (s : string) : bool :=
  existsb (fun c => Ascii.eqb c "T") (list_ascii_of_string s).

(** What a field's [__set__] hands to [Field.__set__]: a Date field the
    text before the first ["T"], a Decimal field [float(value)], the others
    the value itself. *)
Definition stored_form (B : Builtins) (f : Field) (v : value) : result value :=
  match f with
  | DateField _ => Ok (match v with VStr s => VStr (before_T s) | _ => v end)
  | DecimalField _ => if negb (is_none v) then py_float B v else Ok VNone
  | _ => Ok v
  end.

(** The field classes that keep [Field.__set__] and [Field.validate] as
    they are. *)
Definition keeps_base_validate (f : Field) : bool :=
  match f with
  | NameField _ _ _ _ _ | TextField _ | TextareaField _ | CheckboxField _
  | IntegerField _ | LookupField _ _ _ => true
  | _ => false
  end.

(** The field classes whose [validate] raises [FieldTypeError] itself or
    lets [Field.__set__] raise it, on the value as it was assigned. *)
Definition type_checked (f : Field) : bool :=
  match f with
  | DecimalField _ | AttachmentField _ _ _ | DateTimeField _ => false
  | _ => true
  end.

(** [type(v).__name__]. *)
Definition type_name (t : pytype) : string :=
  match t with
  | TStr => "str" | TBool => "bool" | TInt => "int" | TFloat => "float"
  | TList => "list" | TDict => "dict" | TBytes => "bytes"
  | TNoneType => "NoneType" | TType => "type" | TDatetimeT => "datetime"
  | TAttachmentFile => "AttachmentFile"
  | TClass name => name
  end.

(** [value.id], when [hasattr(value, "id")]. *)
Definition py_attr_id (v : value) : option value :=
  match v with
  | VObject _ _ attrs => dict_get "id" attrs
  | VAttachment a => Some (_attachment_id a)
  | _ => None
  end.

(** [LookupField.to_dict]. *)
Definition LookupField_to_dict (name : string) (v : value)
  : result (pydict value) :=
  match py_attr_id v with
  | None => Raise (ValueError "The related object does not have an ID.")
  | Some id => Ok [(name, id)]
  end.

Definition zendesk_lookup (name target_type title : string) : value :=
  VDict [("type", VStr "lookup");
         ("relationship_target_type", VStr target_type);
         ("key", VStr name);
         ("title", VStr title)].

(** [LookupField.to_zendesk] of [mercuryorm/fields.py]; [capitalize] is
    [str.capitalize]. *)
Definition LookupField_to_zendesk (capitalize : string -> string)
    (name : string) (related_object : value) : value :=
  let target_type :=
    match related_object with
    | VStr s => "zen:custom_object:" +:+ s
    | _ => "zen:custom_object:" +:+ lower (type_name (type_of related_object))
    end in
  zendesk_lookup name target_type (capitalize name).

(** [related_object.__name__]: a class has one, an object only if it
    carries the attribute. *)
Definition py_attr_name (v : value) : result value :=
  match v with
  | VClass name => Ok (VStr name)
  | VObject _ _ attrs =>
      match dict_get "__name__" attrs with
      | Some n => Ok n
      | None => Raise (AttributeError "__name__")
      end
  | _ => Raise (AttributeError "__name__")
  end.

(** [LookupField.to_zendesk] of [mercuryfieldservice/fields.py]. *)
Definition fieldservice_LookupField_to_zendesk (capitalize : string -> string)
    (name : string) (related_object : value) : result value :=
  do target_type <-
    match related_object with
    | VStr s => Ok ("zen:custom_object:" +:+ s)
    | _ =>
        do n <- py_attr_name related_object;
        match n with
        | VStr s => Ok ("zen:custom_object:" +:+ lower s)
        | _ => Raise (AttributeError "lower")
        end
    end;
  Ok (zendesk_lookup name target_type (capitalize name)).

(** ** More of record_manager.py *)

Definition records_path (model_name : string) : string :=
  "/custom_objects/" +:+ lower model_name +:+ "/records".

Definition last_params : value :=
  VDict [("sort", VStr "-updated_at"); ("page[size]", VInt 1)].

(** [RecordManager.last]. *)
Definition RecordManager_last (T : Transport) (Q : QuerySet)
    (model_name : string) : run (world unit) value :=
  run! response <- call T (GET (records_path model_name) last_params);
  run! records <- slift (py_get response "custom_object_records" VNone);
  if truthy records then
    slift (do records <- py_getitem response "custom_object_records";
           do first <- py_index0 records;
           qs_parse_record_fields Q first)
  else sret VNone.

(** [RecordManager.delete]. *)
Definition RecordManager_delete (B : Builtins) (T : Transport)
    (model_name : string) (record_id : value) : run (world unit) value :=
  call T (DELETE ("/custom_objects/" +:+ lower model_name +:+ "/records/"
                    +:+ py_str B record_id)).

(** ** More of base.py *)

(** [response.get("details", {}).get("base", [{}])[0].get("description", "")],
    the text [save] compares with the message of a name collision. *)
Definition response_description (response : value) : result value :=
  do details <- py_get response "details" (VDict []);
  do base <- py_get details "base" (VList [VDict []]);
  do first <- py_index0 base;
  py_get first "description" (VStr "").

Definition name_exists_message : string :=
  "Name already exists. Try another one.".

(** The class declares no Dropdown and no Multiselect field. *)
Definition choice_free (cls : pyclass) : Prop :=
  Forall (fun entry => is_choice_field (snd entry) = false) (cls_dict cls).

(** A service that refuses every record because its name is taken. *)
Definition name_taken_response : value :=
  VDict [("status_code", VInt 422);
         ("details",
          VDict [("base",
                  VList [VDict [("description",
                                 VStr "Name already exists. Try another one.")]])])].



(** A class with an Attachment field that [contribute_to_class] has not
    been called on, and an instance of it. *)
Definition Report : pyclass :=
  mkClass "Report"
    [("title", TextField "title");
     ("scan", AttachmentField "scan" "ticket_scan" None)].

Definition report : instance :=
  <["title" := VStr "Q3"]> (<["name" := VNone]> (<["id" := VNone]> ∅)).

(** ** client/zendesk_manager.py: ZendeskObjectManager *)

Definition valid_field_types : list string :=
  ["text"; "textarea"; "checkbox"; "date"; "integer"; "decimal"; "regexp";
   "dropdown"; "lookup"; "multiselect"].

(** One entry of [custom_field_options]; the value is
    [choice.lower().replace(" ", "_")]. *)
Definition field_option (choice : string) : value :=
  VDict [("name", VStr choice); ("raw_name", VStr choice);
         ("value", VStr (replace_space (lower choice)))].

(** The body [create_custom_object_field] posts; [choices] is
    [kwargs.get("choices")]. *)
Definition custom_object_field_data (field_type key title : string)
    (choices : option (list string)) : value :=
  let data := [("type", VStr field_type); ("key", VStr key);
               ("title", VStr title)] in
  let data :=
    match choices with
    | Some (c :: cs) =>
        if existsb (String.eqb field_type) ["dropdown"; "multiselect"] then
          dict_set "custom_field_options" (VList (map field_option (c :: cs)))
            data
        else data
    | _ => data
    end in
  let data :=
    if String.eqb field_type "lookup" then
      dict_set "relationship_target_type"
        (VStr ("zen:custom_object:" +:+ key)) data
    else data in
  VDict [("custom_object_field", VDict data)].

(** [ZendeskObjectManager.create_custom_object_field]. *)
Definition create_custom_object_field (T : Transport)
    (custom_object_key field_type key title : string)
    (choices : option (list string)) : run (world unit) value :=
  if String.eqb key "name" then
    sret (VDict [("message",
                  VStr "Field 'name' is not allowed to be created")])
  else if negb (existsb (String.eqb field_type) valid_field_types) then
    sraise (ValueError
              ("Invalid field type '" +:+ field_type
                 +:+ "'. Must be one of ['text', 'textarea', 'checkbox', 'date', 'integer', 'decimal', 'regexp', 'dropdown', 'lookup', 'multiselect']."))
  else
    call T (POST ("/custom_objects/" +:+ custom_object_key +:+ "/fields")
              (custom_object_field_data field_type key title choices)).

(** [ZendeskObjectManager.list_custom_objects]. *)
Definition list_custom_objects (T : Transport) : run (world unit) value :=
  run! response <- call T (GET "/custom_objects" VNone);
  slift (py_get response "custom_objects" (VList [])).

(** The loop of [get_custom_object]: the first object whose [key] is
    [key], [None] when the loop ends. *)
Fixpoint find_custom_object (key : string) (objs : list value)
  : result value :=
  match objs with
  | [] => Ok VNone
  | obj :: rest =>
      do k <- py_getitem obj "key";
      if py_eq_str k key then Ok obj else find_custom_object key rest
  end.

(** [ZendeskObjectManager.get_custom_object]. *)
Definition get_custom_object (T : Transport) (key : string)
  : run (world unit) value :=
  run! custom_objects <- list_custom_objects T;
  run! objs <- slift (py_iter custom_objects);
  slift (find_custom_object key objs).

Definition custom_object_data (key title description : string) : value :=
  VDict [("custom_object",
          VDict [("key", VStr key); ("title", VStr title);
                 ("title_pluralized", VStr (title +:+ "s"));
                 ("description", VStr description);
                 ("include_in_list_view", VBool true)])].

(** [ZendeskObjectManager.create_custom_object]. *)
Definition create_custom_object (T : Transport) (key title description : string)
  : run (world unit) value :=
  call T (POST "/custom_objects" (custom_object_data key title description)).

(** [ZendeskObjectManager.get_or_create_custom_object]: the object and
    whether it was created. *)
Definition get_or_create_custom_object (T : Transport)
    (key title description : string) : run (world unit) (value * bool) :=
  run! existing_object <- get_custom_object T key;
  if truthy existing_object then sret (existing_object, false)
  else
    run! new_object <- create_custom_object T key title description;
    sret (new_object, true).

(** An object of the listing has a [key], which is or is not [key]. *)
Definition has_other_key (key : string) (obj : value) : Prop :=
  exists k, py_getitem obj "key" = Ok k /\ py_eq_str k key = false.

(** A service that lists two custom objects. *)
Definition catalogue : value :=
  VDict [("custom_objects",
          VList [VDict [("key", VStr "car"); ("title", VStr "Car")];
                 VDict [("key", VStr "ticket"); ("title", VStr "Ticket")]])].

Definition catalogue_transport : Transport :=
  {| respond := fun req =>
       match req with
       | GET path _ =>
           if String.eqb path "/custom_objects" then Ok catalogue
           else Ok (VDict [])
       | POST _ _ => Ok created_response
       | _ => Ok (VDict [])
       end |}.

(** Every field the class declares stores under one name of its own: none
    is an Attachment field or a DateTime field. *)
Definition plain_fields (entries : pydict Field) : Prop :=
  Forall (fun entry => is_attachment_field (snd entry) = false
                       /\ data_type (snd entry) <> TDatetimeT) entries.

(** * Properties *)

(** ** Attachment files *)

Lemma AttachmentFile_save_saved (T : Transport) (w : world AttachmentFile) :
  saved (self w) = true -> AttachmentFile_save T w = (Ok tt, w).
Proof.
  intros Hs. unfold AttachmentFile_save. rewrite Hs. reflexivity.
Qed.

Lemma AttachmentFile_save_not_bytes (T : Transport) (w : world AttachmentFile) :
  saved (self w) = false ->
  isinstance (_content (self w)) TBytes = false ->
  AttachmentFile_save T w
  = (Raise (ValueError "Content attribute must be of type bytes."), w).
Proof.
  intros Hs Hc. unfold AttachmentFile_save. rewrite Hs, Hc. reflexivity.
Qed.

Ltac run_step :=
  match goal with
  | |- context [match ?r with Ok _ => _ | Raise _ => _ end] =>
      let E := fresh "E" in destruct r eqn:E; simpl in *
  | H : context [match ?r with Ok _ => _ | Raise _ => _ end] |- _ =>
      let E := fresh "E" in destruct r eqn:E; simpl in *
  end.

Lemma AttachmentFile_save_sent (T : Transport) (w w' : world AttachmentFile)
    (r : result unit) :
  AttachmentFile_save T w = (r, w') ->
  (sent w' = sent w /\ (r = Ok tt -> saved (self w) = true /\ w' = w))
  \/ (sent w' = (sent w ++ [UPLOAD (_attachment_filename (self w))
                                   (_content (self w))])%list
      /\ saved (self w) = false
      /\ (r = Ok tt -> saved (self w') = true)).
Proof.
  unfold AttachmentFile_save. destruct (saved (self w)) eqn:Hs; simpl.
  - intros [= <- <-]. left. auto.
  - destruct (isinstance (_content (self w)) TBytes) eqn:Hc; simpl.
    + intros H. right.
      unfold AttachmentFile__upload_attachment, sbind, call, slift,
        update_self, upload_attachment_item, rbind in H. simpl in H.
      repeat run_step; inversion H; subst; simpl;
        repeat split; try reflexivity; try discriminate.
    + intros [= <- <-]. left. split; [reflexivity | discriminate].
Qed.

Lemma AttachmentFile_save_uploads (T : Transport) (w : world AttachmentFile)
    (response upload_data v_id v_name v_url v_size v_token : value) :
  saved (self w) = false ->
  isinstance (_content (self w)) TBytes = true ->
  respond T (UPLOAD (_attachment_filename (self w)) (_content (self w)))
  = Ok response ->
  py_getitem response "upload" = Ok upload_data ->
  upload_attachment_item upload_data "id" = Ok v_id ->
  upload_attachment_item upload_data "file_name" = Ok v_name ->
  upload_attachment_item upload_data "content_url" = Ok v_url ->
  upload_attachment_item upload_data "size" = Ok v_size ->
  py_getitem upload_data "token" = Ok v_token ->
  AttachmentFile_save T w
  = (Ok tt,
     mkWorld (mkAttachmentFile v_id v_url v_size v_name (_content (self w))
                true (Some v_token))
       (sent w ++ [UPLOAD (_attachment_filename (self w))
                          (_content (self w))])).
Proof.
  intros Hs Hc Hr Hu Hi Hn Hl Hz Ht.
  unfold AttachmentFile_save. rewrite Hs, Hc. simpl.
  unfold AttachmentFile__upload_attachment, sbind, call, slift, update_self.
  simpl. rewrite Hr, Hu, Hi, Hn, Hl, Hz, Ht. reflexivity.
Qed.

Lemma UPLOADS_app (l1 l2 : list request) :
  UPLOADS (l1 ++ l2) = (UPLOADS l1 ++ UPLOADS l2)%list.
Proof. unfold UPLOADS. apply List.filter_app. Qed.

(** C8. [AttachmentFile.save] is idempotent.  Once [saved] is true a call
    changes nothing, sends nothing and returns; from any state, two calls in
    a row of which the first returns send at most one upload (a single call
    never sends more than one); with [saved] false the call raises, without
    uploading, when the content is absent or not [bytes], and otherwise
    uploads and, on the service's answer, stores id, file name, url, size
    and token and sets [saved]. *)
Theorem AttachmentFile_save_idempotent (T : Transport)
    (w : world AttachmentFile) :
  (saved (self w) = true -> AttachmentFile_save T w = (Ok tt, w))
  /\ (forall r1 w1 r2 w2,
        AttachmentFile_save T w = (r1, w1) ->
        AttachmentFile_save T w1 = (r2, w2) ->
        (length (UPLOADS (sent w1)) <= length (UPLOADS (sent w)) + 1)%nat
        /\ (r1 = Ok tt -> r2 = Ok tt /\ w2 = w1
            /\ (length (UPLOADS (sent w2))
                <= length (UPLOADS (sent w)) + 1)%nat))
  /\ (saved (self w) = false ->
      isinstance (_content (self w)) TBytes = false ->
      AttachmentFile_save T w
      = (Raise (ValueError "Content attribute must be of type bytes."), w))
  /\ (forall response upload_data v_id v_name v_url v_size v_token,
        saved (self w) = false ->
        isinstance (_content (self w)) TBytes = true ->
        respond T (UPLOAD (_attachment_filename (self w)) (_content (self w)))
        = Ok response ->
        py_getitem response "upload" = Ok upload_data ->
        upload_attachment_item upload_data "id" = Ok v_id ->
        upload_attachment_item upload_data "file_name" = Ok v_name ->
        upload_attachment_item upload_data "content_url" = Ok v_url ->
        upload_attachment_item upload_data "size" = Ok v_size ->
        py_getitem upload_data "token" = Ok v_token ->
        AttachmentFile_save T w
        = (Ok tt,
           mkWorld (mkAttachmentFile v_id v_url v_size v_name
                      (_content (self w)) true (Some v_token))
             (sent w ++ [UPLOAD (_attachment_filename (self w))
                                (_content (self w))]))).
Proof.
  split; [apply AttachmentFile_save_saved |].
  split; [| split; [apply AttachmentFile_save_not_bytes
                   | intros; eapply AttachmentFile_save_uploads; eauto]].
  intros r1 w1 r2 w2 H1 H2.
  assert (Hlen : (length (UPLOADS (sent w1))
                  <= length (UPLOADS (sent w)) + 1)%nat).
  { destruct (AttachmentFile_save_sent _ _ _ _ H1) as [[-> _] | [-> _]].
    - lia.
    - rewrite UPLOADS_app, length_app. simpl. lia. }
  split; [exact Hlen |].
  intros ->.
  assert (Hsaved : saved (self w1) = true).
  { destruct (AttachmentFile_save_sent _ _ _ _ H1) as [[_ Hk] | [_ [_ Hk]]].
    - destruct (Hk eq_refl) as [Hs ->]. exact Hs.
    - exact (Hk eq_refl). }
  rewrite (AttachmentFile_save_saved T w1 Hsaved) in H2.
  inversion H2; subst. auto.
Qed.

(** An unsaved file with three bytes of content is uploaded once by two
    calls of [save]. *)
Lemma AttachmentFile_save_idempotent_witness :
  let w := mkWorld unsaved_file [] in
  saved (self w) = false
  /\ AttachmentFile_save sample_transport w
     = (Ok tt,
        mkWorld (mkAttachmentFile (VInt 77) (VStr "https://files/a.txt")
                   (VInt 3) (VStr "a.txt")
                   (VBytes ["a"%char; "b"%char; "c"%char]) true
                   (Some (VStr "tok-1")))
          [UPLOAD (VStr "a.txt") (VBytes ["a"%char; "b"%char; "c"%char])])
  /\ (forall r2 w2,
        AttachmentFile_save sample_transport
          (snd (AttachmentFile_save sample_transport w)) = (r2, w2) ->
        r2 = Ok tt /\ length (UPLOADS (sent w2)) = 1%nat).
Proof.
  intros w.
  pose proof (AttachmentFile_save_idempotent sample_transport w)
    as (_ & Htwice & _ & Hup).
  split; [reflexivity |].
  split.
  - apply (Hup upload_response
             (VDict [("token", VStr "tok-1");
                     ("attachment",
                      VDict [("id", VInt 77);
                             ("file_name", VStr "a.txt");
                             ("content_url", VStr "https://files/a.txt");
                             ("size", VInt 3)])]));
      reflexivity.
  - intros r2 w2 H2.
    destruct (Htwice (Ok tt) (snd (AttachmentFile_save sample_transport w))
                r2 w2 eq_refl H2) as (_ & Hk).
    destruct (Hk eq_refl) as (-> & -> & _). split; reflexivity.
Defined.

(** ** Record manager *)

(** C5. [RecordManager.get] called without an [id] criterion delegates to
    [filter] and sends nothing itself; it raises the error of the
    single-lookup failure ([ValueError]) both when no record matches and
    when more than one does, and returns the record when exactly one
    matches. *)
Theorem RecordManager_get_by_criteria (B : Builtins) (T : Transport)
    (Q : QuerySet) (model_name : string) (kwargs : pydict value)
    (w : world unit) (records : list value) :
  dict_get "id" kwargs = None ->
  RecordManager_filter Q kwargs = Ok records ->
  (length records = 0%nat ->
   RecordManager_get B T Q model_name kwargs w
   = (Raise (ValueError (model_name +:+ " matching query does not exist.")),
      w))
  /\ ((1 < length records)%nat ->
      RecordManager_get B T Q model_name kwargs w
      = (Raise (ValueError ("Multiple " +:+ model_name
                              +:+ " objects returned; expected exactly one.")),
         w))
  /\ (forall record, records = [record] ->
      RecordManager_get B T Q model_name kwargs w = (Ok record, w)).
Proof.
  intros Hid Hf. unfold RecordManager_get. rewrite Hid.
  unfold sbind, slift. rewrite Hf. repeat split.
  - intros Hlen. rewrite Hlen. reflexivity.
  - intros Hlen.
    destruct (Nat.eqb_spec (length records) 0) as [E | _]; [lia |].
    destruct (Nat.ltb_spec 1 (length records)); [reflexivity | lia].
  - intros record ->. reflexivity.
Qed.

(** The three outcomes on the sample query set. *)
Lemma RecordManager_get_by_criteria_witness :
  RecordManager_get sample_builtins sample_transport sample_queryset
    "MockModel" [("codigo", VStr "9999")] (mkWorld tt [])
  = (Raise (ValueError "MockModel matching query does not exist."),
     mkWorld tt [])
  /\ RecordManager_get sample_builtins sample_transport sample_queryset
       "MockModel" [("codigo", VStr "1234")] (mkWorld tt [])
     = (Raise (ValueError
                 "Multiple MockModel objects returned; expected exactly one."),
        mkWorld tt [])
  /\ RecordManager_get sample_builtins sample_transport sample_queryset
       "MockModel" [("codigo", VStr "1234"); ("ativo", VBool true)]
       (mkWorld tt [])
     = (Ok record_one, mkWorld tt []).
Proof.
  split; [| split].
  - apply (RecordManager_get_by_criteria sample_builtins sample_transport
             sample_queryset "MockModel" [("codigo", VStr "9999")]
             (mkWorld tt []) []); reflexivity.
  - apply (RecordManager_get_by_criteria sample_builtins sample_transport
             sample_queryset "MockModel" [("codigo", VStr "1234")]
             (mkWorld tt []) [record_one; record_two]);
      [reflexivity | reflexivity | simpl; lia].
  - apply (RecordManager_get_by_criteria sample_builtins sample_transport
             sample_queryset "MockModel"
             [("codigo", VStr "1234"); ("ativo", VBool true)]
             (mkWorld tt []) [record_one]); reflexivity.
Defined.

(** ** Regexp fields *)

Lemma RegexpField_init_never_RegexCompileError (B : Builtins)
    (name pattern field : string) :
  RegexpField_init B name pattern <> Raise (RegexCompileError field).
Proof.
  unfold RegexpField_init, RegexpField__check_pattern.
  destruct (re_compiles B pattern); simpl; discriminate.
Qed.

(** C6, as the code has it.  Declaring a Regexp field with a pattern that
    [re.compile] rejects fails at declaration, but with the [re.error] that
    [re.compile] raises: [_check_pattern] does not catch it, and the
    [raise RegexCompileError] after it is never reached. *)
Theorem RegexpField_init_bad_pattern (B : Builtins) (name pattern : string) :
  re_compiles B pattern = false ->
  RegexpField_init B name pattern = Raise (ReError pattern).
Proof.
  intros H. unfold RegexpField_init, RegexpField__check_pattern.
  rewrite H. reflexivity.
Qed.

Lemma RegexpField_init_bad_pattern_witness :
  re_compiles sample_builtins "(" = false
  /\ RegexpField_init sample_builtins "code" "(" = Raise (ReError "(").
Proof.
  split; [reflexivity |].
  apply (RegexpField_init_bad_pattern sample_builtins "code" "(").
  reflexivity.
Defined.

(** ** Choice fields *)

Lemma py_in_strs_spec (v : value) (keys : list string) :
  py_in_strs v keys = true <-> is_member keys v.
Proof.
  unfold py_in_strs, is_member. rewrite existsb_exists. split.
  - intros (k & Hin & Heq). destruct v; simpl in Heq; try discriminate.
    apply String.eqb_eq in Heq. subst. eauto.
  - intros (s0 & -> & Hin). exists s0. split; [exact Hin |].
    simpl. apply String.eqb_refl.
Qed.


Lemma nonempty_keys (keys : list string) :
  keys <> [] -> match keys with [] => false | _ => true end = true.
Proof. destruct keys; congruence. Qed.

Lemma Dropdown_set_string (B : Builtins) (name : string) (choices : choices_t)
    (s0 : string) (inst : instance) :
  possible_keys B choices <> [] ->
  Field_set B (DropdownField name choices) (VStr s0) inst
  = if py_in_strs (VStr s0) (possible_keys B choices)
    then Ok (<[name := VStr s0]> inst)
    else Raise (InvalidChoiceError name (VStr s0)).
Proof.
  intros Hk. simpl. unfold Field_base_set. simpl.
  rewrite (nonempty_keys _ Hk). simpl.
  destruct (py_in_strs (VStr s0) (possible_keys B choices)); reflexivity.
Qed.





(** ** Assigning [None] *)

(** C7, as the code has it.  Assigning [None] never raises, for every field
    class.  For every class but [AttachmentField] the field then reads
    [None]; [AttachmentField.__set__] ignores [None] and leaves the instance
    as it was. *)
Theorem assign_None (B : Builtins) (f : Field) (inst : instance) :
  exists inst',
    Field_set B f VNone inst = Ok inst'
    /\ if is_attachment_field f then inst' = inst
       else Field_get B f inst' = (Ok VNone, inst').
Proof.
  destruct f; simpl; unfold Field_base_set, DateTimeField_set; simpl;
    eexists; (split; [reflexivity |]);
    try reflexivity;
    unfold Field_base_get, DateTimeField_get;
    rewrite ?lookup_insert_eq; try reflexivity.
  rewrite lookup_insert. case_decide; rewrite ?lookup_insert_eq; reflexivity.
Qed.

(** C7 fails as stated for an Attachment field that holds a file: after
    [None] is assigned the field still reads the file. *)
Lemma assign_None_counterexample :
  exists inst1 inst2,
    Field_set sample_builtins photo_field (VAttachment saved_file) ∅
    = Ok inst1
    /\ Field_set sample_builtins photo_field VNone inst1 = Ok inst2
    /\ fst (Field_get sample_builtins photo_field inst2)
       = Ok (VAttachment saved_file)
    /\ VAttachment saved_file <> VNone.
Proof.
  eexists. eexists.
  split; [reflexivity |]. split; [reflexivity |].
  split; [vm_compute; reflexivity | discriminate].
Qed.

(** ** DateTime fields *)

Lemma digit_val_char (d : Z) :
  0 <= d < 10 -> digit_val (digit_char d) = Some d.
Proof.
  intros H.
  assert (E : d = 0 \/ d = 1 \/ d = 2 \/ d = 3 \/ d = 4 \/ d = 5 \/ d = 6
              \/ d = 7 \/ d = 8 \/ d = 9) by lia.
  repeat (destruct E as [-> | E]; [reflexivity |]). subst. reflexivity.
Qed.

Lemma parse_digits_snoc (l : list ascii) (c : ascii) (acc : Z) :
  parse_digits acc (l ++ [c])
  = match parse_digits acc l with
    | Some a =>
        match digit_val c with
        | Some d => Some (a * 10 + d)
        | None => None
        end
    | None => None
    end.
Proof.
  revert acc. induction l as [| x l IH]; intros acc; simpl.
  - destruct (digit_val c); reflexivity.
  - destruct (digit_val x); [apply IH | reflexivity].
Qed.

Lemma parse_digits_pad (k : nat) : forall n acc,
  0 <= n < 10 ^ Z.of_nat k ->
  parse_digits acc (pad k n) = Some (acc * 10 ^ Z.of_nat k + n).
Proof.
  induction k as [| k IH]; intros n acc Hn.
  - simpl in *. f_equal. lia.
  - rewrite Nat2Z.inj_succ, Z.pow_succ_r in * by lia.
    cbn [pad]. rewrite parse_digits_snoc.
    rewrite IH by (split; [apply Z.div_pos; lia
                          | apply Z.div_lt_upper_bound; lia]).
    rewrite digit_val_char by (apply Z.mod_pos_bound; lia).
    f_equal. pose proof (Z.div_mod n 10 ltac:(lia)). lia.
Qed.

Lemma parse_pad2 (n : Z) :
  0 <= n < 100 ->
  parse_digits 0 [digit_char (n / 10 mod 10); digit_char (n mod 10)] = Some n.
Proof. intros H. apply (parse_digits_pad 2 n 0). simpl. lia. Qed.

Lemma parse_pad4 (n : Z) :
  0 <= n < 10000 ->
  parse_digits 0 [digit_char (n / 10 / 10 / 10 mod 10);
                  digit_char (n / 10 / 10 mod 10);
                  digit_char (n / 10 mod 10); digit_char (n mod 10)]
  = Some n.
Proof. intros H. apply (parse_digits_pad 4 n 0). simpl. lia. Qed.

Lemma parse_pad6 (n : Z) :
  0 <= n < 1000000 ->
  parse_digits 0 [digit_char (n / 10 / 10 / 10 / 10 / 10 mod 10);
                  digit_char (n / 10 / 10 / 10 / 10 mod 10);
                  digit_char (n / 10 / 10 / 10 mod 10);
                  digit_char (n / 10 / 10 mod 10);
                  digit_char (n / 10 mod 10); digit_char (n mod 10)]
  = Some n.
Proof. intros H. apply (parse_digits_pad 6 n 0). simpl. lia. Qed.

Lemma in_range_spec (lo hi x : Z) :
  in_range lo hi x = true <-> lo <= x <= hi.
Proof. unfold in_range. rewrite andb_true_iff, !Z.leb_le. tauto. Qed.

Lemma parse_date_isoformat (dt : datetime) :
  valid_datetime dt = true ->
  parse_date (date_isoformat dt) = Some (year dt, month dt, day dt).
Proof.
  unfold valid_datetime. rewrite !andb_true_iff.
  intros (((((((Hy & Hm) & Hd) & _) & _) & _) & _) & _).
  pose proof (proj1 (in_range_spec _ _ _) Hy).
  pose proof (proj1 (in_range_spec _ _ _) Hm).
  pose proof (proj1 (in_range_spec _ _ _) Hd).
  assert (days_in_month (year dt) (month dt) <= 31).
  { unfold days_in_month.
    repeat match goal with |- context [if ?b then _ else _] => destruct b end;
      lia. }
  unfold date_isoformat, parse_date. cbn [pad app]. simpl Ascii.eqb.
  cbn [andb]. rewrite parse_pad4, !parse_pad2 by lia.
  rewrite Hy, Hm, Hd. reflexivity.
Qed.

Lemma parse_offset_isoformat (off : option Z) :
  match off with Some o => in_range (-1439) 1439 o = true | None => True end ->
  parse_offset (offset_isoformat off) = Some off.
Proof.
  destruct off as [o |]; [| reflexivity].
  intros H. apply in_range_spec in H.
  unfold offset_isoformat, parse_offset. cbn [pad app].
  assert (Hh : 0 <= Z.abs o / 60 <= 23).
  { split; [apply Z.div_pos; lia |].
    assert (Z.abs o / 60 < 24) by (apply Z.div_lt_upper_bound; lia). lia. }
  assert (Hm : 0 <= Z.abs o mod 60 < 60) by (apply Z.mod_pos_bound; lia).
  pose proof (Z.div_mod (Z.abs o) 60 ltac:(lia)) as Hdm.
  destruct (Z.ltb_spec o 0) as [Hneg | Hpos]; simpl Ascii.eqb; cbn [andb orb];
    rewrite !parse_pad2 by lia;
    rewrite (proj2 (in_range_spec 0 23 _)) by lia;
    rewrite (proj2 (in_range_spec 0 59 _)) by lia;
    cbn [andb]; do 2 f_equal; lia.
Qed.

Lemma parse_fraction_isoformat (us : Z) (off : option Z) :
  0 <= us <= 999999 ->
  match off with Some o => in_range (-1439) 1439 o = true | None => True end ->
  parse_fraction ((if us =? 0 then [] else "."%char :: pad 6 us)
                    ++ offset_isoformat off)
  = Some (us, off).
Proof.
  intros Hus Hoff. pose proof (parse_offset_isoformat off Hoff) as Hp.
  destruct (Z.eqb_spec us 0) as [-> | Hnz].
  - cbn [app]. unfold parse_fraction.
    destruct off as [o |]; [| reflexivity].
    unfold offset_isoformat in *. cbn [pad app] in *. rewrite Hp. reflexivity.
  - cbn [pad app]. unfold parse_fraction. simpl Ascii.eqb. cbn iota.
    rewrite parse_pad6 by lia. rewrite Hp. reflexivity.
Qed.

Lemma parse_time_isoformat (dt : datetime) :
  valid_datetime dt = true ->
  parse_time (time_isoformat dt)
  = Some (hour dt, minute dt, second dt, microsecond dt, utcoffset dt).
Proof.
  unfold valid_datetime. rewrite !andb_true_iff.
  intros (((((((_ & _) & _) & Hh) & Hm) & Hs) & Hus) & Hoff).
  pose proof (proj1 (in_range_spec _ _ _) Hh).
  pose proof (proj1 (in_range_spec _ _ _) Hm).
  pose proof (proj1 (in_range_spec _ _ _) Hs).
  pose proof (proj1 (in_range_spec _ _ _) Hus).
  assert (Hoff' : match utcoffset dt with
                  | Some o => in_range (-1439) 1439 o = true
                  | None => True
                  end) by (destruct (utcoffset dt); auto).
  unfold time_isoformat, parse_time. cbn [pad app]. simpl Ascii.eqb.
  cbn [andb]. rewrite !parse_pad2 by lia.
  rewrite parse_fraction_isoformat by (auto; lia).
  rewrite Hh, Hm, Hs. reflexivity.
Qed.

Lemma datetime_of_iso_isoformat (dt : datetime) :
  valid_datetime dt = true ->
  datetime_of_iso (date_isoformat dt) (time_isoformat dt) = Some dt.
Proof.
  intros H. unfold datetime_of_iso.
  rewrite parse_date_isoformat, parse_time_isoformat by exact H.
  destruct dt; reflexivity.
Qed.

Lemma string_length_app (a b : string) :
  String.length (a +:+ b) = (String.length a + String.length b)%nat.
Proof. induction a as [| c a IH]; simpl; [reflexivity | now rewrite IH]. Qed.

Lemma time_key_neq (name : string) : time_key name <> name.
Proof.
  intros H. apply (f_equal String.length) in H.
  unfold time_key in H. rewrite string_length_app in H. simpl in H. lia.
Qed.

(** C3.  Writing an instant to a DateTime field stores its date under
    [name] and its time of day, with the offset, under [name_time], and
    touches no other key; reading the field back rebuilds the same instant:
    date, time of day and offset. *)
Theorem DateTimeField_roundtrip (B : Builtins) (name : string) (dt : datetime)
    (inst : instance) :
  valid_datetime dt = true ->
  exists inst',
    Field_set B (DateTimeField name) (VDatetime dt) inst = Ok inst'
    /\ inst' !! name = Some (VStr (string_of_list_ascii (date_isoformat dt)))
    /\ inst' !! time_key name
       = Some (VStr (string_of_list_ascii (time_isoformat dt)))
    /\ (forall k, k <> name -> k <> time_key name -> inst' !! k = inst !! k)
    /\ Field_get B (DateTimeField name) inst' = (Ok (VDatetime dt), inst').
Proof.
  intros Hv. eexists. split; [reflexivity |].
  pose proof (time_key_neq name) as Hne.
  assert (Hd : (<[time_key name :=
                   VStr (string_of_list_ascii (time_isoformat dt))]>
                (<[name := VStr (string_of_list_ascii (date_isoformat dt))]>
                 inst)) !! name
               = Some (VStr (string_of_list_ascii (date_isoformat dt)))).
  { rewrite lookup_insert_ne by exact Hne. apply lookup_insert_eq. }
  repeat split.
  - exact Hd.
  - apply lookup_insert_eq.
  - intros k Hk1 Hk2. rewrite !lookup_insert_ne by congruence. reflexivity.
  - cbn [Field_get]. unfold DateTimeField_get. rewrite Hd, lookup_insert_eq.
    cbn [default from_option id].
    rewrite !list_ascii_of_string_of_list_ascii.
    rewrite datetime_of_iso_isoformat by exact Hv. reflexivity.
Qed.

(** 2023-07-15T10:30:45+00:00 is stored as ["2023-07-15"] and
    ["10:30:45+00:00"] and read back as itself. *)
Lemma DateTimeField_roundtrip_witness :
  valid_datetime sample_instant = true
  /\ exists inst',
       Field_set sample_builtins (DateTimeField "created_at")
         (VDatetime sample_instant) ∅ = Ok inst'
       /\ inst' !! "created_at" = Some (VStr "2023-07-15")
       /\ inst' !! "created_at_time" = Some (VStr "10:30:45+00:00")
       /\ Field_get sample_builtins (DateTimeField "created_at") inst'
          = (Ok (VDatetime sample_instant), inst').
Proof.
  split; [reflexivity |].
  destruct (DateTimeField_roundtrip sample_builtins "created_at"
              sample_instant ∅ eq_refl)
    as (inst' & Hset & Hd & Ht & _ & Hget).
  exists inst'. repeat split; assumption.
Defined.

(** ** Ordered dicts *)

Lemma dict_get_set {A} (k k' : string) (v : A) (d : pydict A) :
  dict_get k (dict_set k' v d)
  = if String.eqb k' k then Some v else dict_get k d.
Proof.
  induction d as [| [k1 v1] d IH]; simpl; [reflexivity |].
  destruct (String.eqb_spec k1 k') as [-> | Hne]; simpl.
  - destruct (String.eqb k' k); reflexivity.
  - rewrite IH. destruct (String.eqb_spec k1 k) as [-> | Hne2];
      [| reflexivity].
    destruct (String.eqb_spec k' k); [congruence | reflexivity].
Qed.

Lemma dict_get_notin {A} (k : string) (d : pydict A) :
  ~ In k (map fst d) -> dict_get k d = None.
Proof.
  induction d as [| [k1 v1] d IH]; simpl; [reflexivity |].
  intros H. destruct (String.eqb_spec k1 k) as [-> | Hne]; [tauto |].
  apply IH. tauto.
Qed.

Lemma dict_get_in {A} (k : string) (v : A) (d : pydict A) :
  dict_get k d = Some v -> In (k, v) d.
Proof.
  induction d as [| [k1 v1] d IH]; simpl; [discriminate |].
  destruct (String.eqb_spec k1 k) as [-> | Hne].
  - intros [= ->]. now left.
  - intros H. right. now apply IH.
Qed.

Lemma dict_get_merge {A} (k : string) (e : pydict A) : forall d,
  List.NoDup (map fst e) ->
  dict_get k (dict_merge d e)
  = match dict_get k e with
    | Some v => Some v
    | None => dict_get k d
    end.
Proof.
  unfold dict_merge. induction e as [| [k0 v0] e IH]; intros d Hnd; simpl;
    [reflexivity |].
  inversion Hnd as [| ? ? Hnotin Hnd']; subst.
  rewrite IH by exact Hnd'. rewrite dict_get_set.
  destruct (String.eqb_spec k0 k) as [-> | Hne]; [| reflexivity].
  now rewrite (dict_get_notin k e Hnotin).
Qed.

Lemma drop_none_keys (d : pydict value) (k : string) :
  In k (map fst (drop_none d)) -> In k (map fst d).
Proof.
  unfold drop_none. rewrite !in_map_iff. intros ([k1 v1] & <- & Hin).
  apply List.filter_In in Hin as [Hin _]. now exists (k1, v1).
Qed.

Lemma drop_none_NoDup (d : pydict value) :
  List.NoDup (map fst d) -> List.NoDup (map fst (drop_none d)).
Proof.
  induction d as [| [k1 v1] d IH]; simpl; [auto |].
  intros Hnd. inversion Hnd as [| ? ? Hnotin Hnd']; subst.
  destruct (negb (is_none v1)); simpl; [| auto].
  constructor; [| auto]. intros H. apply Hnotin. now apply drop_none_keys.
Qed.

Lemma dict_get_drop_none (k : string) (d : pydict value) :
  List.NoDup (map fst d) ->
  dict_get k (drop_none d)
  = match dict_get k d with
    | Some v => if is_none v then None else Some v
    | None => None
    end.
Proof.
  induction d as [| [k1 v1] d IH]; simpl; [reflexivity |].
  intros Hnd. inversion Hnd as [| ? ? Hnotin Hnd']; subst.
  destruct (String.eqb_spec k1 k) as [-> | Hne].
  - destruct (is_none v1); simpl.
    + apply dict_get_notin. intros H. apply Hnotin. now apply drop_none_keys.
    + now rewrite String.eqb_refl.
  - destruct (negb (is_none v1)); simpl; [| now apply IH].
    destruct (String.eqb_spec k1 k); [congruence | now apply IH].
Qed.

(** ** Entities: what reading changes *)

Lemma grows_refl (i : instance) : grows i i.
Proof.
  split; [reflexivity |]. intros k Hn [v Hv]. congruence.
Qed.

Lemma grows_trans (i j k : instance) : grows i j -> grows j k -> grows i k.
Proof.
  intros [Hij Hnew1] [Hjk Hnew2]. split; [etransitivity; eassumption |].
  intros a Hn Hs. destruct (j !! a) as [v |] eqn:E.
  - apply Hnew1; [exact Hn | eauto].
  - now apply Hnew2.
Qed.

Lemma grows_insert_cache (i : instance) (name : string) (v : value) :
  i !! model_file_attribute_name name = None ->
  grows i (<[model_file_attribute_name name := v]> i).
Proof.
  intros Hn. split; [now apply insert_subseteq |].
  intros k Hk Hs.
  destruct (decide (k = model_file_attribute_name name)) as [-> | Hne].
  - now exists name.
  - rewrite lookup_insert_ne in Hs by congruence.
    destruct Hs as [x Hx]. congruence.
Qed.

Lemma grows_lookup (i i' : instance) (k : string) (v : value) :
  grows i i' -> i !! k = Some v -> i' !! k = Some v.
Proof.
  intros [Hsub _] Hk. exact (proj1 (map_subseteq_spec i i') Hsub k v Hk).
Qed.

Lemma grows_antisym (i i' : instance) : grows i i' -> grows i' i -> i' = i.
Proof.
  intros [H1 _] [H2 _]. apply (anti_symm (⊆)); assumption.
Qed.

Lemma Field_get_grows (B : Builtins) (f : Field) (i i' : instance)
    (r : result value) :
  Field_get B f i = (r, i') -> grows i i'.
Proof.
  destruct f; simpl;
    try (intros [= <- <-]; apply grows_refl).
  unfold AttachmentField_get. destruct contributed as [name |].
  - destruct (i !! model_file_attribute_name name) eqn:E.
    + intros [= <- <-]. apply grows_refl.
    + destruct (negb (truthy _)).
      * intros [= <- <-]. apply grows_refl.
      * intros [= <- <-]. now apply grows_insert_cache.
  - intros [= <- <-]. apply grows_refl.
Qed.

Lemma getattr_grows (B : Builtins) (cls : pyclass) (attr : string)
    (i i' : instance) (r : result value) :
  getattr B cls attr i = (r, i') -> grows i i'.
Proof.
  unfold getattr. destruct (dict_get attr (cls_dict cls)) as [f |].
  - apply Field_get_grows.
  - destruct (i !! attr); intros [= <- <-]; apply grows_refl.
Qed.

Lemma getattr_default_grows (B : Builtins) (cls : pyclass) (attr : string)
    (dflt : value) (i i' : instance) (r : result value) :
  getattr_default B cls attr dflt i = (r, i') -> grows i i'.
Proof.
  unfold getattr_default.
  destruct (getattr B cls attr i) as [r0 i0] eqn:E.
  apply getattr_grows in E.
  destruct r0 as [v | []]; intros [= <- <-]; exact E.
Qed.

Lemma hasattr_grows (B : Builtins) (cls : pyclass) (attr : string)
    (i i' : instance) (r : result bool) :
  hasattr B cls attr i = (r, i') -> grows i i'.
Proof.
  unfold hasattr.
  destruct (getattr B cls attr i) as [r0 i0] eqn:E.
  apply getattr_grows in E.
  destruct r0 as [v | []]; intros [= <- <-]; exact E.
Qed.

Lemma sbind_grows {A C} (c : run instance A) (k : A -> run instance C)
    (i i' : instance) (r : result C) :
  (forall r0 i0, c i = (r0, i0) -> grows i i0) ->
  (forall a i0 r1 i1, k a i0 = (r1, i1) -> grows i0 i1) ->
  sbind c k i = (r, i') -> grows i i'.
Proof.
  intros Hc Hk. unfold sbind. destruct (c i) as [[a | e] i0] eqn:E.
  - intros H. eapply grows_trans; [eapply Hc; reflexivity | eapply Hk, H].
  - intros [= <- <-]. eapply Hc; reflexivity.
Qed.

Lemma sret_grows {A} (a : A) (i i' : instance) (r : result A) :
  sret a i = (r, i') -> grows i i'.
Proof. intros [= <- <-]. apply grows_refl. Qed.

Lemma read_defaults_grows (B : Builtins) (cls : pyclass) (keys : list string) :
  forall i i' r, read_defaults B cls keys i = (r, i') -> grows i i'.
Proof.
  induction keys as [| k keys IH]; intros i i' r; simpl.
  - apply sret_grows.
  - apply sbind_grows; [intros ? ?; apply getattr_default_grows |].
    intros v i0 r1 i1. apply sbind_grows; [intros ? ?; apply IH |].
    intros; eapply sret_grows; eassumption.
Qed.

Lemma to_save_entry_grows (B : Builtins) (acc : pydict value)
    (entry : string * Field) (i i' : instance) (r : result (pydict value)) :
  to_save_entry B acc entry i = (r, i') -> grows i i'.
Proof.
  destruct entry as [field_name field]. unfold to_save_entry.
  destruct (is_choice_field field).
  - apply sbind_grows; [intros ? ?; apply Field_get_grows |].
    intros v i0 r1 i1. destruct (negb (is_none v)).
    + apply sbind_grows; [intros ? ? [= <- <-]; apply grows_refl |].
      intros; eapply sret_grows; eassumption.
    + apply sret_grows.
  - apply sbind_grows; [intros ? ?; apply Field_get_grows |].
    intros; eapply sret_grows; eassumption.
Qed.

Lemma to_save_loop_grows (B : Builtins) (entries : pydict Field) :
  forall acc i i' r, to_save_loop B entries acc i = (r, i') -> grows i i'.
Proof.
  induction entries as [| entry entries IH]; intros acc i i' r; simpl.
  - apply sret_grows.
  - apply sbind_grows; [intros ? ?; apply to_save_entry_grows |].
    intros; eapply IH; eassumption.
Qed.

Lemma to_save_grows (B : Builtins) (cls : pyclass) (i i' : instance)
    (r : result (pydict value)) :
  to_save B cls i = (r, i') -> grows i i'.
Proof.
  unfold to_save.
  apply sbind_grows; [intros ? ?; apply read_defaults_grows |].
  intros dflt i0 r1 i1.
  apply sbind_grows; [intros ? ?; apply to_save_loop_grows |].
  intros; eapply sret_grows; eassumption.
Qed.

(** ** Entities: save *)

Lemma sbind_Ok {S A C} (c : run S A) (k : A -> run S C) (s s' : S) (x : C) :
  sbind c k s = (Ok x, s') ->
  exists a s0, c s = (Ok a, s0) /\ k a s0 = (Ok x, s').
Proof.
  unfold sbind. destruct (c s) as [[a | e] s0]; [eauto | discriminate].
Qed.

Lemma getattr_plain (B : Builtins) (cls : pyclass) (attr : string)
    (i : instance) (v : value) :
  dict_get attr (cls_dict cls) = None -> i !! attr = Some v ->
  getattr B cls attr i = (Ok v, i).
Proof. intros Hd Hi. unfold getattr. now rewrite Hd, Hi. Qed.

Lemma save_takes_create_plain (B : Builtins) (cls : pyclass) (i : instance)
    (v : value) :
  dict_get "id" (cls_dict cls) = None -> i !! "id" = Some v ->
  save_takes_create B cls i = (Ok (negb (truthy v)), i).
Proof.
  intros Hd Hi. unfold save_takes_create, sbind, hasattr.
  rewrite (getattr_plain B cls "id" i v Hd Hi). simpl.
  rewrite (getattr_plain B cls "id" i v Hd Hi). reflexivity.
Qed.

Lemma save_takes_create_grows (B : Builtins) (cls : pyclass) (i i' : instance)
    (r : result bool) :
  save_takes_create B cls i = (r, i') -> grows i i'.
Proof.
  unfold save_takes_create.
  apply sbind_grows; [intros ? ?; apply hasattr_grows |].
  intros has i0 r1 i1. destruct (negb has); [apply sret_grows |].
  apply sbind_grows; [intros ? ?; apply getattr_grows |].
  intros; eapply sret_grows; eassumption.
Qed.

Lemma save_prepare_grows (B : Builtins) (cls : pyclass) (i i' : instance)
    (r : result (value * option value)) :
  save_prepare B cls i = (r, i') -> grows i i'.
Proof.
  unfold save_prepare.
  apply sbind_grows; [intros ? ?; apply to_save_grows |].
  intros custom i0 r1 i1. apply sbind_grows.
  { intros r0 i2. destruct (negb (is_namefield_autoincrement cls));
      [| apply sret_grows].
    apply sbind_grows; [intros ? ?; apply getattr_grows |].
    intros; eapply sret_grows; eassumption. }
  intros name i2 r2 i3.
  apply sbind_grows; [intros ? ?; apply getattr_default_grows |].
  intros ext i4 r3 i5.
  apply sbind_grows; [intros ? ?; apply save_takes_create_grows |].
  intros create i6 r4 i7. destruct create; [apply sret_grows |].
  apply sbind_grows; [intros ? ?; apply getattr_grows |].
  intros; eapply sret_grows; eassumption.
Qed.

(** Whether [save] creates or updates is decided by the truth value of the
    [id] attribute. *)
Lemma save_prepare_target (B : Builtins) (cls : pyclass) (i i' : instance)
    (v data : value) (target : option value) :
  dict_get "id" (cls_dict cls) = None -> i !! "id" = Some v ->
  save_prepare B cls i = (Ok (data, target), i') ->
  target = if truthy v then Some v else None.
Proof.
  intros Hd Hi H. unfold save_prepare in H.
  apply sbind_Ok in H as (custom & i1 & H1 & H).
  apply sbind_Ok in H as (name & i2 & H2 & H).
  apply sbind_Ok in H as (ext & i3 & H3 & H).
  apply sbind_Ok in H as (create & i4 & H4 & H).
  assert (G3 : grows i i3).
  { apply to_save_grows in H1. apply getattr_default_grows in H3.
    assert (G2 : grows i1 i2).
    { destruct (negb (is_namefield_autoincrement cls)).
      - revert H2. apply sbind_grows; [intros ? ?; apply getattr_grows |].
        intros; eapply sret_grows; eassumption.
      - eapply sret_grows; eassumption. }
    eauto using grows_trans. }
  pose proof (grows_lookup _ _ _ _ G3 Hi) as Hi3.
  rewrite (save_takes_create_plain B cls i3 v Hd Hi3) in H4.
  inversion H4; subst. destruct (truthy v); simpl in H.
  - apply sbind_Ok in H as (id & i5 & H5 & H).
    rewrite (getattr_plain B cls "id" i4 v Hd Hi3) in H5.
    inversion H5; subst. inversion H. reflexivity.
  - inversion H. reflexivity.
Qed.

(** [save] is its preparation, one request, and the handling of the
    answer. *)
Lemma CustomObject_save_eq (B : Builtins) (T : Transport) (cls : pyclass)
    (w : world instance) :
  CustomObject_save B T cls w
  = match save_prepare B cls (self w) with
    | (Raise e, i) => (Raise e, mkWorld i (sent w))
    | (Ok (data, target), i) =>
        let req :=
          match target with
          | None => POST (create_path cls) data
          | Some id => PATCH (update_path B cls id) data
          end in
        match respond T req with
        | Raise e => (Raise e, mkWorld i (sent w ++ [req]))
        | Ok response =>
            let '(r, i') :=
              match target with
              | None => save_created B cls response i
              | Some _ => save_updated response i
              end in
            (r, mkWorld i' (sent w ++ [req]))
        end
    end.
Proof.
  unfold CustomObject_save, save_prepare, sbind, on_self, call, sret.
  destruct w as [i log]. simpl.
  destruct (to_save B cls i) as [[custom | e] i1]; simpl; [| reflexivity].
  destruct (negb (is_namefield_autoincrement cls)); simpl.
  - destruct (getattr B cls "name" i1) as [[name | e] i2]; simpl;
      [| reflexivity].
    destruct (getattr_default B cls "external_id" VNone i2)
      as [[ext | e] i3]; simpl; [| reflexivity].
    destruct (save_takes_create B cls i3) as [[[] | e] i4]; simpl;
      [| | reflexivity].
    + destruct (respond T _); reflexivity.
    + destruct (getattr B cls "id" i4) as [[id | e] i5]; simpl;
        [| reflexivity].
      destruct (respond T _); reflexivity.
  - destruct (getattr_default B cls "external_id" VNone i1)
      as [[ext | e] i3]; simpl; [| reflexivity].
    destruct (save_takes_create B cls i3) as [[[] | e] i4]; simpl;
      [| | reflexivity].
    + destruct (respond T _); reflexivity.
    + destruct (getattr B cls "id" i4) as [[id | e] i5]; simpl;
        [| reflexivity].
      destruct (respond T _); reflexivity.
Qed.

Lemma sbind_unchanged {S A C} (c : run S A) (k : A -> run S C) :
  unchanged c -> (forall a, unchanged (k a)) -> unchanged (sbind c k).
Proof.
  intros Hc Hk s0 r s' H. unfold sbind in H.
  destruct (c s0) as [[a | e] s1] eqn:E.
  - apply Hk in H. apply Hc in E. congruence.
  - inversion H; subst. now apply Hc in E.
Qed.

Lemma sret_unchanged {S A} (a : A) : unchanged (@sret S A a).
Proof. intros s0 r s' [= <- <-]. reflexivity. Qed.

Lemma Field_get_unchanged (B : Builtins) (f : Field) :
  is_attachment_field f = false -> unchanged (Field_get B f).
Proof.
  intros Hf i r i'. destruct f; simpl in *; try discriminate;
    intros [= <- <-]; reflexivity.
Qed.

Lemma getattr_unchanged (B : Builtins) (cls : pyclass) (attr : string) :
  attachment_free cls -> unchanged (getattr B cls attr).
Proof.
  intros Hfree i r i'. unfold getattr.
  destruct (dict_get attr (cls_dict cls)) as [f |] eqn:E.
  - apply Field_get_unchanged. apply dict_get_in in E.
    exact (proj1 (List.Forall_forall _ _) Hfree _ E).
  - destruct (i !! attr); intros [= <- <-]; reflexivity.
Qed.

Lemma getattr_default_unchanged (B : Builtins) (cls : pyclass)
    (attr : string) (dflt : value) :
  attachment_free cls -> unchanged (getattr_default B cls attr dflt).
Proof.
  intros Hfree i r i'. unfold getattr_default.
  destruct (getattr B cls attr i) as [r0 i0] eqn:E.
  apply (getattr_unchanged B cls attr Hfree) in E.
  destruct r0 as [v | []]; intros [= <- <-]; exact E.
Qed.

Lemma save_takes_create_unchanged (B : Builtins) (cls : pyclass) :
  attachment_free cls -> unchanged (save_takes_create B cls).
Proof.
  intros Hfree. unfold save_takes_create. apply sbind_unchanged.
  - intros i r i'. unfold hasattr.
    destruct (getattr B cls "id" i) as [r0 i0] eqn:E.
    apply (getattr_unchanged B cls "id" Hfree) in E.
    destruct r0 as [v | []]; intros [= <- <-]; exact E.
  - intros has. destruct (negb has); [apply sret_unchanged |].
    apply sbind_unchanged; [now apply getattr_unchanged |].
    intros; apply sret_unchanged.
Qed.

Lemma read_defaults_unchanged (B : Builtins) (cls : pyclass)
    (keys : list string) :
  attachment_free cls -> unchanged (read_defaults B cls keys).
Proof.
  intros Hfree. induction keys as [| k keys IH]; simpl.
  - apply sret_unchanged.
  - apply sbind_unchanged; [now apply getattr_default_unchanged |].
    intros v. apply sbind_unchanged; [exact IH |].
    intros; apply sret_unchanged.
Qed.

Lemma to_save_loop_unchanged (B : Builtins) (entries : pydict Field) :
  Forall (fun entry => is_attachment_field (snd entry) = false) entries ->
  forall acc, unchanged (to_save_loop B entries acc).
Proof.
  induction 1 as [| [k f] entries Hf Hrest IH]; intros acc; simpl.
  - apply sret_unchanged.
  - apply sbind_unchanged; [| intros; apply IH].
    simpl in Hf. destruct (is_choice_field f).
    + apply sbind_unchanged; [now apply Field_get_unchanged |].
      intros v. destruct (negb (is_none v)); [| apply sret_unchanged].
      apply sbind_unchanged; [intros ? ? ? [= <- <-]; reflexivity |].
      intros; apply sret_unchanged.
    + apply sbind_unchanged; [now apply Field_get_unchanged |].
      intros; apply sret_unchanged.
Qed.

(** Without Attachment fields [to_save] only reads. *)
Lemma to_save_unchanged (B : Builtins) (cls : pyclass) :
  attachment_free cls -> unchanged (to_save B cls).
Proof.
  intros Hfree. unfold to_save.
  apply sbind_unchanged; [now apply read_defaults_unchanged |].
  intros dflt. apply sbind_unchanged; [now apply to_save_loop_unchanged |].
  intros; apply sret_unchanged.
Qed.

Lemma save_prepare_unchanged (B : Builtins) (cls : pyclass) :
  attachment_free cls -> unchanged (save_prepare B cls).
Proof.
  intros Hfree. unfold save_prepare.
  apply sbind_unchanged; [now apply to_save_unchanged |].
  intros custom. apply sbind_unchanged.
  { destruct (negb (is_namefield_autoincrement cls));
      [| apply sret_unchanged].
    apply sbind_unchanged; [now apply getattr_unchanged |].
    intros; apply sret_unchanged. }
  intros name. apply sbind_unchanged; [now apply getattr_default_unchanged |].
  intros ext. apply sbind_unchanged; [now apply save_takes_create_unchanged |].
  intros []; [apply sret_unchanged |].
  apply sbind_unchanged; [now apply getattr_unchanged |].
  intros; apply sret_unchanged.
Qed.

Lemma save_updated_state (response : value) (i i' : instance)
    (r : result value) :
  save_updated response i = (r, i') ->
  i' = i /\ (forall x, r = Ok x -> x = response).
Proof.
  unfold save_updated, sbind, slift, sraise, sret.
  destruct (py_get response "status_code" (VInt 200)) as [st | e]; simpl.
  - destruct (negb (py_eq_int st 200)).
    + destruct (py_get response "details" _); intros [= <- <-];
        split; auto; discriminate.
    + intros [= <- <-]. split; auto. now intros x [= <-].
  - intros [= <- <-]. split; auto. discriminate.
Qed.

Lemma save_created_Ok (B : Builtins) (cls : pyclass) (response x : value)
    (i i' : instance) :
  save_created B cls response i = (Ok x, i') ->
  x = response
  /\ exists id name i1,
       record_item response "id" = Ok id
       /\ setattr B cls "id" id i = (Ok tt, i1)
       /\ record_item response "name" = Ok name
       /\ setattr B cls "name" name i1 = (Ok tt, i').
Proof.
  unfold save_created. intros H.
  apply sbind_Ok in H as (descr & i0 & H0 & H).
  unfold slift in H0. inversion H0; subst i0. clear H0.
  destruct (py_eq_str descr _).
  { apply sbind_Ok in H as (? & ? & _ & H). discriminate. }
  apply sbind_Ok in H as (st & i0 & H0 & H).
  unfold slift in H0. inversion H0; subst i0. clear H0.
  destruct (negb (py_eq_int st 201)).
  { apply sbind_Ok in H as (? & ? & _ & H). discriminate. }
  apply sbind_Ok in H as (id & i0 & Hid & H).
  unfold slift in Hid. inversion Hid; subst i0.
  apply sbind_Ok in H as ([] & i1 & Hset & H).
  apply sbind_Ok in H as (name & i2 & Hname & H).
  unfold slift in Hname. inversion Hname; subst i2.
  apply sbind_Ok in H as ([] & i3 & Hset2 & H).
  inversion H; subst. split; [reflexivity |].
  exists id, name, i1. unfold record_item. auto.
Qed.

Lemma Field_base_set_Ok (B : Builtins) (f : Field) (name : string)
    (v : value) (i i' : instance) :
  Field_base_set B f name v i = Ok i' -> i' = <[name := v]> i.
Proof.
  unfold Field_base_set. destruct (Field_validate B f v) as [[] | e]; simpl;
    congruence.
Qed.





(** C10, as the code has it.  For an entity whose [id] attribute is true,
    [save] (whatever its outcome) leaves every attribute the instance
    stores as it was; the only thing it can add is the file object an
    Attachment field builds when it is read, and for a class without
    Attachment fields the instance is left exactly as it was.  When the [id] attribute is
    false (null, empty or zero) [save] takes the create path, and a call that
    returns has assigned to the entity the [id] and then the [name] of the
    response, and nothing else. *)
Theorem CustomObject_save_frame (B : Builtins) (T : Transport)
    (cls : pyclass) (w w' : world instance) (v : value) (r : result value) :
  dict_get "id" (cls_dict cls) = None ->
  self w !! "id" = Some v ->
  CustomObject_save B T cls w = (r, w') ->
  if truthy v then
    grows (self w) (self w') /\ (attachment_free cls -> self w' = self w)
  else forall response, r = Ok response ->
       exists i0 i1 id name,
         grows (self w) i0
         /\ record_item response "id" = Ok id
         /\ setattr B cls "id" id i0 = (Ok tt, i1)
         /\ record_item response "name" = Ok name
         /\ setattr B cls "name" name i1 = (Ok tt, self w').
Proof.
  intros Hplain Hid Hsave. rewrite CustomObject_save_eq in Hsave.
  destruct (save_prepare B cls (self w)) as [[[data target] | e] i] eqn:Hp.
  - pose proof (save_prepare_grows _ _ _ _ _ Hp) as Hg.
    pose proof (save_prepare_target _ _ _ _ _ _ _ Hplain Hid Hp) as Ht.
    assert (Hsame : attachment_free cls -> i = self w).
    { intros Hfree. exact (save_prepare_unchanged B cls Hfree _ _ _ Hp). }
    cbv zeta in Hsave. destruct (truthy v); subst target.
    + destruct (respond T _) as [response | e].
      * destruct (save_updated response i) as [r0 i0] eqn:Hu.
        apply save_updated_state in Hu as [-> _].
        inversion Hsave; subst. auto.
      * inversion Hsave; subst. auto.
    + intros x ->. destruct (respond T _) as [response | e];
        [| discriminate].
      destruct (save_created B cls response i) as [r0 i0] eqn:Hc.
      inversion Hsave; subst.
      apply save_created_Ok in Hc
        as (-> & id & name & i1 & Hrid & Hs1 & Hrn & Hs2).
      exists i, i1, id, name. auto.
  - inversion Hsave; subst.
    destruct (truthy v); [| discriminate].
    split; [now apply save_prepare_grows in Hp |].
    intros Hfree. exact (save_prepare_unchanged B cls Hfree _ _ _ Hp).
Qed.

(** A persisted [MockCustomObject] is updated and stays as it was. *)
Lemma CustomObject_save_frame_witness :
  let persisted := <["id" := VStr "1"]> custom_object in
  let out := CustomObject_save sample_builtins sample_transport
               MockCustomObject (mkWorld persisted []) in
  persisted !! "id" = Some (VStr "1")
  /\ fst out = Ok created_response
  /\ grows persisted (self (snd out))
  /\ self (snd out) = persisted.
Proof.
  intros persisted out.
  assert (Hid : persisted !! "id" = Some (VStr "1")) by reflexivity.
  assert (Hfree : attachment_free MockCustomObject)
    by (repeat constructor).
  split; [exact Hid |]. split; [vm_compute; reflexivity |].
  destruct (CustomObject_save_frame sample_builtins sample_transport
              MockCustomObject (mkWorld persisted []) (snd out) (VStr "1")
              (fst out) eq_refl Hid (surjective_pairing out))
    as [Hg Hsame].
  split; [exact Hg | exact (Hsame Hfree)].
Defined.

(** C10 fails as stated: an entity whose [id] is zero, which is not null,
    has its [id] and [name] overwritten by [save]. *)
Lemma CustomObject_save_frame_counterexample :
  let before := <["id" := VInt 0]> (<["name" := VStr "Draft"]> custom_object) in
  let after := self (snd (CustomObject_save sample_builtins sample_transport
                            MockCustomObject (mkWorld before []))) in
  before !! "id" = Some (VInt 0)
  /\ VInt 0 <> VNone
  /\ before !! "name" = Some (VStr "Draft")
  /\ after !! "id" = Some (VStr "01J")
  /\ after !! "name" = Some (VStr "Test Object").
Proof.
  repeat split; try discriminate; vm_compute; reflexivity.
Qed.

(** ** Paths *)

Lemma lower_char_upper (c : ascii) : is_upper c = true -> lower_char c <> c.
Proof.
  destruct c as [[] [] [] [] [] [] [] []]; vm_compute; congruence.
Qed.

Lemma lower_neq (s0 : string) : has_upper s0 = true -> lower s0 <> s0.
Proof.
  unfold has_upper. induction s0 as [| c s0 IH]; simpl; [discriminate |].
  intros H [= Hc Hs]. apply orb_true_iff in H as [H | H].
  - now apply (lower_char_upper c).
  - now apply IH.
Qed.

Lemma lower_length (s0 : string) : String.length (lower s0) = String.length s0.
Proof. induction s0 as [| c s0 IH]; simpl; congruence. Qed.

Lemma app_same_length (a b x y : string) :
  String.length a = String.length b -> a +:+ x = b +:+ y -> a = b.
Proof.
  revert b. induction a as [| c a IH]; intros [| d b]; simpl;
    try discriminate; [reflexivity |].
  intros [= Hl] [= -> H]. f_equal. now apply IH.
Qed.

Lemma type_key_paths_differ (name rest rest' : string) :
  has_upper name = true ->
  "/custom_objects/" +:+ name +:+ rest
  <> "/custom_objects/" +:+ lower name +:+ rest'.
Proof.
  intros Hu H. apply (inj (String.app "/custom_objects/")) in H.
  apply app_same_length in H; [| now rewrite lower_length].
  now apply (lower_neq name Hu).
Qed.

Lemma CustomObject_delete_sent (B : Builtins) (T : Transport) (cls : pyclass)
    (w w' : world instance) (r : result value) :
  CustomObject_delete B T cls w = (r, w') ->
  sent w' = sent w
  \/ exists id, fst (getattr B cls "id" (self w)) = Ok id
                /\ sent w' = (sent w ++ [DELETE (delete_path B cls id)])%list.
Proof.
  unfold CustomObject_delete, sbind, on_self, call, slift, sraise, sret.
  destruct w as [i log]. simpl.
  destruct (getattr B cls "id" i) as [[id | e] i0]; simpl.
  - intros H. right. exists id. split; [reflexivity |].
    destruct (respond T _) as [response | e]; simpl in H.
    + destruct (py_get response "status_code" (VInt 204)); simpl in H.
      * destruct (negb (py_eq_int a 204)); simpl in H.
        -- destruct (py_get response "description" _); simpl in H;
             inversion H; reflexivity.
        -- inversion H; reflexivity.
      * inversion H; reflexivity.
    + inversion H; reflexivity.
  - intros [= <- <-]. now left.
Qed.

(** C9.  [delete] addresses
    [/custom_objects/{ClassName}/records/{id}] with the class name as it is
    written; [save] addresses [/custom_objects/{classname}/records] and
    [/custom_objects/{classname}/records/{id}] with the class name in lower
    case.  For a class whose name has an upper-case character the two type
    keys differ, and so does every path of [delete] from every path of
    [save]. *)
Theorem delete_path_not_lowercased (B : Builtins) (T : Transport)
    (cls : pyclass) (w : world instance) :
  (forall r w', CustomObject_delete B T cls w = (r, w') ->
     sent w' = sent w
     \/ exists id,
          sent w'
          = (sent w ++ [DELETE ("/custom_objects/" +:+ cls_name cls
                                  +:+ "/records/" +:+ py_str B id)])%list)
  /\ (forall r w', CustomObject_save B T cls w = (r, w') ->
      sent w' = sent w
      \/ exists data,
           sent w'
           = (sent w ++ [POST ("/custom_objects/" +:+ lower (cls_name cls)
                                 +:+ "/records") data])%list
           \/ exists id,
                sent w'
                = (sent w ++ [PATCH ("/custom_objects/"
                                       +:+ lower (cls_name cls)
                                       +:+ "/records/" +:+ py_str B id)
                                data])%list)
  /\ (has_upper (cls_name cls) = true ->
      delete_type_key cls <> create_type_key cls
      /\ forall id id',
           delete_path B cls id <> update_path B cls id'
           /\ delete_path B cls id <> create_path cls).
Proof.
  split; [| split].
  - intros r w' H. apply CustomObject_delete_sent in H as [H | (id & _ & H)];
      [now left | right; now exists id].
  - intros r w' H. rewrite CustomObject_save_eq in H.
    destruct (save_prepare B cls (self w)) as [[[data [id |]] | e] i].
    + right. exists data. right. exists id. cbv zeta in H.
      destruct (respond T _); [destruct (save_updated _ _) |];
        inversion H; reflexivity.
    + right. exists data. left. cbv zeta in H.
      destruct (respond T _); [destruct (save_created _ _ _ _) |];
        inversion H; reflexivity.
    + left. inversion H. reflexivity.
  - intros Hu. split.
    + unfold delete_type_key, create_type_key. intros H.
      now apply (lower_neq _ Hu).
    + intros id id'. split; now apply type_key_paths_differ.
Qed.

(** [MockCustomObject]: [delete] goes to [/custom_objects/MockCustomObject],
    [save] to [/custom_objects/mockcustomobject]. *)
Lemma delete_path_not_lowercased_witness :
  let persisted := <["id" := VStr "1"]> custom_object in
  has_upper (cls_name MockCustomObject) = true
  /\ sent (snd (CustomObject_delete sample_builtins sample_transport
                  MockCustomObject (mkWorld persisted [])))
     = [DELETE "/custom_objects/MockCustomObject/records/1"]
  /\ (exists data,
        sent (snd (CustomObject_save sample_builtins sample_transport
                     MockCustomObject (mkWorld persisted [])))
        = [PATCH "/custom_objects/mockcustomobject/records/1" data])
  /\ delete_path sample_builtins MockCustomObject (VStr "1")
     <> update_path sample_builtins MockCustomObject (VStr "1").
Proof.
  intros persisted.
  destruct (delete_path_not_lowercased sample_builtins sample_transport
              MockCustomObject (mkWorld persisted [])) as (_ & _ & Hdiff).
  split; [reflexivity |]. split; [vm_compute; reflexivity |].
  split; [eexists; vm_compute; reflexivity |].
  apply (Hdiff eq_refl).
Defined.

(** ** The payload of [to_save] *)

(** A run that ends where it started went through that state only. *)
Lemma sbind_same {A C} (c : run instance A) (k : A -> run instance C)
    (i : instance) (x : C) :
  (forall r0 i0, c i = (r0, i0) -> grows i i0) ->
  (forall a i0 r1 i1, k a i0 = (r1, i1) -> grows i0 i1) ->
  sbind c k i = (Ok x, i) ->
  exists a, c i = (Ok a, i) /\ k a i = (Ok x, i).
Proof.
  intros Hc Hk H. apply sbind_Ok in H as (a & i0 & H1 & H2).
  assert (i0 = i) as ->.
  { apply grows_antisym; [eapply Hc, H1 | eapply Hk, H2]. }
  eauto.
Qed.

Lemma read_defaults_same (B : Builtins) (cls : pyclass) (i : instance)
    (keys : list string) : forall dflt,
  read_defaults B cls keys i = (Ok dflt, i) ->
  map fst dflt = keys
  /\ forall k v, In (k, v) dflt ->
       getattr_default B cls k VNone i = (Ok v, i).
Proof.
  induction keys as [| k0 keys IH]; intros dflt; simpl.
  - intros [= <-]. split; [reflexivity | intros ? ? []].
  - intros H. apply sbind_same in H as (v0 & H0 & H).
    2:{ intros ? ?. apply getattr_default_grows. }
    2:{ intros a i0 r1 i1. apply sbind_grows;
          [intros ? ?; apply read_defaults_grows |].
        intros; eapply sret_grows; eassumption. }
    apply sbind_same in H as (rest & Hrest & H).
    2:{ intros ? ?. apply read_defaults_grows. }
    2:{ intros; eapply sret_grows; eassumption. }
    inversion H; subst. destruct (IH rest Hrest) as [Hkeys Hall].
    split; [simpl; now rewrite Hkeys |].
    intros k v [[= <- <-] | Hin]; [exact H0 | now apply Hall].
Qed.

Lemma to_save_entry_same (B : Builtins) (acc acc1 : pydict value)
    (k0 : string) (f0 : Field) (i : instance) :
  to_save_entry B acc (k0, f0) i = (Ok acc1, i) ->
  exists stored out,
    Field_get B f0 i = (Ok stored, i)
    /\ wire_of f0 stored out
    /\ forall k, dict_get k acc1
                 = if String.eqb k0 k then Some out else dict_get k acc.
Proof.
  unfold to_save_entry, wire_of. destruct (is_choice_field f0).
  - intros H. apply sbind_same in H as (stored & Hget & H).
    2:{ intros ? ?. apply Field_get_grows. }
    2:{ intros a i0 r1 i1. destruct (negb (is_none a)).
        - apply sbind_grows; [intros ? ? [= <- <-]; apply grows_refl |].
          intros; eapply sret_grows; eassumption.
        - apply sret_grows. }
    exists stored. destruct (is_none stored); simpl in H.
    + inversion H; subst. exists VNone. repeat split; auto.
      intros k. apply dict_get_set.
    + apply sbind_Ok in H as (out & i0 & Hrep & H).
      unfold get_to_save in Hrep. discriminate Hrep.
  - intros H. apply sbind_same in H as (stored & Hget & H).
    2:{ intros ? ?. apply Field_get_grows. }
    2:{ intros; eapply sret_grows; eassumption. }
    inversion H; subst. exists stored, stored. repeat split; auto.
    intros k. apply dict_get_set.
Qed.

Lemma to_save_loop_same (B : Builtins) (i : instance)
    (entries : pydict Field) : forall acc cust,
  List.NoDup (map fst entries) ->
  to_save_loop B entries acc i = (Ok cust, i) ->
  forall k,
    match dict_get k entries with
    | None => dict_get k cust = dict_get k acc
    | Some f =>
        exists stored out,
          Field_get B f i = (Ok stored, i)
          /\ wire_of f stored out
          /\ dict_get k cust = Some out
    end.
Proof.
  induction entries as [| [k0 f0] entries IH]; intros acc cust Hnd.
  - intros [= <-] k. reflexivity.
  - cbn [to_save_loop]. intros H k. cbn [dict_get].
    inversion Hnd as [| ? ? Hnotin Hnd']; subst.
    apply sbind_same in H as (acc1 & Hentry & Hloop).
    2:{ intros ? ?. apply to_save_entry_grows. }
    2:{ intros; eapply to_save_loop_grows; eassumption. }
    apply to_save_entry_same in Hentry as (stored & out & Hget & Hw & Hacc).
    specialize (IH acc1 cust Hnd' Hloop k).
    destruct (String.eqb_spec k0 k) as [-> | Hne].
    + rewrite (dict_get_notin k entries Hnotin) in IH.
      exists stored, out. repeat split; auto.
      rewrite IH, Hacc. now rewrite String.eqb_refl.
    + destruct (dict_get k entries); [exact IH |].
      rewrite IH, Hacc. destruct (String.eqb_spec k0 k); congruence.
Qed.

(** C2, as the code has it.  The class has one entry per field name and
    the call builds no attachment object, that is, it leaves the instance
    as it was (as every call does on a class without Attachment fields,
    [to_save_unchanged]).  Then in the payload [to_save] returns:
    - every default key ([id], [name], [created_at], [updated_at],
      [created_by_user_id], [updated_by_user_id], [external_id]) whose
      attribute is not null is present with that attribute: [id] and [name]
      are merged in along with the system metadata;
    - every declared Dropdown or Multiselect field whose stored value is
      null holds null, a default key of the same name being null with it;
    - every declared field of another class holds its stored value, also
      under a default key, which reads the same value;
    - there is no other key.
    What the payload holds for a Dropdown or Multiselect field with a stored
    value is not stated here. *)
Theorem to_save_payload (B : Builtins) (cls : pyclass) (i : instance)
    (d : pydict value) :
  List.NoDup (map fst (cls_dict cls)) ->
  to_save B cls i = (Ok d, i) ->
  (forall k v, In k DEFAULT_FIELDS ->
     fst (getattr_default B cls k VNone i) = Ok v -> v <> VNone ->
     dict_get k d = Some v)
  /\ (forall k f, dict_get k (cls_dict cls) = Some f ->
      exists stored,
        fst (Field_get B f i) = Ok stored
        /\ (is_choice_field f = true -> is_none stored = true ->
            dict_get k d = Some VNone)
        /\ (is_choice_field f = false -> dict_get k d = Some stored))
  /\ (forall k, dict_get k (cls_dict cls) = None ->
      ~ In k DEFAULT_FIELDS
      \/ fst (getattr_default B cls k VNone i) = Ok VNone ->
      dict_get k d = None).
Proof.
  intros Hnd Hrun. unfold to_save in Hrun.
  apply sbind_same in Hrun as (dflt & Hdflt & Hrun).
  2:{ intros ? ?. apply read_defaults_grows. }
  2:{ intros a i0 r1 i1. apply sbind_grows;
        [intros ? ?; apply to_save_loop_grows |].
      intros; eapply sret_grows; eassumption. }
  apply sbind_same in Hrun as (cust & Hcust & Hrun).
  2:{ intros ? ?. apply to_save_loop_grows. }
  2:{ intros; eapply sret_grows; eassumption. }
  inversion Hrun; subst d. clear Hrun.
  apply read_defaults_same in Hdflt as [Hkeys Hread].
  assert (Hnd_dflt : List.NoDup (map fst dflt)).
  { rewrite Hkeys. unfold DEFAULT_FIELDS.
    repeat (constructor; [simpl; intuition discriminate |]). constructor. }
  assert (Hget : forall k,
            dict_get k (dict_merge cust (drop_none dflt))
            = match dict_get k dflt with
              | Some v => if is_none v then dict_get k cust else Some v
              | None => dict_get k cust
              end).
  { intros k. rewrite dict_get_merge by now apply drop_none_NoDup.
    rewrite dict_get_drop_none by exact Hnd_dflt.
    destruct (dict_get k dflt) as [v |]; [| reflexivity].
    destruct (is_none v); reflexivity. }
  assert (Hnull : forall k,
            ~ In k DEFAULT_FIELDS
            \/ fst (getattr_default B cls k VNone i) = Ok VNone ->
            dict_get k (dict_merge cust (drop_none dflt)) = dict_get k cust).
  { intros k Hk. rewrite Hget.
    destruct (dict_get k dflt) as [v |] eqn:E; [| reflexivity].
    apply dict_get_in in E. pose proof (Hread k v E) as Hr.
    destruct Hk as [Hk | Hk].
    - exfalso. apply Hk. rewrite <- Hkeys.
      apply in_map_iff. now exists (k, v).
    - rewrite Hr in Hk. simpl in Hk. injection Hk as ->. reflexivity. }
  pose proof (to_save_loop_same B i (cls_dict cls) [] cust Hnd Hcust) as Hloop.
  split; [| split].
  - intros k v Hin Hv Hnn. rewrite Hget.
    destruct (dict_get k dflt) as [v' |] eqn:E.
    + apply dict_get_in in E. rewrite (Hread k v' E) in Hv. simpl in Hv.
      injection Hv as ->. destruct v; try reflexivity. congruence.
    + exfalso. rewrite <- Hkeys in Hin.
      apply in_map_iff in Hin as ([k1 v1] & Heq & Hin). simpl in Heq.
      subst k1. assert (Hsome : dict_get k dflt = Some v1).
      { clear -Hin Hnd_dflt. induction dflt as [| [k2 v2] dflt IH];
          [destruct Hin |]. simpl in *.
        inversion Hnd_dflt as [| ? ? Hnotin Hnd']; subst.
        destruct Hin as [[= -> ->] | Hin];
          [now rewrite String.eqb_refl |].
        destruct (String.eqb_spec k2 k) as [-> | Hne]; [| auto].
        exfalso. apply Hnotin. apply in_map_iff. now exists (k, v1). }
      congruence.
  - intros k f Hf. specialize (Hloop k). rewrite Hf in Hloop.
    destruct Hloop as (stored & out & Hfg & Hw & Hout).
    exists stored. rewrite Hfg. split; [reflexivity |].
    unfold wire_of in Hw. split.
    + intros Hc Hs. rewrite Hc in Hw. specialize (Hw Hs). subst out.
      rewrite Hget, Hout.
      destruct (dict_get k dflt) as [v |] eqn:E; [| reflexivity].
      apply dict_get_in in E. pose proof (Hread k v E) as Hr.
      unfold getattr_default, getattr in Hr. rewrite Hf, Hfg in Hr.
      injection Hr as <-. now rewrite Hs.
    + intros Hc. rewrite Hc in Hw. subst out.
      rewrite Hget, Hout.
      destruct (dict_get k dflt) as [v |] eqn:E; [| reflexivity].
      apply dict_get_in in E. pose proof (Hread k v E) as Hr.
      unfold getattr_default, getattr in Hr. rewrite Hf, Hfg in Hr.
      injection Hr as <-.
      destruct stored; reflexivity.
  - intros k Hf Hk. specialize (Hloop k). rewrite Hf in Hloop.
    now rewrite (Hnull k Hk).
Qed.

(** The payload of a [Ticket] whose choice fields are null. *)
Lemma to_save_payload_witness :
  List.NoDup (map fst (cls_dict Ticket))
  /\ to_save sample_builtins Ticket draft_ticket
     = (Ok draft_ticket_payload, draft_ticket)
  /\ dict_get "id" draft_ticket_payload = Some (VStr "7")
  /\ dict_get "status" draft_ticket_payload = Some VNone
  /\ dict_get "tags" draft_ticket_payload = Some VNone
  /\ dict_get "codigo" draft_ticket_payload = Some (VStr "1234")
  /\ dict_get "name" draft_ticket_payload = None.
Proof.
  assert (Hnd : List.NoDup (map fst (cls_dict Ticket))).
  { repeat (constructor; [simpl; intuition discriminate |]). constructor. }
  assert (Hrun : to_save sample_builtins Ticket draft_ticket
                 = (Ok draft_ticket_payload, draft_ticket))
    by (vm_compute; reflexivity).
  destruct (to_save_payload sample_builtins Ticket draft_ticket
              draft_ticket_payload Hnd Hrun) as (Hdefault & Hfield & Hnone).
  split; [exact Hnd |]. split; [exact Hrun |].
  split; [apply Hdefault; [simpl; auto | reflexivity | discriminate] |].
  split.
  { destruct (Hfield "status" _ eq_refl) as (stored & Hst & Hnull & _).
    vm_compute in Hst. injection Hst as <-. apply Hnull; reflexivity. }
  split.
  { destruct (Hfield "tags" _ eq_refl) as (stored & Hst & Hnull & _).
    vm_compute in Hst. injection Hst as <-. apply Hnull; reflexivity. }
  split.
  { destruct (Hfield "codigo" _ eq_refl) as (stored & Hst & _ & Hraw).
    vm_compute in Hst. injection Hst as <-. apply Hraw; reflexivity. }
  apply Hnone; [reflexivity | right; reflexivity].
Defined.

(** C2 fails as stated: the payload of an entity that has an id holds the
    key [id], which is neither a declared field of the class nor one of the
    system metadata fields. *)
Lemma to_save_payload_counterexample :
  exists d,
    to_save sample_builtins MockCustomObject stored_custom_object
    = (Ok d, stored_custom_object)
    /\ dict_get "id" d = Some (VStr "01J")
    /\ dict_get "id" (cls_dict MockCustomObject) = None
    /\ ~ In "id" ["created_at"; "updated_at"; "created_by_user_id";
                  "updated_by_user_id"; "external_id"].
Proof.
  eexists. split; [vm_compute; reflexivity |].
  split; [reflexivity |]. split; [reflexivity |].
  simpl. intuition discriminate.
Qed.

(** ** The model against the repository's tests *)

(** [tests/test_base.py], [custom_object] fixture and
    [test_custom_object_creation]. *)
Example test_custom_object_creation :
  CustomObject_init sample_builtins MockCustomObject zendesk_client
    [("name", VStr "Test Object"); ("codigo", VStr "1234");
     ("ativo", VBool true)]
  = Ok (<["client" := zendesk_client]> custom_object).
Proof. vm_compute. reflexivity. Qed.

(** [tests/test_base.py], [test_custom_object_to_dict]. *)
Example test_custom_object_to_dict :
  to_dict sample_builtins MockCustomObject custom_object
  = (Ok [("name", VStr "Test Object"); ("codigo", VStr "1234");
         ("ativo", VBool true)],
     custom_object).
Proof. vm_compute. reflexivity. Qed.

(** [tests/test_datetime_field.py], [test_datetime_field_get]: the wire
    fields of the fixture read as 2023-07-15T10:30:45.187652+00:00. *)
Example test_datetime_field_get :
  Field_get sample_builtins (DateTimeField "created_at")
    (<["created_at_time" := VStr "10:30:45.187652+00:00"]>
       (<["created_at" := VStr "2023-07-15"]> ∅))
  = (Ok (VDatetime (mkDatetime 2023 7 15 10 30 45 187652 (Some 0))),
     <["created_at_time" := VStr "10:30:45.187652+00:00"]>
       (<["created_at" := VStr "2023-07-15"]> ∅)).
Proof. vm_compute. reflexivity. Qed.

(** A Date field keeps the date of a timestamp. *)
Example DateField_truncates :
  Field_set sample_builtins (DateField "due") (VStr "2023-07-15T10:30:45Z") ∅
  = Ok (<["due" := VStr "2023-07-15"]> ∅).
Proof. vm_compute. reflexivity. Qed.

(** * Further properties of the code *)

(** ** Field assignment *)

(** X1.  A successful assignment to a field that stores under its own name
    (every class but Attachment and DateTime) writes the stored form of the
    value (the date before ["T"] for a Date field, [float(value)] for a Decimal
    field, the value itself otherwise) in that one slot, leaves every other
    attribute of the instance alone, and the field reads it back. *)
Theorem Field_set_get (B : Builtins) (f : Field) (name : string) (v : value)
    (inst inst' : instance) :
  field_name_of f = Some name ->
  data_type f <> TDatetimeT ->
  Field_set B f v inst = Ok inst' ->
  exists u,
    stored_form B f v = Ok u
    /\ inst' = <[name := u]> inst
    /\ Field_get B f inst' = (Ok u, inst')
    /\ forall k, k <> name -> inst' !! k = inst !! k.
Proof.
  intros Hname Hdt Hset.
  assert (Hgen : forall u, stored_form B f v = Ok u ->
            Field_base_set B f name u inst = Ok inst' ->
            exists u0, stored_form B f v = Ok u0
              /\ inst' = <[name := u0]> inst
              /\ Field_get B f inst' = (Ok u0, inst')
              /\ forall k, k <> name -> inst' !! k = inst !! k).
  { intros u Hu Hb. apply Field_base_set_Ok in Hb. subst inst'.
    exists u. split; [exact Hu |]. split; [reflexivity |]. split.
    - destruct f; simpl in Hname; try discriminate;
        try (exfalso; apply Hdt; reflexivity);
        try (injection Hname as <-); simpl;
        unfold Field_base_get; now rewrite lookup_insert_eq.
    - intros k Hk. now rewrite lookup_insert_ne. }
  destruct f; simpl in Hname; try discriminate;
    try (exfalso; apply Hdt; reflexivity);
    try (injection Hname as <-); cbn [Field_set field_name_of] in Hset;
    try (apply (Hgen v); [reflexivity | exact Hset]).
  - apply (Hgen (match v with VStr s0 => VStr (before_T s0) | _ => v end));
      [reflexivity | exact Hset].
  - cbn [stored_form] in Hgen |- *.
    destruct (if negb (is_none v) then py_float B v else Ok VNone)
      as [u | e]; simpl in Hset; [| discriminate].
    now apply (Hgen u).
Qed.

Lemma Field_set_get_witness :
  Field_set sample_builtins (DateField "due") (VStr "2023-07-15T10:30:45Z") ∅
  = Ok (<["due" := VStr "2023-07-15"]> ∅)
  /\ Field_get sample_builtins (DateField "due")
       (<["due" := VStr "2023-07-15"]> ∅)
     = (Ok (VStr "2023-07-15"), <["due" := VStr "2023-07-15"]> ∅).
Proof.
  assert (Hset : Field_set sample_builtins (DateField "due")
                   (VStr "2023-07-15T10:30:45Z") ∅
                 = Ok (<["due" := VStr "2023-07-15"]> ∅))
    by (vm_compute; reflexivity).
  split; [exact Hset |].
  destruct (Field_set_get sample_builtins (DateField "due") "due"
              (VStr "2023-07-15T10:30:45Z") ∅ _ eq_refl
              ltac:(discriminate) Hset)
    as (u & Hu & _ & Hget & _).
  vm_compute in Hu. injection Hu as <-. exact Hget.
Defined.

(** X2.  For every field class that checks the type of the value as it is
    assigned (all but Decimal, which converts first, Attachment and
    DateTime), a non-null value that is not an instance of the field's
    [data_type] raises [FieldTypeError] with the field's name and that type.
    For the classes that keep [Field.validate] (Name, Text, Textarea,
    Checkbox, Integer, Lookup) every instance of [data_type] is accepted;
    as [bool] is a subclass of [int], an Integer field accepts [True] and
    [False]. *)
Theorem Field_set_type_error (B : Builtins) (f : Field) (name : string)
    (v : value) (inst : instance) :
  field_name_of f = Some name ->
  type_checked f = true ->
  is_none v = false ->
  (isinstance v (data_type f) = false ->
   Field_set B f v inst = Raise (FieldTypeError name (data_type f)))
  /\ (keeps_base_validate f = true -> isinstance v (data_type f) = true ->
      Field_set B f v inst = Ok (<[name := v]> inst))
  /\ (forall n b, f = IntegerField n ->
      Field_set B f (VBool b) inst = Ok (<[n := VBool b]> inst)).
Proof.
  intros Hname Hchk Hnone. split; [| split].
  - intros Hinst.
    destruct f; simpl in Hname, Hchk; try discriminate;
      try (injection Hname as <-); simpl in Hinst |- *;
      unfold Field_base_set; simpl; rewrite ?Hnone, ?Hinst; simpl;
      try reflexivity;
      destruct v; simpl in *; try discriminate; reflexivity.
  - intros Hbase Hinst.
    destruct f; simpl in Hname, Hbase; try discriminate;
      try (injection Hname as <-); simpl in Hinst |- *;
      unfold Field_base_set; simpl; rewrite Hnone, Hinst; reflexivity.
  - intros n b ->. reflexivity.
Qed.

Lemma Field_set_type_error_witness :
  Field_set sample_builtins (CheckboxField "ativo") (VInt 1) ∅
  = Raise (FieldTypeError "ativo" TBool)
  /\ Field_set sample_builtins (IntegerField "ticket_id") (VBool true) ∅
     = Ok (<["ticket_id" := VBool true]> ∅)
  /\ Field_set sample_builtins (DateField "due") (VInt 20230715) ∅
     = Raise (FieldTypeError "due" TStr).
Proof.
  split; [| split].
  - apply (Field_set_type_error sample_builtins (CheckboxField "ativo")
             "ativo" (VInt 1) ∅ eq_refl eq_refl eq_refl). reflexivity.
  - apply (Field_set_type_error sample_builtins (IntegerField "ticket_id")
             "ticket_id" (VBool true) ∅ eq_refl eq_refl eq_refl);
      reflexivity.
  - apply (Field_set_type_error sample_builtins (DateField "due")
             "due" (VInt 20230715) ∅ eq_refl eq_refl eq_refl). reflexivity.
Defined.

(** X3.  [LookupField.__init__] takes [type(related_object)] as the
    field's [data_type].  Declared with a class, the field has [data_type]
    [type]: it refuses every instance, those of the related class included,
    and accepts any class object.  Declared with a string key it accepts
    strings only, and declared with an instance, the instances of that
    instance's class. *)
Theorem LookupField_data_type (B : Builtins) (name cls_n : string)
    (is_custom : bool) (inst : instance) :
  (forall c bases attrs,
     Field_set B (LookupField name (VClass cls_n) is_custom)
       (VObject c bases attrs) inst
     = Raise (FieldTypeError name TType))
  /\ (forall c,
      Field_set B (LookupField name (VClass cls_n) is_custom) (VClass c) inst
      = Ok (<[name := VClass c]> inst))
  /\ (forall key s0,
      Field_set B (LookupField name (VStr key) is_custom) (VStr s0) inst
      = Ok (<[name := VStr s0]> inst))
  /\ (forall key c bases attrs,
      Field_set B (LookupField name (VStr key) is_custom)
        (VObject c bases attrs) inst
      = Raise (FieldTypeError name TStr))
  /\ (forall bases attrs bases' attrs',
      Field_set B
        (LookupField name (VObject cls_n bases attrs) is_custom)
        (VObject cls_n bases' attrs') inst
      = Ok (<[name := VObject cls_n bases' attrs']> inst)).
Proof.
  repeat split; intros; simpl; unfold Field_base_set; simpl;
    rewrite ?String.eqb_refl; reflexivity.
Qed.

(** ** Date and Regexp fields *)

Lemma before_T_no_T (s0 : string) : has_T (before_T s0) = false.
Proof.
  unfold has_T. induction s0 as [| c s0 IH]; simpl; [reflexivity |].
  destruct (Ascii.eqb c "T") eqn:E; simpl; [reflexivity |].
  now rewrite E.
Qed.

Lemma before_T_id (s0 : string) : has_T s0 = false -> before_T s0 = s0.
Proof.
  unfold has_T. induction s0 as [| c s0 IH]; simpl; [reflexivity |].
  intros H. apply orb_false_iff in H as [Hc Hs]. rewrite Hc.
  now rewrite IH.
Qed.

Lemma before_T_app (d rest : string) :
  has_T d = false -> before_T (d +:+ "T" +:+ rest) = d.
Proof.
  unfold has_T. induction d as [| c d IH]; simpl; [reflexivity |].
  intros H. apply orb_false_iff in H as [Hc Hs]. rewrite Hc.
  now rewrite IH.
Qed.

Lemma is_digit_not_T (c : ascii) : is_digit c = true -> Ascii.eqb c "T" = false.
Proof.
  destruct c as [[] [] [] [] [] [] [] []]; vm_compute; congruence.
Qed.

Lemma is_dash_not_T (c : ascii) : Ascii.eqb c "-" = true -> Ascii.eqb c "T" = false.
Proof. intros H. apply Ascii.eqb_eq in H. subst. reflexivity. Qed.

Lemma is_newline_not_T (c : ascii) : is_newline c = true -> Ascii.eqb c "T" = false.
Proof.
  destruct c as [[] [] [] [] [] [] [] []]; vm_compute; congruence.
Qed.

Lemma valid_date_no_T (s0 : string) :
  DateField__is_valid_date_format s0 = true -> has_T s0 = false.
Proof.
  unfold DateField__is_valid_date_format, has_T.
  destruct (list_ascii_of_string s0)
    as [| y1 [| y2 [| y3 [| y4 [| d1 [| m1 [| m2 [| d2 [| a1 [| a2 rest]]]]]]]]]];
    try discriminate.
  cbn [forallb]. rewrite !andb_true_iff.
  intros [[[(H1 & H2 & H3 & H4 & H5 & H6 & H7 & H8 & _) Hd1] Hd2] Hrest].
  cbn [existsb].
  rewrite (is_digit_not_T _ H1), (is_digit_not_T _ H2), (is_digit_not_T _ H3),
    (is_digit_not_T _ H4), (is_digit_not_T _ H5), (is_digit_not_T _ H6),
    (is_digit_not_T _ H7), (is_digit_not_T _ H8),
    (is_dash_not_T _ Hd1), (is_dash_not_T _ Hd2). simpl.
  destruct rest as [| c [| ? ?]]; try discriminate; [reflexivity |].
  simpl. now rewrite (is_newline_not_T _ Hrest).
Qed.

Lemma is_digit_digit_char (d : Z) : 0 <= d < 10 -> is_digit (digit_char d) = true.
Proof.
  intros H.
  assert (E : d = 0 \/ d = 1 \/ d = 2 \/ d = 3 \/ d = 4 \/ d = 5 \/ d = 6
              \/ d = 7 \/ d = 8 \/ d = 9) by lia.
  repeat (destruct E as [-> | E]; [reflexivity |]). subst. reflexivity.
Qed.

Lemma valid_date_of_digits (y m d : Z) :
  DateField__is_valid_date_format
    (string_of_list_ascii (pad 4 y ++ "-"%char :: pad 2 m
                             ++ "-"%char :: pad 2 d))
  = true.
Proof.
  unfold DateField__is_valid_date_format.
  rewrite list_ascii_of_string_of_list_ascii. cbn [pad app forallb].
  rewrite !is_digit_digit_char by (apply Z.mod_pos_bound; lia).
  reflexivity.
Qed.

Lemma DateField_set_string (B : Builtins) (name s0 : string) (inst : instance) :
  Field_set B (DateField name) (VStr s0) inst
  = if DateField__is_valid_date_format (before_T s0)
    then Ok (<[name := VStr (before_T s0)]> inst)
    else Raise (InvalidDateFormatError name).
Proof.
  simpl. unfold Field_base_set. simpl.
  destruct (DateField__is_valid_date_format (before_T s0)); reflexivity.
Qed.

(** X4.  A Date field stores [None] or a text of the shape [dddd-dd-dd]
    (which may end in a newline, as [$] allows) without ["T"]: whatever follows
    the first ["T"] of the assigned text is dropped before the check, so a
    timestamp whose date part has the shape is stored as that date, and a
    text whose part before ["T"] has not raises [InvalidDateFormatError].  The
    check is on the shape only: any four, two and two digits pass, month 13
    or day 99 included. *)
Theorem DateField_assignment (B : Builtins) (name : string) (inst : instance) :
  (forall v inst', Field_set B (DateField name) v inst = Ok inst' ->
     inst' !! name = Some VNone
     \/ exists d, inst' !! name = Some (VStr d)
                  /\ DateField__is_valid_date_format d = true
                  /\ has_T d = false)
  /\ (forall d rest, DateField__is_valid_date_format d = true ->
      Field_set B (DateField name) (VStr (d +:+ "T" +:+ rest)) inst
      = Ok (<[name := VStr d]> inst))
  /\ (forall s0, DateField__is_valid_date_format (before_T s0) = false ->
      Field_set B (DateField name) (VStr s0) inst
      = Raise (InvalidDateFormatError name))
  /\ (forall y m d,
      Field_set B (DateField name)
        (VStr (string_of_list_ascii (pad 4 y ++ "-"%char :: pad 2 m
                                       ++ "-"%char :: pad 2 d))) inst
      = Ok (<[name := VStr (string_of_list_ascii
                              (pad 4 y ++ "-"%char :: pad 2 m
                                 ++ "-"%char :: pad 2 d))]> inst)).
Proof.
  split; [| split; [| split]].
  - intros v inst' H. destruct v;
      try (simpl in H; unfold Field_base_set in H; simpl in H; discriminate).
    + simpl in H. unfold Field_base_set in H. simpl in H.
      injection H as <-. left. apply lookup_insert_eq.
    + rewrite DateField_set_string in H.
      destruct (DateField__is_valid_date_format (before_T s)) eqn:E;
        [| discriminate].
      injection H as <-. right. exists (before_T s).
      split; [apply lookup_insert_eq |]. split; [exact E |].
      apply before_T_no_T.
  - intros d rest Hd. rewrite DateField_set_string.
    rewrite (before_T_app d rest (valid_date_no_T d Hd)). now rewrite Hd.
  - intros s0 H. rewrite DateField_set_string. now rewrite H.
  - intros y m d. rewrite DateField_set_string.
    pose proof (valid_date_of_digits y m d) as Hv.
    rewrite (before_T_id _ (valid_date_no_T _ Hv)). now rewrite Hv.
Qed.

Lemma DateField_assignment_witness :
  Field_set sample_builtins (DateField "due") (VStr "2023-07-15T10:30:45Z") ∅
  = Ok (<["due" := VStr "2023-07-15"]> ∅)
  /\ Field_set sample_builtins (DateField "due") (VStr "15/07/2023") ∅
     = Raise (InvalidDateFormatError "due")
  /\ Field_set sample_builtins (DateField "due") (VStr "2023-13-99") ∅
     = Ok (<["due" := VStr "2023-13-99"]> ∅).
Proof.
  destruct (DateField_assignment sample_builtins "due" ∅)
    as (_ & Hts & Hbad & Hshape).
  split; [| split].
  - apply (Hts "2023-07-15" "10:30:45Z"). reflexivity.
  - apply Hbad. reflexivity.
  - exact (Hshape 2023 13 99).
Defined.

(** X5.  [RegexpField.__init__] returns the field exactly when [re.compile]
    accepts the pattern.  Assigning a string that [re.match] does not match
    raises [InvalidRegexError] carrying the value, and after every successful
    assignment the field holds [None] or a string the pattern matches. *)
Theorem RegexpField_assignment (B : Builtins) (name pattern : string)
    (inst : instance) :
  (re_compiles B pattern = true <->
   RegexpField_init B name pattern = Ok (RegexpField name pattern))
  /\ (forall s0, re_match B pattern s0 = false ->
      Field_set B (RegexpField name pattern) (VStr s0) inst
      = Raise (InvalidRegexError name (VStr s0)))
  /\ (forall v inst',
      Field_set B (RegexpField name pattern) v inst = Ok inst' ->
      inst' = <[name := v]> inst
      /\ (v = VNone \/ exists s0, v = VStr s0 /\ re_match B pattern s0 = true)).
Proof.
  split; [| split].
  - unfold RegexpField_init, RegexpField__check_pattern.
    destruct (re_compiles B pattern); simpl; split; congruence.
  - intros s0 H. simpl. unfold Field_base_set. simpl. now rewrite H.
  - intros v inst' H. simpl in H. unfold Field_base_set in H.
    destruct v; simpl in H; try discriminate.
    + injection H as <-. auto.
    + destruct (re_match B pattern s) eqn:E; simpl in H; [| discriminate].
      injection H as <-. split; [reflexivity |]. right. eauto.
Qed.

Lemma RegexpField_assignment_witness :
  RegexpField_init sample_builtins "code" "AB-1"
  = Ok (RegexpField "code" "AB-1")
  /\ Field_set sample_builtins (RegexpField "code" "AB-1") (VStr "zz") ∅
     = Raise (InvalidRegexError "code" (VStr "zz")).
Proof.
  destruct (RegexpField_assignment sample_builtins "code" "AB-1" ∅)
    as (Hinit & Hbad & _).
  split; [apply Hinit; reflexivity | apply Hbad; reflexivity].
Defined.

(** ** Choice keys and their representation *)

Lemma lower_char_not_upper (c : ascii) : is_upper (lower_char c) = false.
Proof.
  destruct c as [[] [] [] [] [] [] [] []]; vm_compute; reflexivity.
Qed.

Lemma replace_space_lower_clean (s0 : string) :
  has_upper (replace_space (lower s0)) = false
  /\ has_space (replace_space (lower s0)) = false.
Proof.
  unfold has_upper, has_space. induction s0 as [| c s0 [IH1 IH2]]; simpl;
    [auto |].
  rewrite IH1, IH2, !orb_false_r.
  pose proof (lower_char_not_upper c) as Hc.
  destruct (Ascii.eqb (lower_char c) " ") eqn:E.
  - split; reflexivity.
  - split; [exact Hc | exact E].
Qed.

(** X6.  The keys a Dropdown or Multiselect field derives from plain
    choices hold no space and no upper-case letter.  So with plain choices
    (at least one) a string with a space or an upper-case letter is never an
    accepted value, the text of a choice as it was declared included, while
    the normalised form of every declared choice is accepted. *)
Theorem plain_choices_normalised (B : Builtins) (name : string)
    (l : list string) (inst : instance) :
  (forall key, In key (possible_keys B (PlainChoices l)) ->
     has_upper key = false /\ has_space key = false)
  /\ (forall s0, l <> [] -> has_upper s0 || has_space s0 = true ->
      Field_set B (DropdownField name (PlainChoices l)) (VStr s0) inst
      = Raise (InvalidChoiceError name (VStr s0)))
  /\ (forall choice, In choice l ->
      Field_set B (DropdownField name (PlainChoices l))
        (VStr (normalize_choice B choice)) inst
      = Ok (<[name := VStr (normalize_choice B choice)]> inst)).
Proof.
  assert (Hkeys : forall key, In key (possible_keys B (PlainChoices l)) ->
            has_upper key = false /\ has_space key = false).
  { intros key Hin. simpl in Hin. apply in_map_iff in Hin as (c & <- & _).
    apply replace_space_lower_clean. }
  split; [exact Hkeys |]. split.
  - intros s0 Hl Hs.
    assert (Hk : possible_keys B (PlainChoices l) <> []).
    { simpl. destruct l; [congruence | discriminate]. }
    rewrite Dropdown_set_string by exact Hk.
    destruct (py_in_strs _ _) eqn:E; [| reflexivity].
    apply py_in_strs_spec in E as (t & [= <-] & Hin).
    destruct (Hkeys _ Hin) as [H1 H2]. rewrite H1, H2 in Hs. discriminate.
  - intros choice Hin.
    assert (Hk : possible_keys B (PlainChoices l) <> []).
    { simpl. destruct l; [destruct Hin | discriminate]. }
    rewrite Dropdown_set_string by exact Hk.
    assert (E : py_in_strs (VStr (normalize_choice B choice))
                  (possible_keys B (PlainChoices l)) = true).
    { apply py_in_strs_spec. eexists. split; [reflexivity |].
      simpl. now apply in_map. }
    now rewrite E.
Qed.

Lemma plain_choices_normalised_witness :
  let f := DropdownField "status" (PlainChoices ["Open"; "In Progress"]) in
  Field_set sample_builtins f (VStr "In Progress") ∅
  = Raise (InvalidChoiceError "status" (VStr "In Progress"))
  /\ Field_set sample_builtins f (VStr "in_progress") ∅
     = Ok (<["status" := VStr "in_progress"]> ∅).
Proof.
  intros f.
  destruct (plain_choices_normalised sample_builtins "status"
              ["Open"; "In Progress"] ∅) as (_ & Hbad & Hok).
  split.
  - apply Hbad; [discriminate | reflexivity].
  - apply (Hok "In Progress"). simpl. auto.
Defined.

Lemma dict_get_merge_notin {A} (k : string) (e : pydict A) : forall d,
  ~ In k (map fst e) -> dict_get k (dict_merge d e) = dict_get k d.
Proof.
  unfold dict_merge. induction e as [| [k0 v0] e IH]; intros d Hn; simpl;
    [reflexivity |].
  simpl in Hn. rewrite IH by tauto. rewrite dict_get_set.
  destruct (String.eqb_spec k0 k); [tauto | reflexivity].
Qed.

Lemma dict_get_merge_in {A} (k : string) (e : pydict A) : forall d,
  In k (map fst e) ->
  exists v, dict_get k (dict_merge d e) = Some v /\ In (k, v) e.
Proof.
  induction e as [| [k0 v0] e IH]; intros d Hin; [destruct Hin |].
  change (dict_merge d ((k0, v0) :: e)) with (dict_merge (dict_set k0 v0 d) e).
  destruct (in_dec string_dec k (map fst e)) as [Hlater | Hnot].
  - destruct (IH (dict_set k0 v0 d) Hlater) as (v & Hv & Hi).
    exists v. split; [exact Hv | now right].
  - destruct Hin as [Heq | Hin]; [| contradiction]. simpl in Heq. subst k0.
    exists v0. split; [| now left].
    rewrite dict_get_merge_notin by exact Hnot.
    rewrite dict_get_set. now rewrite String.eqb_refl.
Qed.





(** ** Attachment fields *)

Ltac by_length :=
  let H := fresh in
  intros H; apply (f_equal String.length) in H;
  unfold model_file_attribute_name, id_field_name, url_field_name,
    filename_field_name, size_field_name in H;
  rewrite !string_length_app in H; simpl in H; lia.

Lemma attachment_keys_distinct (name : string) :
  model_file_attribute_name name <> id_field_name name
  /\ model_file_attribute_name name <> url_field_name name
  /\ model_file_attribute_name name <> filename_field_name name
  /\ model_file_attribute_name name <> size_field_name name
  /\ id_field_name name <> url_field_name name
  /\ id_field_name name <> filename_field_name name
  /\ id_field_name name <> size_field_name name
  /\ url_field_name name <> filename_field_name name
  /\ url_field_name name <> size_field_name name
  /\ filename_field_name name <> size_field_name name.
Proof. repeat split; by_length. Qed.

(** X8.  Assigning an [AttachmentFile] to an Attachment field that was
    attached to its class under [name] fans the file out into
    [name_id], [name_url], [name_filename] and [name_size], keeps the object
    itself, touches no other attribute, and the field reads the same object
    back without building another.  Any other non-null value raises
    [ValueError] and, on a field that [contribute_to_class] never reached,
    assigning a file raises [AttributeError]. *)
Theorem AttachmentField_set_get (B : Builtins) (field_name ticket name : string)
    (a : AttachmentFile) (inst : instance) :
  (exists inst',
     Field_set B (AttachmentField field_name ticket (Some name))
       (VAttachment a) inst = Ok inst'
     /\ Field_get B (AttachmentField field_name ticket (Some name)) inst'
        = (Ok (VAttachment a), inst')
     /\ inst' !! id_field_name name = Some (_attachment_id a)
     /\ inst' !! url_field_name name = Some (_attachment_url a)
     /\ inst' !! filename_field_name name = Some (_attachment_filename a)
     /\ inst' !! size_field_name name = Some (_attachment_size a)
     /\ forall k,
          k <> model_file_attribute_name name -> k <> id_field_name name ->
          k <> url_field_name name -> k <> filename_field_name name ->
          k <> size_field_name name -> inst' !! k = inst !! k)
  /\ (forall v, is_none v = false -> isinstance v TAttachmentFile = false ->
      Field_set B (AttachmentField field_name ticket (Some name)) v inst
      = Raise (ValueError
                 "AttachmentField only accepts AttachmentFile instances."))
  /\ Field_set B (AttachmentField field_name ticket None) (VAttachment a) inst
     = Raise (AttributeError "model_file_attribute_name").
Proof.
  destruct (attachment_keys_distinct name)
    as (H1 & H2 & H3 & H4 & H5 & H6 & H7 & H8 & H9 & H10).
  split; [| split].
  - eexists. split; [reflexivity |].
    repeat split.
    + cbn [Field_get]. unfold AttachmentField_get.
      rewrite !lookup_insert_ne by congruence.
      now rewrite lookup_insert_eq.
    + rewrite !lookup_insert_ne by congruence. apply lookup_insert_eq.
    + rewrite !lookup_insert_ne by congruence. apply lookup_insert_eq.
    + rewrite !lookup_insert_ne by congruence. apply lookup_insert_eq.
    + apply lookup_insert_eq.
    + intros k K1 K2 K3 K4 K5. now rewrite !lookup_insert_ne by congruence.
  - intros v Hn Ht. simpl. unfold AttachmentField_set. rewrite Hn. simpl.
    destruct v; simpl in Ht; try discriminate; reflexivity.
  - reflexivity.
Qed.

Lemma AttachmentField_set_get_witness :
  exists inst',
    Field_set sample_builtins photo_field (VAttachment saved_file) ∅ = Ok inst'
    /\ Field_get sample_builtins photo_field inst'
       = (Ok (VAttachment saved_file), inst')
    /\ inst' !! "photo_id" = Some (VInt 77)
    /\ Field_set sample_builtins photo_field (VStr "a.txt") ∅
       = Raise (ValueError
                  "AttachmentField only accepts AttachmentFile instances.").
Proof.
  destruct (AttachmentField_set_get sample_builtins "photo" "ticket_photo"
              "photo" saved_file ∅)
    as ((inst' & Hset & Hget & Hid & _) & Hbad & _).
  exists inst'. split; [exact Hset |]. split; [exact Hget |].
  split; [exact Hid |]. apply Hbad; reflexivity.
Defined.

(** X9.  An Attachment field that holds no file object yet builds one on
    first read from the four slots, provided the id slot is true, and keeps
    it: the second read returns the same object and changes nothing.  The
    id, url and size of the object built are those of the slots ([None] for
    an absent slot) and its file name is the one of the slot, or a fresh
    uuid when that is null, empty or absent.  The object is marked saved,
    with no content and no upload token, so [save] on it uploads nothing.
    With an id slot that is null, empty or absent the field reads [None]
    and builds nothing. *)
Theorem AttachmentField_lazy_get (B : Builtins) (field_name ticket name : string)
    (inst : instance) :
  inst !! model_file_attribute_name name = None ->
  let f := AttachmentField field_name ticket (Some name) in
  let attach_id := default VNone (inst !! id_field_name name) in
  (truthy attach_id = false -> Field_get B f inst = (Ok VNone, inst))
  /\ (truthy attach_id = true ->
      exists a,
        Field_get B f inst
        = (Ok (VAttachment a),
           <[model_file_attribute_name name := VAttachment a]> inst)
        /\ Field_get B f
             (<[model_file_attribute_name name := VAttachment a]> inst)
           = (Ok (VAttachment a),
              <[model_file_attribute_name name := VAttachment a]> inst)
        /\ _attachment_id a = attach_id
        /\ _attachment_url a = default VNone (inst !! url_field_name name)
        /\ _attachment_size a = default VNone (inst !! size_field_name name)
        /\ _attachment_filename a
           = py_or (default VNone (inst !! filename_field_name name))
               (VStr (uuid4 B))
        /\ saved a = true /\ _content a = VNone /\ token a = None
        /\ forall T log,
             AttachmentFile_save T (mkWorld a log) = (Ok tt, mkWorld a log)).
Proof.
  intros Hcache f attach_id. subst f attach_id. split.
  - intros Hid. cbn [Field_get]. unfold AttachmentField_get.
    rewrite Hcache, Hid. reflexivity.
  - intros Hid. eexists. split; [| split].
    + cbn [Field_get]. unfold AttachmentField_get.
      rewrite Hcache, Hid. reflexivity.
    + cbn [Field_get]. unfold AttachmentField_get.
      now rewrite lookup_insert_eq.
    + repeat split; simpl.
      * exact Hid.
      * intros T log. apply AttachmentFile_save_saved. simpl. exact Hid.
Qed.

Lemma AttachmentField_lazy_get_witness :
  let inst : instance :=
    <["photo_id" := VInt 77]> (<["photo_filename" := VStr "a.txt"]> ∅) in
  exists a,
    fst (Field_get sample_builtins photo_field inst) = Ok (VAttachment a)
    /\ _attachment_id a = VInt 77
    /\ _attachment_url a = VNone
    /\ _attachment_size a = VNone
    /\ _attachment_filename a = VStr "a.txt"
    /\ saved a = true.
Proof.
  intros inst.
  destruct (AttachmentField_lazy_get sample_builtins "photo" "ticket_photo"
              "photo" inst eq_refl) as [_ Hbuild].
  destruct (Hbuild eq_refl)
    as (a & Hget & _ & Hid & Hurl & Hsize & Hname & Hsaved & _).
  apply (f_equal fst) in Hget. cbn [fst] in Hget.
  exists a. repeat split; assumption.
Defined.

(** ** Attachment files: content, tickets, construction *)

Lemma AttachmentFile_save_unsaved (T : Transport) (w w' : world AttachmentFile)
    (r : result unit) :
  saved (self w) = false ->
  isinstance (_content (self w)) TBytes = true ->
  AttachmentFile_save T w = (r, w') ->
  sent w' = (sent w ++ [UPLOAD (_attachment_filename (self w))
                               (_content (self w))])%list
  /\ (r = Ok tt ->
      exists tok, token (self w') = Some tok /\ saved (self w') = true).
Proof.
  intros Hs Hc. unfold AttachmentFile_save. rewrite Hs, Hc. simpl.
  unfold AttachmentFile__upload_attachment, sbind, call, slift,
    update_self, upload_attachment_item, rbind. simpl.
  intros H. repeat run_step; inversion H; subst; simpl;
    (split; [reflexivity |]); try discriminate.
  intros _. eauto.
Qed.

(** X10.  Setting the content of a file, saved or not, to a [bytes] value
    marks it unsaved and keeps its id, url, size, file name and token, so
    the next [save] sends exactly one upload, of the new content under the
    current file name.  Setting anything that is not [bytes] raises
    [ValueError]. *)
Theorem AttachmentFile_content_setter (T : Transport) (a : AttachmentFile)
    (bs : list ascii) (log : list request) :
  (exists a',
     AttachmentFile_set_content (VBytes bs) a = Ok a'
     /\ saved a' = false /\ _content a' = VBytes bs
     /\ _attachment_id a' = _attachment_id a
     /\ _attachment_url a' = _attachment_url a
     /\ _attachment_size a' = _attachment_size a
     /\ _attachment_filename a' = _attachment_filename a
     /\ token a' = token a
     /\ forall r w',
          AttachmentFile_save T (mkWorld a' log) = (r, w') ->
          sent w' = (log ++ [UPLOAD (_attachment_filename a) (VBytes bs)])%list)
  /\ (forall v, isinstance v TBytes = false ->
      AttachmentFile_set_content v a
      = Raise (ValueError "Content attribute must be of type bytes.")).
Proof.
  split.
  - eexists. split; [reflexivity |]. repeat split.
    intros r w' H.
    now apply AttachmentFile_save_unsaved in H as [H _].
  - intros v Hv. unfold AttachmentFile_set_content. now rewrite Hv.
Qed.

Lemma AttachmentFile_content_setter_witness :
  exists a',
    AttachmentFile_set_content (VBytes ["x"%char]) saved_file = Ok a'
    /\ saved saved_file = true /\ saved a' = false
    /\ sent (snd (AttachmentFile_save sample_transport (mkWorld a' [])))
       = [UPLOAD (VStr "a.txt") (VBytes ["x"%char])].
Proof.
  destruct (AttachmentFile_content_setter sample_transport saved_file
              ["x"%char] []) as ((a' & Hset & Hsaved & _ & _ & _ & _ & _ & _
                                   & Hsend) & _).
  exists a'. split; [exact Hset |]. split; [reflexivity |].
  split; [exact Hsaved |].
  exact (Hsend _ _ (surjective_pairing _)).
Defined.

(** X11.  [save_with_ticket] on a saved file that carries an upload token
    sends one PUT to [/tickets/{ticket_id}.json] with the comment and the
    token and returns the answer; on an unsaved file it first uploads, then
    PUTs the token just received; when the upload fails it raises and PUTs
    nothing.  A file that is saved but has no token, as every file built from
    a stored attachment id is, makes it raise [AttributeError] without
    sending anything. *)
Theorem AttachmentFile_save_with_ticket_requests (B : Builtins)
    (T : Transport) (ticket_id comment : value) (w : world AttachmentFile) :
  let put tok :=
    PUT ("/tickets/" +:+ py_str B ticket_id +:+ ".json")
      (ticket_comment comment tok) in
  (forall tok, saved (self w) = true -> token (self w) = Some tok ->
     AttachmentFile_save_with_ticket B T ticket_id comment w
     = (respond T (put tok), mkWorld (self w) (sent w ++ [put tok])))
  /\ (saved (self w) = true -> token (self w) = None ->
      AttachmentFile_save_with_ticket B T ticket_id comment w
      = (Raise (AttributeError "token"), w))
  /\ (forall w1, saved (self w) = false ->
      AttachmentFile_save T w = (Ok tt, w1) ->
      exists tok,
        token (self w1) = Some tok
        /\ AttachmentFile_save_with_ticket B T ticket_id comment w
           = (respond T (put tok),
              mkWorld (self w1) (sent w1 ++ [put tok])))
  /\ (forall e w1, saved (self w) = false ->
      AttachmentFile_save T w = (Raise e, w1) ->
      AttachmentFile_save_with_ticket B T ticket_id comment w = (Raise e, w1)).
Proof.
  intros put. subst put.
  unfold AttachmentFile_save_with_ticket, sbind, sret, sraise, call,
    ticket_comment.
  split; [| split; [| split]].
  - intros tok Hs Ht. rewrite Hs. simpl. rewrite Ht. reflexivity.
  - intros Hs Ht. rewrite Hs. simpl. rewrite Ht. destruct w; reflexivity.
  - intros w1 Hs Hsave. rewrite Hs. simpl. rewrite Hsave.
    assert (Htok : exists tok, token (self w1) = Some tok).
    { unfold AttachmentFile_save in Hsave. rewrite Hs in Hsave.
      simpl in Hsave.
      destruct (negb (isinstance (_content (self w)) TBytes));
        [discriminate |].
      unfold AttachmentFile__upload_attachment, sbind, call, slift,
        update_self, upload_attachment_item, rbind in Hsave. simpl in Hsave.
      repeat run_step; inversion Hsave; subst; simpl; eauto. }
    destruct Htok as [tok Htok]. exists tok. split; [exact Htok |].
    now rewrite Htok.
  - intros e w1 Hs Hsave. rewrite Hs. simpl. now rewrite Hsave.
Qed.

Lemma AttachmentFile_save_with_ticket_requests_witness :
  AttachmentFile_save_with_ticket sample_builtins sample_transport
    (VInt 12) (VStr "see file") (mkWorld saved_file [])
  = (Raise (AttributeError "token"), mkWorld saved_file [])
  /\ sent (snd (AttachmentFile_save_with_ticket sample_builtins
                  sample_transport (VInt 12) (VStr "see file")
                  (mkWorld unsaved_file [])))
     = [UPLOAD (VStr "a.txt") (VBytes ["a"%char; "b"%char; "c"%char]);
        PUT "/tickets/12.json"
          (ticket_comment (VStr "see file") (VStr "tok-1"))].
Proof.
  split.
  - destruct (AttachmentFile_save_with_ticket_requests sample_builtins
                sample_transport (VInt 12) (VStr "see file")
                (mkWorld saved_file [])) as (_ & Hnone & _).
    apply Hnone; reflexivity.
  - destruct (AttachmentFile_save_with_ticket_requests sample_builtins
                sample_transport (VInt 12) (VStr "see file")
                (mkWorld unsaved_file [])) as (_ & _ & Hup & _).
    destruct (Hup _ eq_refl (surjective_pairing _)) as (tok & Htok & ->).
    vm_compute in Htok. injection Htok as <-. reflexivity.
Defined.

(** X12.  What [AttachmentFile.__init__] returns.  Without [save_fast],
    or with no (or empty) content, it sends nothing and returns an object
    with the id, url, size and content it was given, a file name even when
    none is passed, no upload token, and marked saved exactly when the id is
    true and there is no content.  With [save_fast] and true content it
    raises [ValueError] without uploading when the content is not [bytes],
    and otherwise uploads once; the object it then returns is marked saved,
    although content was given, and carries an upload token. *)
Theorem AttachmentFile_init_uploads (B : Builtins) (T : Transport)
    (id url size filename content : value) (save_fast : bool) :
  let out :=
    AttachmentFile_init B T id url size filename content save_fast in
  (truthy content && save_fast = false ->
   exists a,
     out = (Ok a, [])
     /\ saved a = truthy id && negb (truthy content)
     /\ _attachment_id a = id /\ _attachment_url a = url
     /\ _attachment_size a = size
     /\ _attachment_filename a = py_or filename (VStr (uuid4 B))
     /\ (truthy filename = false -> _attachment_filename a = VStr (uuid4 B))
     /\ _content a = content /\ token a = None)
  /\ (truthy content = true -> save_fast = true ->
      isinstance content TBytes = false ->
      out = (Raise (ValueError "Content attribute must be of type bytes."),
             []))
  /\ (truthy content = true -> save_fast = true ->
      isinstance content TBytes = true ->
      snd out = [UPLOAD (py_or filename (VStr (uuid4 B))) content]
      /\ forall a, fst out = Ok a ->
           saved a = true /\ exists tok, token a = Some tok).
Proof.
  intros out. subst out. unfold AttachmentFile_init.
  split; [| split].
  - intros H. eexists. split.
    + destruct (truthy content); [| reflexivity].
      simpl in H. rewrite H. reflexivity.
    + simpl. repeat split.
      * destruct (truthy content), (truthy id); reflexivity.
      * intros Hf. unfold py_or. now rewrite Hf.
  - intros Hc Hf Hb. rewrite Hc, Hf.
    rewrite AttachmentFile_save_not_bytes; [reflexivity | |]; simpl;
      [now rewrite Hc | exact Hb].
  - intros Hc Hf Hb. rewrite Hc, Hf.
    destruct (AttachmentFile_save T _) as [r w'] eqn:E.
    apply AttachmentFile_save_unsaved in E as [E Hok]; simpl;
      [| now rewrite Hc | exact Hb].
    simpl in E. destruct r as [[] | e]; simpl.
    + split; [exact E |]. intros a [= <-].
      destruct (Hok eq_refl) as (tok & Htok & Hsaved). eauto.
    + split; [exact E |]. intros a [=].
Qed.

Lemma AttachmentFile_init_uploads_witness :
  (exists a,
     AttachmentFile_init sample_builtins sample_transport (VInt 77) VNone
       VNone VNone VNone true
     = (Ok a, [])
     /\ saved a = true
     /\ _attachment_filename a = VStr (uuid4 sample_builtins))
  /\ AttachmentFile_init sample_builtins sample_transport VNone VNone VNone
       (VStr "a.txt") (VStr "abc") true
     = (Raise (ValueError "Content attribute must be of type bytes."), [])
  /\ AttachmentFile_init sample_builtins sample_transport VNone VNone VNone
       (VStr "a.txt") (VBytes ["a"%char]) true
     = (Ok (mkAttachmentFile (VInt 77) (VStr "https://files/a.txt") (VInt 3)
              (VStr "a.txt") (VBytes ["a"%char]) true (Some (VStr "tok-1"))),
        [UPLOAD (VStr "a.txt") (VBytes ["a"%char])]).
Proof.
  split; [| split].
  - destruct (AttachmentFile_init_uploads sample_builtins sample_transport
                (VInt 77) VNone VNone VNone VNone true)
      as (Hplain & _ & _).
    destruct (Hplain eq_refl)
      as (a & Hout & Hsaved & _ & _ & _ & _ & Hname & _).
    exists a. split; [exact Hout |]. split; [exact Hsaved |].
    apply Hname. reflexivity.
  - destruct (AttachmentFile_init_uploads sample_builtins sample_transport
                VNone VNone VNone (VStr "a.txt") (VStr "abc") true)
      as (_ & Hbad & _).
    apply Hbad; reflexivity.
  - vm_compute. reflexivity.
Defined.

(** ** Record manager: lookup by id, last, delete *)

(** X13.  [RecordManager.get] called with an [id] ignores every other
    criterion and does not consult [filter]: it sends one GET to
    [/custom_objects/{model}/records/{id}], with the model name in lower
    case.  A 404 becomes [NotFoundError] carrying the model name as written
    and the id, a 400 becomes [BadRequestError] quoting the id and the
    response body, any other HTTP error is raised unchanged, and an answer is
    handed to [parse_record_fields], as [{}] when it has no
    [custom_object_record]. *)
Theorem RecordManager_get_by_id_outcomes (B : Builtins) (T : Transport)
    (Q : QuerySet) (model_name : string) (kwargs : pydict value)
    (record_id : value) (w : world unit) :
  dict_get "id" kwargs = Some record_id ->
  let req :=
    GET ("/custom_objects/" +:+ lower model_name +:+ "/records/"
           +:+ py_str B record_id) VNone in
  let out := RecordManager_get B T Q model_name kwargs w in
  sent (snd out) = (sent w ++ [req])%list
  /\ (forall body, respond T req = Raise (HTTPError 404 body) ->
      fst out = Raise (NotFoundError model_name record_id))
  /\ (forall body, respond T req = Raise (HTTPError 400 body) ->
      fst out
      = Raise (BadRequestError
                 ("Bad request for record with ID " +:+ py_str B record_id
                    +:+ ". Response: " +:+ py_str B body)))
  /\ (forall status body, respond T req = Raise (HTTPError status body) ->
      status <> 400 -> status <> 404 ->
      fst out = Raise (HTTPError status body))
  /\ (forall d, respond T req = Ok (VDict d) ->
      fst out
      = qs_parse_record_fields Q
          (default (VDict []) (dict_get "custom_object_record" d))).
Proof.
  intros Hid req out. subst req out.
  unfold RecordManager_get. rewrite Hid.
  unfold RecordManager_get_by_id, call, sraise. cbn [self sent].
  split; [| split; [| split; [| split]]].
  - destruct (respond T _) as [response | []]; try reflexivity.
    destruct (status =? 400); [reflexivity |].
    destruct (status =? 404); reflexivity.
  - intros body ->. reflexivity.
  - intros body ->. reflexivity.
  - intros status body -> H400 H404.
    destruct (Z.eqb_spec status 400); [contradiction |].
    destruct (Z.eqb_spec status 404); [contradiction | reflexivity].
  - intros d ->. reflexivity.
Qed.

Lemma RecordManager_get_by_id_outcomes_witness :
  let T404 := {| respond := fun _ => Raise (HTTPError 404 (VDict [])) |} in
  RecordManager_get sample_builtins T404 sample_queryset "MockModel"
    [("id", VInt 9); ("codigo", VStr "1234")] (mkWorld tt [])
  = (Raise (NotFoundError "MockModel" (VInt 9)),
     mkWorld tt [GET "/custom_objects/mockmodel/records/9" VNone]).
Proof.
  intros T404.
  destruct (RecordManager_get_by_id_outcomes sample_builtins T404
              sample_queryset "MockModel"
              [("id", VInt 9); ("codigo", VStr "1234")] (VInt 9)
              (mkWorld tt []) eq_refl) as (Hsent & H404 & _).
  specialize (H404 (VDict []) eq_refl).
  destruct (RecordManager_get _ _ _ _ _ _) as [r [[] log]].
  simpl in Hsent, H404. subst. reflexivity.
Defined.

(** X14.  [RecordManager.last] sends one GET to
    [/custom_objects/{model}/records] asking for one record sorted by
    [-updated_at].  When the answer has no [custom_object_records], or a
    null or empty one, it returns [None] without parsing anything; when the
    list has a first record it returns what [parse_record_fields] makes of
    that record. *)
Theorem RecordManager_last_outcomes (T : Transport) (Q : QuerySet)
    (model_name : string) (w : world unit) :
  let req := GET (records_path model_name) last_params in
  let out := RecordManager_last T Q model_name w in
  snd out = mkWorld tt (sent w ++ [req])
  /\ (forall d, respond T req = Ok (VDict d) ->
      truthy (default VNone (dict_get "custom_object_records" d)) = false ->
      fst out = Ok VNone)
  /\ (forall d first rest, respond T req = Ok (VDict d) ->
      dict_get "custom_object_records" d = Some (VList (first :: rest)) ->
      fst out = qs_parse_record_fields Q first)
  /\ (forall e, respond T req = Raise e -> fst out = Raise e).
Proof.
  intros req out. subst req out.
  unfold RecordManager_last, sbind, call, slift, sret. cbn [self sent].
  split; [| split; [| split]].
  - destruct w as [[] log]. cbn [self sent].
    destruct (respond T _) as [response | e]; [| reflexivity].
    destruct (py_get response "custom_object_records" VNone) as [recs | e];
      [| reflexivity].
    destruct (truthy recs); reflexivity.
  - intros d -> Hfalsy. simpl. now rewrite Hfalsy.
  - intros d first rest -> Hd. simpl. rewrite Hd. reflexivity.
  - intros e ->. reflexivity.
Qed.

Lemma RecordManager_last_outcomes_witness :
  let Tempty :=
    {| respond := fun _ => Ok (VDict [("custom_object_records", VList [])]) |}
  in
  let Tone :=
    {| respond := fun _ =>
         Ok (VDict [("custom_object_records", VList [record_one])]) |} in
  RecordManager_last Tempty sample_queryset "MockModel" (mkWorld tt [])
  = (Ok VNone,
     mkWorld tt [GET "/custom_objects/mockmodel/records" last_params])
  /\ fst (RecordManager_last Tone sample_queryset "MockModel" (mkWorld tt []))
     = Ok record_one.
Proof.
  intros Tempty Tone. split.
  - destruct (RecordManager_last_outcomes Tempty sample_queryset "MockModel"
                (mkWorld tt [])) as (Hw & Hnone & _).
    specialize (Hnone _ eq_refl eq_refl).
    destruct (RecordManager_last _ _ _ _) as [r w']. simpl in *.
    now subst.
  - destruct (RecordManager_last_outcomes Tone sample_queryset "MockModel"
                (mkWorld tt [])) as (_ & _ & Hone & _).
    exact (Hone _ record_one [] eq_refl eq_refl).
Defined.

Lemma CustomObject_delete_sends (B : Builtins) (T : Transport)
    (cls : pyclass) (w w' : world instance) (r : result value)
    (id : value) (i0 : instance) :
  getattr B cls "id" (self w) = (Ok id, i0) ->
  CustomObject_delete B T cls w = (r, w') ->
  sent w' = (sent w ++ [DELETE (delete_path B cls id)])%list
  /\ self w' = i0.
Proof.
  unfold CustomObject_delete, sbind, on_self, call, slift, sraise, sret.
  destruct w as [i log]. simpl. intros ->. simpl. intros H.
  destruct (respond T _) as [response | e]; simpl in H.
  - destruct (py_get response "status_code" (VInt 204)) as [st | e];
      simpl in H.
    + destruct (negb (py_eq_int st 204)); simpl in H.
      * destruct (py_get response "description" _); simpl in H;
          inversion H; auto.
      * inversion H; auto.
    + inversion H; auto.
  - inversion H; auto.
Qed.

(** X15.  [RecordManager.delete] sends one DELETE to the path [save]
    updates the record at, with the class name in lower case, and returns
    the answer as it is.  For a class whose name has an upper-case letter
    this is not the path the entity's own [delete] addresses for the same
    id. *)
Theorem RecordManager_delete_path (B : Builtins) (T : Transport)
    (cls : pyclass) (record_id : value) (w : world unit) :
  RecordManager_delete B T (cls_name cls) record_id w
  = (respond T (DELETE (update_path B cls record_id)),
     mkWorld tt (sent w ++ [DELETE (update_path B cls record_id)]))
  /\ (has_upper (cls_name cls) = true ->
      forall (i : instance) r w',
        i !! "id" = Some record_id ->
        dict_get "id" (cls_dict cls) = None ->
        CustomObject_delete B T cls (mkWorld i []) = (r, w') ->
        exists path, sent w' = [DELETE path]
                     /\ path <> update_path B cls record_id).
Proof.
  split.
  - unfold RecordManager_delete, call, update_path. destruct w as [[] log].
    reflexivity.
  - intros Hu i r w' Hi Hplain Hdel.
    destruct (CustomObject_delete_sends B T cls (mkWorld i []) w' r
                record_id i
                (getattr_plain B cls "id" i record_id Hplain Hi) Hdel)
      as [Hsent _].
    exists (delete_path B cls record_id).
    split; [exact Hsent |]. now apply type_key_paths_differ.
Qed.

Lemma RecordManager_delete_path_witness :
  let persisted := <["id" := VStr "1"]> custom_object in
  has_upper (cls_name MockCustomObject) = true
  /\ sent (snd (RecordManager_delete sample_builtins sample_transport
                  (cls_name MockCustomObject) (VStr "1") (mkWorld tt [])))
     = [DELETE "/custom_objects/mockcustomobject/records/1"]
  /\ exists path,
       sent (snd (CustomObject_delete sample_builtins sample_transport
                    MockCustomObject (mkWorld persisted [])))
       = [DELETE path]
       /\ path <> "/custom_objects/mockcustomobject/records/1".
Proof.
  intros persisted.
  destruct (RecordManager_delete_path sample_builtins sample_transport
              MockCustomObject (VStr "1") (mkWorld tt [])) as [Hmgr Hent].
  split; [reflexivity |]. split; [now rewrite Hmgr |].
  exact (Hent eq_refl persisted _ _ eq_refl eq_refl (surjective_pairing _)).
Defined.

(** ** Entities: answers of the service *)

(** X16.  How [save] reads the answer to its request.  On a create, an
    answer whose [details.base[0].description] is the name-collision message
    raises [UniqueConstraintError] with the entity's name, whatever the
    status code; otherwise a [status_code] other than 201 raises
    [CreateRecordError] with the answer's [details]; in both cases the entity
    is left as it was.  When the answer passes both checks and carries an id
    but no name, [save] raises only after it has stored the id.  On an update
    a [status_code] other than 200 raises [UpdateRecordError], and an answer
    with status 200 or none is returned; the entity is never touched. *)
Theorem save_response_handling (B : Builtins) (cls : pyclass)
    (response : value) (i : instance) :
  (forall d name, response_description response = Ok d ->
     py_eq_str d name_exists_message = true ->
     getattr B cls "name" i = (Ok name, i) ->
     save_created B cls response i = (Raise (UniqueConstraintError name), i))
  /\ (forall d st m, response_description response = Ok d ->
      py_eq_str d name_exists_message = false ->
      py_get response "status_code" (VInt 201) = Ok st ->
      py_eq_int st 201 = false ->
      py_get response "details" (VStr "Error creating record") = Ok m ->
      save_created B cls response i = (Raise (CreateRecordError m), i))
  /\ (forall d st id e, response_description response = Ok d ->
      py_eq_str d name_exists_message = false ->
      py_get response "status_code" (VInt 201) = Ok st ->
      py_eq_int st 201 = true ->
      record_item response "id" = Ok id ->
      record_item response "name" = Raise e ->
      dict_get "id" (cls_dict cls) = None ->
      save_created B cls response i = (Raise e, <["id" := id]> i))
  /\ (forall st m, py_get response "status_code" (VInt 200) = Ok st ->
      py_eq_int st 200 = false ->
      py_get response "details" (VStr "Error updating record") = Ok m ->
      save_updated response i = (Raise (UpdateRecordError m), i))
  /\ (forall st, py_get response "status_code" (VInt 200) = Ok st ->
      py_eq_int st 200 = true ->
      save_updated response i = (Ok response, i)).
Proof.
  unfold response_description, name_exists_message, record_item.
  split; [| split; [| split; [| split]]].
  - intros d name Hd He Hn. unfold save_created, sbind, slift, sraise.
    rewrite Hd, He, Hn. reflexivity.
  - intros d st m Hd He Hs Hne Hm. unfold save_created, sbind, slift, sraise.
    rewrite Hd, He, Hs, Hne. simpl. rewrite Hm. reflexivity.
  - intros d st id e Hd He Hs Hst Hid Hname Hplain.
    unfold save_created, sbind, slift, sraise, setattr.
    rewrite Hd, He, Hs, Hst. simpl. rewrite Hid, Hplain, Hname. reflexivity.
  - intros st m Hs Hne Hm. unfold save_updated, sbind, slift, sraise.
    rewrite Hs, Hne. simpl. rewrite Hm. reflexivity.
  - intros st Hs Hst. unfold save_updated, sbind, slift, sret.
    rewrite Hs, Hst. reflexivity.
Qed.

Lemma save_response_handling_witness :
  let T := {| respond := fun _ => Ok name_taken_response |} in
  CustomObject_save sample_builtins T MockCustomObject
    (mkWorld custom_object [])
  = (Raise (UniqueConstraintError (VStr "Test Object")),
     mkWorld custom_object
       [POST "/custom_objects/mockcustomobject/records"
          (save_data [("name", VStr "Test Object"); ("codigo", VStr "1234");
                      ("ativo", VBool true)] (VStr "Test Object") VNone)]).
Proof.
  intros T. rewrite CustomObject_save_eq.
  assert (Hp : save_prepare sample_builtins MockCustomObject custom_object
               = (Ok (save_data [("name", VStr "Test Object");
                                 ("codigo", VStr "1234");
                                 ("ativo", VBool true)]
                        (VStr "Test Object") VNone, None), custom_object))
    by (vm_compute; reflexivity).
  cbn [self sent]. rewrite Hp. cbv zeta. cbn [respond T].
  destruct (save_response_handling sample_builtins MockCustomObject
              name_taken_response custom_object) as (Huniq & _).
  rewrite (Huniq (VStr "Name already exists. Try another one.")
             (VStr "Test Object")); reflexivity.
Defined.

(** X17.  [delete] reads the entity's id without checking it, sends one
    DELETE to the path built from it (for an id that is [None] the path ends
    in [/records/None]) and never changes the entity.  A dict answer with
    status 204 or none is returned as it is; with another status it raises
    [DeleteRecordError] with the answer's [description]; an answer that is an
    integer, having no [get], raises [AttributeError]; a transport error is
    raised unchanged. *)
Theorem CustomObject_delete_outcomes (B : Builtins) (T : Transport)
    (cls : pyclass) (i : instance) (log : list request) (id : value) :
  dict_get "id" (cls_dict cls) = None ->
  i !! "id" = Some id ->
  let req := DELETE (delete_path B cls id) in
  let out := CustomObject_delete B T cls (mkWorld i log) in
  snd out = mkWorld i (log ++ [req])
  /\ (forall d, respond T req = Ok (VDict d) ->
      py_eq_int (default (VInt 204) (dict_get "status_code" d)) 204 = true ->
      fst out = Ok (VDict d))
  /\ (forall d, respond T req = Ok (VDict d) ->
      py_eq_int (default (VInt 204) (dict_get "status_code" d)) 204 = false ->
      fst out
      = Raise (DeleteRecordError
                 (default (VStr "Error deleting record")
                    (dict_get "description" d))))
  /\ (forall n, respond T req = Ok (VInt n) ->
      fst out = Raise (AttributeError "get"))
  /\ (forall e, respond T req = Raise e -> fst out = Raise e).
Proof.
  intros Hplain Hid req out. subst req out.
  unfold CustomObject_delete, sbind, on_self, call, slift, sraise, sret.
  cbn [self sent]. rewrite (getattr_plain B cls "id" i id Hplain Hid).
  cbn [self sent].
  split; [| split; [| split; [| split]]].
  - destruct (respond T _) as [response | e]; [| reflexivity].
    destruct (py_get response "status_code" (VInt 204)) as [st | e];
      [| reflexivity].
    cbn. destruct (negb (py_eq_int st 204)); [| reflexivity].
    destruct (py_get response "description" _); reflexivity.
  - intros d -> Hst. cbn. now rewrite Hst.
  - intros d -> Hst. cbn. now rewrite Hst.
  - intros n ->. reflexivity.
  - intros e ->. reflexivity.
Qed.

Lemma CustomObject_delete_outcomes_witness :
  CustomObject_delete sample_builtins sample_transport MockCustomObject
    (mkWorld custom_object [])
  = (Ok (VDict []),
     mkWorld custom_object
       [DELETE "/custom_objects/MockCustomObject/records/None"]).
Proof.
  destruct (CustomObject_delete_outcomes sample_builtins sample_transport
              MockCustomObject custom_object [] VNone eq_refl eq_refl)
    as (Hw & Hok & _).
  specialize (Hok [] eq_refl eq_refl).
  destruct (CustomObject_delete _ _ _ _) as [r w']. simpl in *. now subst.
Defined.

(** ** Entities: to_dict, construction, the name sent *)

Lemma to_dict_loop_to_save_loop (B : Builtins) (entries : pydict Field) :
  Forall (fun entry => is_choice_field (snd entry) = false) entries ->
  forall acc i, to_dict_loop B entries acc i = to_save_loop B entries acc i.
Proof.
  induction 1 as [| [k f] entries Hf Hrest IH]; intros acc i;
    [reflexivity |].
  cbn [to_dict_loop to_save_loop]. unfold to_save_entry. simpl in Hf.
  rewrite Hf. unfold sbind, sret.
  destruct (Field_get B f i) as [[v | e] i0]; [apply IH | reflexivity].
Qed.

(** X18.  For a class without Dropdown and Multiselect fields [to_dict]
    and [to_save] are the same function: the same dict and the same effect
    on the instance, error cases included. *)
Theorem to_dict_is_to_save (B : Builtins) (cls : pyclass) (i : instance) :
  choice_free cls -> to_dict B cls i = to_save B cls i.
Proof.
  intros Hfree. unfold to_dict, to_save, sbind.
  destruct (read_defaults B cls DEFAULT_FIELDS i) as [[dflt | e] i0];
    [| reflexivity].
  now rewrite (to_dict_loop_to_save_loop B (cls_dict cls) Hfree).
Qed.

Lemma to_dict_is_to_save_witness :
  choice_free MockCustomObject
  /\ to_save sample_builtins MockCustomObject custom_object
     = (Ok [("name", VStr "Test Object"); ("codigo", VStr "1234");
            ("ativo", VBool true)],
        custom_object).
Proof.
  assert (Hfree : choice_free MockCustomObject) by (repeat constructor).
  split; [exact Hfree |].
  rewrite <- (to_dict_is_to_save sample_builtins MockCustomObject
                custom_object Hfree).
  vm_compute. reflexivity.
Defined.











(** ** Lookup fields: the remote declaration *)

(** X21.  [LookupField.to_zendesk] of [mercuryorm/fields.py] builds the
    relationship target from [related_object.__class__.__name__]: declared
    with a class, whatever the class, the target is
    [zen:custom_object:type]; declared with an instance it is the lower-cased
    class of the instance; declared with a string it is that string, not
    lower-cased.  The method of the same name in
    [mercuryfieldservice/fields.py] uses [related_object.__name__] and gives
    the lower-cased name of the class; on strings the two agree. *)
Theorem LookupField_to_zendesk_target (capitalize : string -> string)
    (name : string) :
  (forall c,
     LookupField_to_zendesk capitalize name (VClass c)
     = zendesk_lookup name "zen:custom_object:type" (capitalize name))
  /\ (forall c bases attrs,
      LookupField_to_zendesk capitalize name (VObject c bases attrs)
      = zendesk_lookup name ("zen:custom_object:" +:+ lower c)
          (capitalize name))
  /\ (forall key,
      LookupField_to_zendesk capitalize name (VStr key)
      = zendesk_lookup name ("zen:custom_object:" +:+ key) (capitalize name)
      /\ fieldservice_LookupField_to_zendesk capitalize name (VStr key)
         = Ok (LookupField_to_zendesk capitalize name (VStr key)))
  /\ (forall c,
      fieldservice_LookupField_to_zendesk capitalize name (VClass c)
      = Ok (zendesk_lookup name ("zen:custom_object:" +:+ lower c)
              (capitalize name)))
  /\ (forall c,
      fieldservice_LookupField_to_zendesk capitalize name (VClass c)
      = Ok (LookupField_to_zendesk capitalize name (VClass c))
      <-> lower c = "type").
Proof.
  repeat split; try reflexivity.
  - unfold fieldservice_LookupField_to_zendesk, LookupField_to_zendesk,
      zendesk_lookup. simpl. intros [= H]. exact H.
  - intros H. unfold fieldservice_LookupField_to_zendesk,
      LookupField_to_zendesk. simpl. now rewrite H.
Qed.

(** ** Entities: the keys of the payload *)

Lemma dict_merge_keys {A} (k : string) (d e : pydict A) :
  is_Some (dict_get k (dict_merge d e))
  <-> is_Some (dict_get k d) \/ In k (map fst e).
Proof.
  destruct (in_dec string_dec k (map fst e)) as [Hin | Hnot].
  - destruct (dict_get_merge_in k e d Hin) as (v & -> & _).
    split; [now right | eauto].
  - rewrite dict_get_merge_notin by exact Hnot. tauto.
Qed.

Lemma read_defaults_keys (B : Builtins) (cls : pyclass) (keys : list string) :
  forall i i' dflt, read_defaults B cls keys i = (Ok dflt, i') ->
  map fst dflt = keys.
Proof.
  induction keys as [| k keys IH]; intros i i' dflt; simpl.
  - now intros [= <- _].
  - intros H. apply sbind_Ok in H as (v & i0 & _ & H).
    apply sbind_Ok in H as (rest & i1 & Hrest & H).
    inversion H; subst. simpl. f_equal. eapply IH, Hrest.
Qed.

Lemma to_save_entry_keys (B : Builtins) (acc acc' : pydict value)
    (entry : string * Field) (i i' : instance) (k : string) :
  to_save_entry B acc entry i = (Ok acc', i') ->
  is_Some (dict_get k acc') <-> is_Some (dict_get k acc) \/ k = fst entry.
Proof.
  destruct entry as [n f]. unfold to_save_entry. intros H.
  assert (Hset : forall (v : value) (d : pydict value),
            is_Some (dict_get k (dict_set n v d))
            <-> is_Some (dict_get k d) \/ k = n).
  { intros v d. rewrite dict_get_set.
    destruct (String.eqb_spec n k) as [-> | Hne].
    - split; [now right | eauto].
    - split; [now left | intros [? | ?]; [assumption | congruence]]. }
  destruct (is_choice_field f).
  - apply sbind_Ok in H as (v & i0 & _ & H).
    destruct (negb (is_none v)).
    + apply sbind_Ok in H as (rep & i1 & _ & H). inversion H; subst.
      rewrite !Hset. simpl. tauto.
    + inversion H; subst. apply Hset.
  - apply sbind_Ok in H as (v & i0 & _ & H). inversion H; subst. apply Hset.
Qed.

Lemma to_save_loop_keys (B : Builtins) (entries : pydict Field) (k : string) :
  forall acc i i' cust,
    to_save_loop B entries acc i = (Ok cust, i') ->
    is_Some (dict_get k cust)
    <-> is_Some (dict_get k acc) \/ In k (map fst entries).
Proof.
  induction entries as [| entry entries IH]; intros acc i i' cust H.
  - inversion H; subst. simpl. tauto.
  - cbn [to_save_loop] in H.
    apply sbind_Ok in H as (acc1 & i0 & Hentry & Hloop).
    rewrite (IH _ _ _ _ Hloop), (to_save_entry_keys _ _ _ _ _ _ k Hentry).
    simpl. intuition congruence.
Qed.

(** X22.  The keys of the payload of [to_save].  Whenever [to_save]
    returns, every declared field has its key in the payload, null or not,
    and the payload has no key that is neither a declared field nor one of
    the seven default keys. *)
Theorem to_save_keys (B : Builtins) (cls : pyclass) (i i' : instance)
    (d : pydict value) :
  to_save B cls i = (Ok d, i') ->
  (forall k, In k (map fst (cls_dict cls)) -> is_Some (dict_get k d))
  /\ (forall k, is_Some (dict_get k d) ->
      In k (map fst (cls_dict cls)) \/ In k DEFAULT_FIELDS).
Proof.
  unfold to_save. intros H.
  apply sbind_Ok in H as (dflt & i0 & Hdflt & H).
  apply sbind_Ok in H as (cust & i1 & Hcust & H).
  inversion H; subst. clear H.
  apply read_defaults_keys in Hdflt.
  split.
  - intros k Hk. apply dict_merge_keys. left.
    apply (to_save_loop_keys _ _ k _ _ _ _ Hcust). now right.
  - intros k Hk. apply dict_merge_keys in Hk as [Hk | Hk].
    + apply (to_save_loop_keys _ _ k _ _ _ _ Hcust) in Hk as [[v Hv] | Hk];
        [discriminate Hv | now left].
    + right. rewrite <- Hdflt. now apply drop_none_keys.
Qed.

Lemma to_save_keys_witness :
  is_Some (dict_get "priority" draft_ticket_payload)
  /\ dict_get "priority" draft_ticket_payload = Some VNone
  /\ dict_get "colour" draft_ticket_payload = None.
Proof.
  destruct (to_save_keys sample_builtins Ticket draft_ticket draft_ticket
              draft_ticket_payload ltac:(vm_compute; reflexivity))
    as [Hdecl Honly].
  split; [apply Hdecl; simpl; auto |]. split; [reflexivity |].
  destruct (dict_get "colour" draft_ticket_payload) as [v |] eqn:E;
    [| reflexivity].
  destruct (Honly "colour" (ex_intro _ v E)) as [H | H]; simpl in H;
    intuition discriminate.
Defined.

(** ** Entities: save after save, attachments never attached *)





Lemma to_save_loop_unattached (B : Builtins) (entries : pydict Field)
    (k field_name ticket : string) :
  In (k, AttachmentField field_name ticket None) entries ->
  forall acc i r i', to_save_loop B entries acc i = (r, i') ->
                     exists e, r = Raise e.
Proof.
  induction entries as [| entry entries IH]; intros Hin acc i r i' H;
    [destruct Hin |].
  cbn [to_save_loop] in H. unfold sbind in H.
  destruct (to_save_entry B acc entry i) as [[acc1 | e] i0] eqn:E.
  - destruct Hin as [-> | Hin]; [| eapply IH; eassumption].
    unfold to_save_entry in E. simpl in E. discriminate.
  - inversion H. eauto.
Qed.

(** X24.  [contribute_to_class] alone gives an Attachment field the
    attribute names [__get__] reads.  An entity whose class declares an
    Attachment field that [contribute_to_class] never reached cannot be
    saved: [to_save] raises, [save] sends no request and the entity is left
    as it was, apart from file objects built by other Attachment fields. *)
Theorem unattached_attachment_blocks_save (B : Builtins) (T : Transport)
    (cls : pyclass) (k field_name ticket : string) (w w' : world instance)
    (r : result value) :
  In (k, AttachmentField field_name ticket None) (cls_dict cls) ->
  CustomObject_save B T cls w = (r, w') ->
  (exists e, r = Raise e) /\ sent w' = sent w /\ grows (self w) (self w').
Proof.
  intros Hin H. unfold CustomObject_save, sbind, on_self in H.
  destruct (to_save B cls (self w)) as [rs i0] eqn:Hts.
  pose proof (to_save_grows _ _ _ _ _ Hts) as Hg.
  assert (Hraise : exists e, rs = Raise e).
  { unfold to_save, sbind in Hts.
    destruct (read_defaults B cls DEFAULT_FIELDS (self w))
      as [[dflt | e] i1]; [| inversion Hts; eauto].
    destruct (to_save_loop B (cls_dict cls) [] i1) as [rl i2] eqn:Hl.
    destruct (to_save_loop_unattached B _ _ _ _ Hin _ _ _ _ Hl) as [e ->].
    inversion Hts. eauto. }
  destruct Hraise as [e ->]. inversion H; subst. simpl. eauto.
Qed.

Lemma unattached_attachment_blocks_save_witness :
  CustomObject_save sample_builtins sample_transport Report
    (mkWorld report [])
  = (Raise (AttributeError "model_file_attribute_name"), mkWorld report []).
Proof.
  destruct (unattached_attachment_blocks_save sample_builtins
              sample_transport Report "scan" "scan" "ticket_scan"
              (mkWorld report []) _ _ ltac:(simpl; auto)
              (surjective_pairing _)) as ((e & He) & Hsent & _).
  vm_compute. reflexivity.
Defined.

(** ** client/zendesk_manager.py *)

Lemma find_custom_object_found key pre obj post :
  Forall (has_other_key key) pre ->
  py_getitem obj "key" = Ok (VStr key) ->
  find_custom_object key (pre ++ obj :: post) = Ok obj.
Proof.
  intros Hpre Hobj. induction Hpre as [| x pre (k & Hk & Hne) _ IH]; simpl.
  - rewrite Hobj. simpl. rewrite String.eqb_refl. reflexivity.
  - rewrite Hk. simpl. rewrite Hne. exact IH.
Qed.

Lemma find_custom_object_missing key objs :
  Forall (has_other_key key) objs ->
  find_custom_object key objs = Ok VNone.
Proof.
  induction 1 as [| x objs (k & Hk & Hne) _ IH]; simpl.
  - reflexivity.
  - rewrite Hk. simpl. rewrite Hne. exact IH.
Qed.

Lemma keyed_object_truthy obj k :
  py_getitem obj "key" = Ok k -> truthy obj = true.
Proof.
  destruct obj as [| | | | | | | d | | | |]; simpl; try discriminate.
  destruct d; [discriminate | reflexivity].
Qed.

(** X25. [create_custom_object_field] refuses the key ["name"] with a
    message and an unknown field type with a [ValueError], the key being
    looked at first, and sends nothing in either case.  Otherwise it
    sends one POST to the object's fields whose body carries the type,
    key and title, the options exactly for a dropdown or multiselect
    with a non-empty list of choices, and a relationship target, built
    from the field's own key, exactly for a lookup. *)
Theorem create_custom_object_field_outcomes (T : Transport)
    (custom_object_key field_type key title : string)
    (choices : option (list string)) (w : world unit) :
  (key = "name" ->
   create_custom_object_field T custom_object_key field_type key title
     choices w
   = (Ok (VDict [("message",
                  VStr "Field 'name' is not allowed to be created")]), w))
  /\ (key <> "name" -> ~ In field_type valid_field_types ->
      exists msg,
        create_custom_object_field T custom_object_key field_type key title
          choices w
        = (Raise (ValueError msg), w))
  /\ (key <> "name" -> In field_type valid_field_types ->
      exists data,
        let req :=
          POST ("/custom_objects/" +:+ custom_object_key +:+ "/fields")
            (VDict [("custom_object_field", VDict data)]) in
        create_custom_object_field T custom_object_key field_type key title
          choices w
        = (respond T req, mkWorld (self w) (sent w ++ [req]))
        /\ dict_get "type" data = Some (VStr field_type)
        /\ dict_get "key" data = Some (VStr key)
        /\ dict_get "title" data = Some (VStr title)
        /\ dict_get "relationship_target_type" data
           = (if String.eqb field_type "lookup"
              then Some (VStr ("zen:custom_object:" +:+ key)) else None)
        /\ dict_get "custom_field_options" data
           = (match choices with
              | Some (c :: cs) =>
                  if String.eqb field_type "dropdown"
                     || String.eqb field_type "multiselect"
                  then Some (VList (map field_option (c :: cs))) else None
              | _ => None
              end)).
Proof.
  unfold create_custom_object_field. repeat split.
  - intros ->. reflexivity.
  - intros Hkey Htype. apply String.eqb_neq in Hkey. rewrite Hkey.
    destruct (existsb (String.eqb field_type) valid_field_types) eqn:Hin.
    + exfalso. apply Htype. apply existsb_exists in Hin.
      destruct Hin as (t & Ht & Heq). apply String.eqb_eq in Heq.
      subst. exact Ht.
    + simpl. eexists. reflexivity.
  - intros Hkey Htype. apply String.eqb_neq in Hkey. rewrite Hkey.
    assert (Hin : existsb (String.eqb field_type) valid_field_types = true).
    { apply existsb_exists. exists field_type. split; [exact Htype |].
      apply String.eqb_refl. }
    rewrite Hin. cbn [negb].
    unfold custom_object_field_data, call.
    eexists. split; [reflexivity |].
    simpl in Htype.
    destruct choices as [[| c cs] |];
      repeat (destruct Htype as [<- | Htype]); try contradiction;
      repeat split; reflexivity.
Qed.

Lemma create_custom_object_field_outcomes_witness :
  create_custom_object_field sample_transport "car" "lookup" "name" "Name"
    None (mkWorld tt [])
  = (Ok (VDict [("message",
                 VStr "Field 'name' is not allowed to be created")]),
     mkWorld tt [])
  /\ (exists msg,
        create_custom_object_field sample_transport "car" "money" "price"
          "Price" None (mkWorld tt [])
        = (Raise (ValueError msg), mkWorld tt []))
  /\ (exists data,
        let req := POST "/custom_objects/car/fields"
                     (VDict [("custom_object_field", VDict data)]) in
        create_custom_object_field sample_transport "car" "lookup" "owner"
          "Owner" (Some ["a"]) (mkWorld tt [])
        = (respond sample_transport req, mkWorld tt [req])
        /\ dict_get "type" data = Some (VStr "lookup")
        /\ dict_get "key" data = Some (VStr "owner")
        /\ dict_get "title" data = Some (VStr "Owner")
        /\ dict_get "relationship_target_type" data
           = Some (VStr "zen:custom_object:owner")
        /\ dict_get "custom_field_options" data = None).
Proof.
  split; [| split].
  - apply (create_custom_object_field_outcomes sample_transport "car"
             "lookup" "name" "Name" None (mkWorld tt [])). reflexivity.
  - apply (create_custom_object_field_outcomes sample_transport "car"
             "money" "price" "Price" None (mkWorld tt [])).
    + discriminate.
    + simpl. intros H. repeat (destruct H as [H | H]; [discriminate |]).
      exact H.
  - apply (create_custom_object_field_outcomes sample_transport "car"
             "lookup" "owner" "Owner" (Some ["a"]) (mkWorld tt [])).
    + discriminate.
    + simpl. auto 10.
Defined.

(** X26. Given a listing that answers with a list of objects,
    [get_or_create_custom_object] returns the first listed object whose
    key is the one asked for, with [False], after the one GET alone;
    when every listed object has another key it sends, after the GET,
    one POST creating the object, whose title in the plural is the title
    followed by an s, and returns the answer with [True]. *)
Theorem get_or_create_custom_object_outcomes (T : Transport)
    (key title description : string) (w : world unit)
    (response : value) (objs : list value) :
  respond T (GET "/custom_objects" VNone) = Ok response ->
  py_get response "custom_objects" (VList []) = Ok (VList objs) ->
  (forall pre obj post,
      objs = (pre ++ obj :: post)%list ->
      Forall (has_other_key key) pre ->
      py_getitem obj "key" = Ok (VStr key) ->
      get_or_create_custom_object T key title description w
      = (Ok (obj, false),
         mkWorld (self w) (sent w ++ [GET "/custom_objects" VNone])))
  /\ (Forall (has_other_key key) objs ->
      let create :=
        POST "/custom_objects"
          (VDict [("custom_object",
                   VDict [("key", VStr key); ("title", VStr title);
                          ("title_pluralized", VStr (title +:+ "s"));
                          ("description", VStr description);
                          ("include_in_list_view", VBool true)])]) in
      get_or_create_custom_object T key title description w
      = (match respond T create with
         | Ok new_object => Ok (new_object, true)
         | Raise e => Raise e
         end,
         mkWorld (self w)
           (sent w ++ [GET "/custom_objects" VNone; create]))).
Proof.
  intros Hresp Hlist.
  assert (Hget : forall found,
             find_custom_object key objs = Ok found ->
             get_custom_object T key w
             = (Ok found,
                mkWorld (self w) (sent w ++ [GET "/custom_objects" VNone]))).
  { intros found Hfound.
    unfold get_custom_object, list_custom_objects, sbind, slift, call.
    rewrite Hresp, Hlist. simpl. rewrite Hfound. reflexivity. }
  split.
  - intros pre obj post -> Hpre Hobj.
    unfold get_or_create_custom_object, sbind.
    rewrite (Hget obj (find_custom_object_found key pre obj post Hpre Hobj)).
    rewrite (keyed_object_truthy obj _ Hobj). reflexivity.
  - intros Hall create.
    unfold get_or_create_custom_object, sbind.
    rewrite (Hget VNone (find_custom_object_missing key objs Hall)).
    cbn [truthy]. unfold create_custom_object, custom_object_data, call.
    cbn [self sent]. fold create.
    destruct (respond T create); unfold sret; rewrite <- app_assoc;
      reflexivity.
Qed.

Lemma get_or_create_custom_object_outcomes_witness :
  get_or_create_custom_object catalogue_transport "ticket" "Ticket" ""
    (mkWorld tt [])
  = (Ok (VDict [("key", VStr "ticket"); ("title", VStr "Ticket")], false),
     mkWorld tt [GET "/custom_objects" VNone])
  /\ get_or_create_custom_object catalogue_transport "invoice" "Invoice" ""
       (mkWorld tt [])
     = (Ok (created_response, true),
        mkWorld tt
          [GET "/custom_objects" VNone;
           POST "/custom_objects"
             (custom_object_data "invoice" "Invoice" "")]).
Proof.
  pose proof (get_or_create_custom_object_outcomes catalogue_transport
                "ticket" "Ticket" "" (mkWorld tt []) catalogue _
                eq_refl eq_refl) as (Hfound & _).
  pose proof (get_or_create_custom_object_outcomes catalogue_transport
                "invoice" "Invoice" "" (mkWorld tt []) catalogue _
                eq_refl eq_refl) as (_ & Hcreate).
  split.
  - apply (Hfound [VDict [("key", VStr "car"); ("title", VStr "Car")]]
             _ [] eq_refl).
    + repeat constructor. exists (VStr "car"). split; reflexivity.
    + reflexivity.
  - apply Hcreate.
    repeat constructor; eexists; split; reflexivity.
Defined.

(** ** Entities: Dropdown and Multiselect values in the payload *)

Lemma Field_get_plain (B : Builtins) (f : Field) (i : instance) :
  is_attachment_field f = false -> data_type f <> TDatetimeT ->
  exists name,
    field_name_of f = Some name
    /\ Field_get B f i = (Ok (default VNone (i !! name)), i).
Proof.
  intros Ha Hdt. destruct f; simpl in Ha, Hdt; try discriminate;
    try congruence; eexists; split; reflexivity.
Qed.

Lemma getattr_default_plain (B : Builtins) (cls : pyclass) (k : string)
    (i : instance) :
  plain_fields (cls_dict cls) ->
  exists v, getattr_default B cls k VNone i = (Ok v, i).
Proof.
  intros Hplain. unfold getattr_default, getattr.
  destruct (dict_get k (cls_dict cls)) as [f |] eqn:E.
  - apply dict_get_in in E.
    destruct (proj1 (List.Forall_forall _ _) Hplain _ E) as [Ha Hdt].
    destruct (Field_get_plain B f i Ha Hdt) as (name & _ & ->). eauto.
  - destruct (i !! k); eauto.
Qed.

Lemma read_defaults_plain (B : Builtins) (cls : pyclass) (i : instance)
    (keys : list string) :
  plain_fields (cls_dict cls) ->
  exists dflt, read_defaults B cls keys i = (Ok dflt, i).
Proof.
  intros Hplain. induction keys as [| k keys [rest IH]]; simpl.
  - eexists. reflexivity.
  - unfold sbind.
    destruct (getattr_default_plain B cls k i Hplain) as [v ->].
    rewrite IH. eexists. reflexivity.
Qed.

Lemma to_save_loop_choice_value (B : Builtins) (entries : pydict Field)
    (k name : string) (f : Field) (v : value) (i : instance) :
  plain_fields entries ->
  In (k, f) entries -> is_choice_field f = true ->
  field_name_of f = Some name ->
  i !! name = Some v -> is_none v = false ->
  forall acc,
    to_save_loop B entries acc i = (Raise (AttributeError "get_to_save"), i).
Proof.
  intros Hplain Hin Hc Hname Hv Hnn.
  induction Hplain as [| [k0 f0] entries [Ha Hdt] _ IH]; intros acc;
    [destruct Hin |].
  simpl in Ha, Hdt. cbn [to_save_loop]. unfold sbind, to_save_entry.
  destruct (Field_get_plain B f0 i Ha Hdt) as (name0 & Hname0 & Hget).
  destruct (is_choice_field f0) eqn:Hc0.
  - unfold sbind. rewrite Hget.
    destruct (is_none (default VNone (i !! name0))) eqn:Hs; simpl.
    + destruct Hin as [[= -> ->] | Hin]; [| now apply IH].
      exfalso. rewrite Hname in Hname0. injection Hname0 as <-.
      rewrite Hv in Hs. simpl in Hs. congruence.
    + reflexivity.
  - unfold sbind. rewrite Hget. simpl.
    destruct Hin as [[= -> ->] | Hin]; [congruence | now apply IH].
Qed.

(** X27.  [to_save] asks a Dropdown or Multiselect field that holds a value
    for [get_to_save], which no field class defines.  So for a class without
    Attachment fields, an entity with a non-null value in such a field
    cannot be serialised for the service: [to_save] raises [AttributeError],
    and [save] raises it too, sends no request and leaves the entity as it
    was; [to_dict], which does not ask, still returns. *)
Theorem choice_value_blocks_save (B : Builtins) (T : Transport)
    (cls : pyclass) (k name : string) (f : Field) (v : value)
    (w : world instance) :
  plain_fields (cls_dict cls) ->
  In (k, f) (cls_dict cls) -> is_choice_field f = true ->
  field_name_of f = Some name ->
  self w !! name = Some v -> is_none v = false ->
  to_save B cls (self w) = (Raise (AttributeError "get_to_save"), self w)
  /\ CustomObject_save B T cls w = (Raise (AttributeError "get_to_save"), w)
  /\ exists d, to_dict B cls (self w) = (Ok d, self w).
Proof.
  intros Hplain Hin Hc Hname Hv Hnn.
  assert (Hts : to_save B cls (self w)
                = (Raise (AttributeError "get_to_save"), self w)).
  { unfold to_save, sbind.
    destruct (read_defaults_plain B cls (self w) DEFAULT_FIELDS Hplain)
      as [dflt ->].
    now rewrite (to_save_loop_choice_value B _ k name f v (self w)
                   Hplain Hin Hc Hname Hv Hnn). }
  split; [exact Hts |]. split.
  - unfold CustomObject_save, sbind, on_self. rewrite Hts.
    destruct w; reflexivity.
  - unfold to_dict, sbind.
    destruct (read_defaults_plain B cls (self w) DEFAULT_FIELDS Hplain)
      as [dflt ->].
    assert (Hloop : forall entries, plain_fields entries ->
              forall acc, exists cust,
                to_dict_loop B entries acc (self w) = (Ok cust, self w)).
    { induction 1 as [| [k0 f0] entries [Ha Hdt] _ IH]; intros acc; simpl.
      - eexists. reflexivity.
      - unfold sbind. simpl in Ha, Hdt.
        destruct (Field_get_plain B f0 (self w) Ha Hdt) as (n0 & _ & ->).
        apply IH. }
    destruct (Hloop _ Hplain []) as [cust ->]. eexists. reflexivity.
Qed.

Lemma choice_value_blocks_save_witness :
  to_save sample_builtins Ticket ticket
  = (Raise (AttributeError "get_to_save"), ticket)
  /\ CustomObject_save sample_builtins sample_transport Membership
       (mkWorld membership [])
     = (Raise (AttributeError "get_to_save"), mkWorld membership [])
  /\ to_dict sample_builtins Membership membership
     = (Ok [("name", VStr "gold"); ("owner", VStr "ana")], membership).
Proof.
  assert (Hticket : plain_fields (cls_dict Ticket)).
  { repeat constructor; simpl; discriminate. }
  assert (Hmember : plain_fields (cls_dict Membership)).
  { repeat constructor; simpl; discriminate. }
  split; [| split].
  - apply (choice_value_blocks_save sample_builtins sample_transport Ticket
             "status" "status" _ (VStr "open") (mkWorld ticket [])
             Hticket ltac:(simpl; auto) eq_refl eq_refl eq_refl eq_refl).
  - apply (choice_value_blocks_save sample_builtins sample_transport
             Membership "name" "name" _ (VStr "gold")
             (mkWorld membership [])
             Hmember ltac:(simpl; auto) eq_refl eq_refl eq_refl eq_refl).
  - vm_compute. reflexivity.
Defined.
